(** * Prochains_Departs: the network workers of [api.py] and the helpers of
    [models.py], as a shallow embedding.

    Python values that come out of [resp.json()] are dynamically typed, and
    most of what the workers do is react to their shape, so the embedding
    keeps them dynamic: a JSON value type, Python's exceptions as an error
    monad, and the operations the source applies to such values
    ([x[k]], [x.get(k, d)], [x or y], [isinstance], iteration, [==]) with
    the exception each of them raises on a value of the wrong type.

    A worker is a computation over a [world]: the log of HTTP requests it
    issued, the Qt signals it emitted, and (for [DepartureWorker]) its
    [results] dictionary.  The network is an oracle: what each call of
    [requests.get] comes to.

    What is left out: the [apikey] header of the live-feed requests; the
    numbers NaN and Infinity; the marshalling of signal arguments by Qt; the
    threads.  A body that is not JSON counts as a transport failure, as it
    is with a [requests] whose [JSONDecodeError] is a [RequestException].
    Library functions that depend on Unicode tables or on the clock are
    fields of the class [Library]; [Sample.library] gives them on ASCII. *)

From Stdlib Require Import ZArith Ascii String.
From Stdlib Require QArith.
From stdpp Require Import gmap strings list sorting pretty.

Local Open Scope Z_scope.
Set Warnings "-register-all,-clear-no-such-hyp".

(** ** Python values and exceptions *)

Module Py.

(** The values [json.loads] produces.  A [dict] keeps its items in insertion
    order; the keys of a JSON object are strings. *)
Inductive value : Type :=
| VNone
| VBool (b : bool)
| VInt (n : Z)
| VFloat (q : QArith_base.Q)
| VStr (s : string)
| VList (l : list value)
| VDict (items : list (string * value)).

(** The exception classes that occur in the workers. *)
Inductive exn : Type :=
| RequestException
| KeyError
| IndexError
| ValueError
| TypeError
| AttributeError.

Inductive res (A : Type) : Type :=
| Ok (a : A)
| Raise (e : exn).
Arguments Ok {A} a.
Arguments Raise {A} e.

Definition rbind {A B} (r : res A) (k : A → res B) : res B :=
  match r with
  | Ok a => k a
  | Raise e => Raise e
  end.

(** [bool(x)]. *)
Definition truthy (v : value) : bool :=
  match v with
  | VNone => false
  | VBool b => b
  | VInt n => negb (n =? 0)
  | VFloat q => negb (QArith_base.Qnum q =? 0)
  | VStr s => negb (String.eqb s "")
  | VList l => match l with [] => false | _ => true end
  | VDict d => match d with [] => false | _ => true end
  end.

(** [x or y]. *)
Definition or_else (x y : value) : value := if truthy x then x else y.

Definition is_list (v : value) : bool :=
  match v with VList _ => true | _ => false end.

Definition is_str (v : value) : bool :=
  match v with VStr _ => true | _ => false end.

Fixpoint dict_lookup (k : string) (d : list (string * value)) : option value :=
  match d with
  | [] => None
  | (k', v) :: d' => if String.eqb k k' then Some v else dict_lookup k d'
  end.

(** [x[k]] for a string key [k]. *)
Definition getitem (v : value) (k : string) : res value :=
  match v with
  | VDict d => match dict_lookup k d with Some x => Ok x | None => Raise KeyError end
  | _ => Raise TypeError
  end.

(** [x[0]].  A JSON object has no integer key, so on a [dict] this is a
    [KeyError]; on a string it is the first character. *)
Definition getitem0 (v : value) : res value :=
  match v with
  | VList l => match l with x :: _ => Ok x | [] => Raise IndexError end
  | VStr s =>
      match s with
      | String c _ => Ok (VStr (String c EmptyString))
      | EmptyString => Raise IndexError
      end
  | VDict _ => Raise KeyError
  | _ => Raise TypeError
  end.

(** [x.get(k, default)]: only a [dict] has the method. *)
Definition get (v : value) (k : string) (default : value) : res value :=
  match v with
  | VDict d => Ok (match dict_lookup k d with Some x => x | None => default end)
  | _ => Raise AttributeError
  end.

(** The items a [for] loop over [x] visits: the elements of a list, the keys
    of a dict, the characters of a string. *)
Definition iter (v : value) : res (list value) :=
  match v with
  | VList l => Ok l
  | VDict d => Ok (map (λ kv, VStr (fst kv)) d)
  | VStr s => Ok (map (λ c, VStr (String c EmptyString)) (String.list_ascii_of_string s))
  | _ => Raise TypeError
  end.

Definition num_of (v : value) : option QArith_base.Q :=
  match v with
  | VBool b => Some (QArith_base.inject_Z (if b then 1 else 0))
  | VInt n => Some (QArith_base.inject_Z n)
  | VFloat q => Some q
  | _ => None
  end.

(** [x == y] on the values that can be dictionary keys or are compared with
    a string: numbers (and booleans) compare by value, strings by content,
    and values of different kinds are unequal. *)
Definition eqb (x y : value) : bool :=
  match x, y with
  | VNone, VNone => true
  | VStr a, VStr b => String.eqb a b
  | _, _ =>
      match num_of x, num_of y with
      | Some p, Some q => QArith_base.Qeq_bool p q
      | _, _ => false
      end
  end.

(** [hash(x)] raises [TypeError] on a list or a dict. *)
Definition hashable (v : value) : bool :=
  match v with
  | VList _ | VDict _ => false
  | _ => true
  end.

End Py.

Export Py (value(..), exn(..), res(..)).

#[global] Instance res_ret : MRet res := @Ok.
#[global] Instance res_bind : MBind res := λ A B k r, Py.rbind r k.

(** ** Strings

    A Python [str] is modelled by [string]; its characters are the bytes of
    the UTF-8 encoding.  Substring search, splitting at an ASCII separator
    and lexicographic comparison give the same answers on the encoding as on
    the code points. *)

Module Str.

Fixpoint startswith (p s : string) : bool :=
  match p, s with
  | EmptyString, _ => true
  | String a p', String b s' => Ascii.eqb a b && startswith p' s'
  | String _ _, EmptyString => false
  end.

(** [needle in hay]. *)
Fixpoint contains (needle hay : string) : bool :=
  startswith needle hay ||
  match hay with
  | EmptyString => false
  | String _ hay' => contains needle hay'
  end.

(** [s.split(sep)] for a one-character separator: never the empty list. *)
Fixpoint split (sep : ascii) (s : string) : list string :=
  match s with
  | EmptyString => [EmptyString]
  | String c s' =>
      if Ascii.eqb c sep then EmptyString :: split sep s'
      else match split sep s' with
           | seg :: segs => String c seg :: segs
           | [] => [String c EmptyString]
           end
  end.

(** [s.split(sep)[-1]]. *)
Definition last_segment (sep : ascii) (s : string) : string :=
  List.last (split sep s) EmptyString.

(** [s.replace(c, r)] for a one-character [c]. *)
Fixpoint replace_char (c : ascii) (r : string) (s : string) : string :=
  match s with
  | EmptyString => EmptyString
  | String a s' =>
      if Ascii.eqb a c then r +:+ replace_char c r s'
      else String a (replace_char c r s')
  end.

(** [sep.join(parts)]. *)
Fixpoint join (sep : string) (parts : list string) : string :=
  match parts with
  | [] => EmptyString
  | [p] => p
  | p :: ps => p +:+ sep +:+ join sep ps
  end.

Definition is_empty (s : string) : bool :=
  match s with EmptyString => true | _ => false end.

(** [a <= b] on strings. *)
Definition leb (a b : string) : bool := String.leb a b.

(** The ASCII part of [str.lower], [str.strip] and the regular expression
    of [normalize]; used where a concrete text is evaluated. *)
Definition ascii_lower_char (c : ascii) : ascii :=
  let n := Ascii.nat_of_ascii c in
  if ((65 <=? n)%nat && (n <=? 90)%nat)%bool then Ascii.ascii_of_nat (n + 32) else c.

Fixpoint ascii_lower (s : string) : string :=
  match s with
  | EmptyString => EmptyString
  | String c s' => String (ascii_lower_char c) (ascii_lower s')
  end.

Definition ascii_isspace (c : ascii) : bool :=
  let n := Ascii.nat_of_ascii c in
  ((9 <=? n)%nat && (n <=? 13)%nat || (28 <=? n)%nat && (n <=? 32)%nat)%bool.

Fixpoint lstrip (s : string) : string :=
  match s with
  | EmptyString => EmptyString
  | String c s' => if ascii_isspace c then lstrip s' else s
  end.

Fixpoint rstrip (s : string) : string :=
  match s with
  | EmptyString => EmptyString
  | String c s' =>
      match rstrip s' with
      | EmptyString => if ascii_isspace c then EmptyString else String c EmptyString
      | t => String c t
      end
  end.

Definition ascii_strip (s : string) : string := rstrip (lstrip s).

End Str.

(** ** models.py: the data classes *)

Module Favourite.
Record t : Type := mk {
  stop_area_id : string;
  stop_name : string;
  line_id : string;
  line_name : string;
  line_color : string;
  line_text_color : string;
  direction : string;
  destination_name : string;
}.
End Favourite.

(** A [Departure] as [_parse_departures] builds it.  The fields copied from
    the payload stay dynamic.  [expected_iso] is a string: a truthy expected
    time that is not one never reaches the constructor (its [.replace]
    raises first).  Times are counted in ticks of the clock. *)
Module Departure.
Record t : Type := mk {
  line_name : value;
  line_id : value;
  destination : value;
  expected_iso : string;
  departure_status : value;
  vehicle_at_stop : value;
  direction_ref : value;
  fetch_timestamp : Z;
  eta_seconds : Z;
}.
End Departure.

Module LineAtStop.
Record t : Type := mk {
  line_id : value;
  line_name : value;
  mode : value;
  line_color : value;
  line_text_color : value;
  route_id : string;
}.
End LineAtStop.

Module StopOnLine.
Record t : Type := mk {
  stop_name : value;
  stop_id : value;
}.
End StopOnLine.

(** ** models.py: place names *)

(** [is_same_place(a, b)]. *)
Definition is_same_place (a b : string) : bool :=
  if Str.is_empty a || Str.is_empty b then false
  else Str.contains a b || Str.contains b a.

(** The character class of the regular expression in [normalize], on ASCII:
    dash, apostrophe, white space, angle brackets, parentheses. *)
Definition is_separator (c : ascii) : bool :=
  Ascii.eqb c "-" || Ascii.eqb c "'" || Str.ascii_isspace c ||
  Ascii.eqb c "<" || Ascii.eqb c ">" || Ascii.eqb c "(" || Ascii.eqb c ")".

(** [re.sub(r"[-'\s<>()]+", " ", text)] on ASCII text: every maximal run of
    separators becomes one space. *)
Fixpoint ascii_sub_separators (in_run : bool) (s : string) : string :=
  match s with
  | EmptyString => EmptyString
  | String c s' =>
      if is_separator c then
        if in_run then ascii_sub_separators true s'
        else String " " (ascii_sub_separators true s')
      else String c (ascii_sub_separators false s')
  end.

(** ** api.py: requests, signals, the world of a worker *)

Definition SIRI_URL : string :=
  "https://prim.iledefrance-mobilites.fr/marketplace/stop-monitoring".
Definition OPEN_DATA_BASE : string :=
  "https://data.iledefrance-mobilites.fr/api/explore/v2.1".
Definition STOPS_DATASET : string := "arrets".
Definition STOP_LINES_DATASET : string := "arrets-lignes".
Definition LINES_DATASET : string := "referentiel-des-lignes".

(** One call of [requests.get]: the URL and the query parameters. *)
Record request : Type := Request {
  url : string;
  params : list (string * value);
}.

(** What a call comes to once [raise_for_status()] and [json()] have run:
    a [RequestException] (connection, timeout, HTTP status, or a body that
    is not JSON), or the decoded payload. *)
Inductive outcome : Type :=
| NetFail
| NetJson (data : value).

(** The signals of the workers.  [ErrorSig] carries the fixed part of the
    message and the exception formatted into it. *)
Inductive event : Type :=
| DepartureFinished (results : gmap string (list Departure.t))
| LineSearchFinished (results : list LineAtStop.t) (search_id : Z)
| StopsOnLineFinished (results : list StopOnLine.t)
| ResolveFinished (stop_area_id : string) (stop_name : value) (directions : list (value * value))
| ErrorSig (prefix : string) (e : exn).

Definition is_finished (ev : event) : bool :=
  match ev with
  | ErrorSig _ _ => false
  | _ => true
  end.

Definition is_error (ev : event) : bool :=
  match ev with
  | ErrorSig _ _ => true
  | _ => false
  end.

Record world : Type := World {
  calls : list request;
  events : list event;
  results : gmap string (list Departure.t);
}.

Definition world0 : world := World [] [] ∅.

(** A worker step: it may raise, and it changes the world either way. *)
Definition M (A : Type) : Type := world → res A * world.

#[global] Instance M_ret : MRet M := λ A a w, (Ok a, w).
#[global] Instance M_bind : MBind M := λ A B k m w,
  match m w with
  | (Ok a, w') => k a w'
  | (Raise e, w') => (Raise e, w')
  end.

Definition lift {A} (r : res A) : M A := λ w, (r, w).

(** [self.<signal>.emit(...)]. *)
Definition emit (ev : event) : M unit := λ w,
  (Ok (), World (calls w) (events w ++ [ev]) (results w)).

(** [results[key] = deps]. *)
Definition set_result (key : string) (deps : list Departure.t) : M unit := λ w,
  (Ok (), World (calls w) (events w) (<[key := deps]> (results w))).

Definition get_results : M (gmap string (list Departure.t)) := λ w,
  (Ok (results w), w).

(** [try: body  except <classes>: handler]; [handler e = None] when no
    clause matches [e], which then propagates. *)
Definition try_except {A} (body : M A) (handler : exn → option (M A)) : M A := λ w,
  match body w with
  | (Ok a, w') => (Ok a, w')
  | (Raise e, w') =>
      match handler e with
      | Some h => h w'
      | None => (Raise e, w')
      end
  end.

(** [for x in l: body(x)]. *)
Fixpoint for_each {A} (body : A → M unit) (l : list A) : M unit :=
  match l with
  | [] => mret ()
  | x :: l' => body x;; for_each body l'
  end.

(** A list comprehension with a condition that may raise. *)
Fixpoint filter_res {A} (p : A → res bool) (l : list A) : res (list A) :=
  match l with
  | [] => Ok []
  | x :: l' =>
      b ← p x;
      rest ← filter_res p l';
      Ok (if (b : bool) then x :: rest else rest)
  end.

Fixpoint map_res {A B} (f : A → res B) (l : list A) : res (list B) :=
  match l with
  | [] => Ok []
  | x :: l' =>
      y ← f x;
      rest ← map_res f l';
      Ok (y :: rest)
  end.

(** [list.sort(key=...)] is a stable sort: straight insertion, an element
    going in front of the first one that is not smaller than it. *)
Fixpoint insert_by {A} (le : A → A → bool) (x : A) (l : list A) : list A :=
  match l with
  | [] => [x]
  | y :: l' => if le x y then x :: y :: l' else y :: insert_by le x l'
  end.

Fixpoint sort_by {A} (le : A → A → bool) (l : list A) : list A :=
  match l with
  | [] => []
  | x :: l' => insert_by le x (sort_by le l')
  end.

(** Library functions the workers call, whose tables are not part of the
    repository: Unicode case mapping and normalisation, the regular
    expressions, ISO-8601 parsing, [repr], [int]. *)
Class Library : Type := {
  str_lower : string → string;             (* [s.lower()] *)
  str_strip : string → string;             (* [s.strip()] *)
  unicodedata_nfd : string → string;       (* [unicodedata.normalize("NFD", s)] *)
  drop_marks : string → string;            (* drop the characters of category Mn *)
  re_sub_separators : string → string;     (* [re.sub(r"[-'\s<>()]+", " ", s)] *)
  timestamp_of_iso : string → option Z;    (* [datetime.fromisoformat(s).timestamp()], [None] on ValueError *)
  py_repr : value → string;                (* [str(x)] of a value that is not a string *)
  re_split_digits : string → list string;  (* [re.split(r'(\d+)', s)] *)
  str_isdigit : string → bool;             (* [s.isdigit()] *)
  py_int : string → option Z;              (* [int(s)], [None] on ValueError *)
}.

(** The network and the clock: what the [n]-th call of [requests.get] of a
    run comes to, and [time.time()] once [n] calls have been made. *)
Class Network : Type := {
  net : nat → request → outcome;
  clock : nat → Z;
}.

Section Workers.
Context {lib : Library} {nw : Network}.

(** [str(x)], also what an f-string does with [{x}]. *)
Definition py_str (v : value) : string :=
  match v with
  | VStr s => s
  | _ => py_repr v
  end.

(** [normalize(text)]. *)
Definition normalize (text : string) : string :=
  let text := unicodedata_nfd text in
  let text := drop_marks text in
  let text := re_sub_separators text in
  str_lower (str_strip text).

(** [requests.get(...)], [resp.raise_for_status()], [resp.json()]. *)
Definition requests_get (req : request) : M value := λ w,
  let w' := World (calls w ++ [req]) (events w) (results w) in
  match net (length (calls w)) req with
  | NetFail => (Raise RequestException, w')
  | NetJson data => (Ok data, w')
  end.

(** [time.time()]. *)
Definition time_time : M Z := λ w, (Ok (clock (length (calls w))), w).

(** The live-feed request of [DepartureWorker.run] and [_probe_directions]. *)
Definition siri_request (stop_area_id line_id : string) : request :=
  Request SIRI_URL
    [("MonitoringRef", VStr ("STIF:StopArea:SP:" +:+ stop_area_id +:+ ":"));
     ("LineRef", VStr ("STIF:Line::" +:+ line_id +:+ ":"))].

(** *** DepartureWorker *)

(** The decoding of [DestinationName] and [PublishedLineName]:
    [x = journey.get(field) or [{}]], then the first element's ["value"] if
    [x] is a list, [x] itself if it is a string, [default] otherwise. *)
Definition list_or_scalar (journey : value) (field default : string) : res value :=
  x ← Py.get journey field VNone;
  let x := Py.or_else x (VList [VDict []]) in
  if Py.is_list x then
    if Py.truthy x then
      first ← Py.getitem0 x;
      Py.get first "value" (VStr default)
    else Ok (VStr default)
  else if negb (Py.is_str x) then Ok (VStr default)
  else Ok x.

(** [journey.get(field, {}).get("value", "")]. *)
Definition ref_value (journey : value) (field : string) : res value :=
  r ← Py.get journey field (VDict []);
  Py.get r "value" (VStr "").

(** The body of the loop of [_parse_departures]. *)
Definition parse_visit (fetch_ts : Z) (visit : value) : res Departure.t :=
  journey ← Py.get visit "MonitoredVehicleJourney" (VDict []);
  call ← Py.get journey "MonitoredCall" (VDict []);
  destination ← list_or_scalar journey "DestinationName" "?";
  t1 ← Py.get call "ExpectedDepartureTime" VNone;
  expected_time ←
    (if Py.truthy t1 then Ok t1
     else t2 ← Py.get call "ExpectedArrivalTime" VNone;
          if Py.truthy t2 then Ok t2
          else Py.get call "AimedDepartureTime" VNone);
  line_name ← list_or_scalar journey "PublishedLineName" "";
  line_ref ← ref_value journey "LineRef";
  dep_status ← Py.get call "DepartureStatus" (VStr "");
  vehicle_at_stop ← Py.get call "VehicleAtStop" (VBool false);
  direction_ref ← ref_value journey "DirectionRef";
  eta_seconds ←
    (if Py.truthy expected_time then
       match expected_time with
       | VStr s =>
           match timestamp_of_iso (Str.replace_char "Z" "+00:00" s) with
           | Some expected_epoch => Ok (expected_epoch - fetch_ts)
           | None => Ok 0
           end
       | _ => Raise AttributeError
       end
     else Ok 0);
  Ok (Departure.mk line_name line_ref destination
        (match Py.or_else expected_time (VStr "") with VStr s => s | _ => "" end)
        dep_status vehicle_at_stop direction_ref fetch_ts eta_seconds).

(** [data["Siri"]["ServiceDelivery"]["StopMonitoringDelivery"][0]], then
    [delivery.get("MonitoredStopVisit", [])], under
    [except (KeyError, IndexError)]; [None] stands for the early return. *)
Definition monitored_visits (data : value) : res (option value) :=
  match
    (siri ← Py.getitem data "Siri";
     sd ← Py.getitem siri "ServiceDelivery";
     smd ← Py.getitem sd "StopMonitoringDelivery";
     delivery ← Py.getitem0 smd;
     Py.get delivery "MonitoredStopVisit" (VList []))
  with
  | Ok visits => Ok (Some visits)
  | Raise KeyError | Raise IndexError => Ok None
  | Raise e => Raise e
  end.

Definition _parse_departures (data : value) (fetch_ts : Z) : res (list Departure.t) :=
  visits ← monitored_visits data;
  match visits with
  | None => Ok []
  | Some visits =>
      visits ← Py.iter visits;
      map_res (parse_visit fetch_ts) visits
  end.

(** The key under which a favourite's departures are filed. *)
Definition fav_key (fav : Favourite.t) : string :=
  Favourite.stop_area_id fav +:+ "_" +:+ Favourite.line_id fav +:+ "_" +:+
  Favourite.direction fav.

(** The condition of the comprehension in [run]; [and] evaluates from the
    left and stops at the first false operand. *)
Definition matches (fav : Favourite.t) (stop_norm : string) (d : Departure.t) : res bool :=
  if 0 <=? Departure.eta_seconds d then
    match Departure.destination d with
    | VStr destination =>
        Ok (Str.contains (str_lower (Favourite.destination_name fav)) (str_lower destination)
            && (Str.is_empty (Favourite.direction fav)
                || Py.eqb (Departure.direction_ref d) (VStr (Favourite.direction fav)))
            && negb (is_same_place stop_norm (normalize destination)))
    | _ => Raise AttributeError
    end
  else Ok false.

(** [d.expected_iso or ""]. *)
Definition sort_key (d : Departure.t) : string :=
  if Str.is_empty (Departure.expected_iso d) then "" else Departure.expected_iso d.

Definition by_expected (d1 d2 : Departure.t) : bool :=
  Str.leb (sort_key d1) (sort_key d2).

(** The survivors of the filter, before sorting. *)
Definition matched (fav : Favourite.t) (all_departures : list Departure.t)
  : res (list Departure.t) :=
  filter_res (matches fav (normalize (Favourite.stop_name fav))) all_departures.

(** What [run] stores for one favourite: [matched], sorted, cut to five. *)
Definition select (fav : Favourite.t) (all_departures : list Departure.t)
  : res (list Departure.t) :=
  m ← matched fav all_departures;
  Ok (take 5 (sort_by by_expected m)).

Definition distribute (all_departures : list Departure.t) (fav : Favourite.t) : M unit :=
  m ← lift (select fav all_departures);
  set_result (fav_key fav) m.

(** [groups]: a dictionary from [(stop_area_id, line_id)] to the favourites
    with that pair, in the order the pairs first occur. *)
Fixpoint group_append (key : string * string) (fav : Favourite.t)
    (groups : list ((string * string) * list Favourite.t))
  : list ((string * string) * list Favourite.t) :=
  match groups with
  | [] => [(key, [fav])]
  | (k, favs) :: groups' =>
      if decide (k = key) then (k, favs ++ [fav]) :: groups'
      else (k, favs) :: group_append key fav groups'
  end.

(** [key = (fav.stop_area_id, fav.line_id)]. *)
Definition group_key (fav : Favourite.t) : string * string :=
  (Favourite.stop_area_id fav, Favourite.line_id fav).

Definition group_favourites (favourites : list Favourite.t)
  : list ((string * string) * list Favourite.t) :=
  foldl (λ groups fav, group_append (group_key fav) fav groups) [] favourites.

(** The two [except] clauses of the loop over the groups. *)
Definition handlers (e : exn) : option (M unit) :=
  match e with
  | RequestException => Some (emit (ErrorSig "Erreur réseau: " e))
  | KeyError | ValueError => Some (emit (ErrorSig "Erreur données: " e))
  | _ => None
  end.

(** The body of the loop over the groups. *)
Definition fetch_group (group : (string * string) * list Favourite.t) : M unit :=
  let '((stop_area_id, line_id), favs) := group in
  try_except
    (data ← requests_get (siri_request stop_area_id line_id);
     fetch_ts ← time_time;
     all_departures ← lift (_parse_departures data fetch_ts);
     for_each (distribute all_departures) favs)
    handlers.

Definition DepartureWorker_run (favourites : list Favourite.t) : M unit :=
  for_each fetch_group (group_favourites favourites);;
  results ← get_results;
  emit (DepartureFinished results).

(** *** ResolveAndProbeWorker *)

(** The double quote of the [where] clauses. *)
Definition dquote : string := String "034" EmptyString.

Definition records_url (dataset : string) : string :=
  OPEN_DATA_BASE +:+ "/catalog/datasets/" +:+ dataset +:+ "/records".

(** The catalog lookup of [_resolve]. *)
Definition arrets_request (arr_id : string) : request :=
  Request (records_url STOPS_DATASET)
    [("where", VStr ("arrid=" +:+ dquote +:+ arr_id +:+ dquote));
     ("limit", VInt 1);
     ("select", VStr "arrname,zdaid")].

(** [_resolve]: the stop-area id (a string) and the stop name. *)
Definition _resolve (stop_id : string) : M (string * value) :=
  if Str.contains "monomodalStopPlace" stop_id then
    mret (Str.last_segment ":" stop_id, VStr "")
  else
    let arr_id :=
      if Str.contains ":" stop_id then Str.last_segment ":" stop_id else stop_id in
    data ← requests_get (arrets_request arr_id);
    records ← lift (Py.get data "results" (VList []));
    if Py.truthy records then
      first ← lift (Py.getitem0 records);
      stop_name ← lift (Py.get first "arrname" (VStr ""));
      zdaid ← lift (Py.get first "zdaid" (VStr ""));
      mret (py_str zdaid, stop_name)
    else mret ("", VStr "").

(** [dest not in destinations], for a hashable [dest]. *)
Definition has_key (k : value) (d : list (value * value)) : bool :=
  existsb (λ kv, Py.eqb (fst kv) k) d.

(** The first half of the body of the loop of [_probe_directions]: the
    destination and the direction reference of a visit. *)
Definition visit_pair (visit : value) : res (value * value) :=
  journey ← Py.get visit "MonitoredVehicleJourney" (VDict []);
  dest ← Py.get journey "DestinationName" VNone;
  let dest := Py.or_else dest (VList [VDict []]) in
  dest ←
    (if Py.is_list dest then
       if Py.truthy dest then
         first ← Py.getitem0 dest;
         Py.get first "value" (VStr "?")
       else Ok (VStr "?")
     else Ok dest);
  dir_ref ← ref_value journey "DirectionRef";
  Ok (dest, dir_ref).

(** [dest and dest != "?"]. *)
Definition named (pair : value * value) : bool :=
  Py.truthy (fst pair) && negb (Py.eqb (fst pair) (VStr "?")).

(** The second half, the [if] statement; [destinations] keeps its items in
    insertion order. *)
Definition remember (destinations : list (value * value)) (pair : value * value)
  : res (list (value * value)) :=
  if named pair then
    if Py.hashable (fst pair) then
      if has_key (fst pair) destinations then Ok destinations
      else Ok (destinations ++ [pair])
    else Raise TypeError
  else Ok destinations.

Definition probe_visit (destinations : list (value * value)) (visit : value)
  : res (list (value * value)) :=
  pair ← visit_pair visit;
  remember destinations pair.

Fixpoint probe_visits (destinations : list (value * value)) (visits : list value)
  : res (list (value * value)) :=
  match visits with
  | [] => Ok destinations
  | visit :: visits' =>
      destinations ← probe_visit destinations visit;
      probe_visits destinations visits'
  end.

(** What [_probe_directions] does with the decoded payload. *)
Definition directions_of (data : value) : res (list (value * value)) :=
  visits ← monitored_visits data;
  match visits with
  | None => Ok []
  | Some visits =>
      visits ← Py.iter visits;
      probe_visits [] visits
  end.

Definition _probe_directions (stop_area_id line_id : string) : M (list (value * value)) :=
  data ← requests_get (siri_request stop_area_id line_id);
  lift (directions_of data).

Definition on_request_exception {A} (h : exn → M A) (e : exn) : option (M A) :=
  match e with
  | RequestException => Some (h e)
  | _ => None
  end.

(** [ResolveAndProbeWorker.run]; step 1 yields [None] where the source
    returns. *)
Definition ResolveAndProbeWorker_run (stop_id line_id : string) : M unit :=
  resolved ←
    try_except
      (r ← _resolve stop_id;
       if Str.is_empty (fst r) then
         emit (ResolveFinished "" (VStr "") []);; mret None
       else mret (Some r))
      (on_request_exception (λ e,
         emit (ErrorSig "Erreur resolution: " e);;
         emit (ResolveFinished "" (VStr "") []);;
         mret None));
  match resolved with
  | None => mret ()
  | Some (stop_area_id, stop_name) =>
      try_except
        (directions ← _probe_directions stop_area_id line_id;
         emit (ResolveFinished stop_area_id stop_name directions))
        (on_request_exception (λ e,
           emit (ErrorSig "Erreur directions: " e);;
           emit (ResolveFinished stop_area_id stop_name [])))
  end.

(** *** LineSearchWorker and StopsOnLineWorker *)

(** [list.sort] with a comparison that can raise: the stable insertion
    again, an element going in front of the first one that is not smaller.
    Which pairs a sort compares is its own business; where [<] orders all
    the keys the result does not depend on it, and where the keys fall into
    kinds that [<] does not order across, every sort meets such a pair. *)
Fixpoint insert_res {K A} (lt : K → K → res bool) (x : K * A) (l : list (K * A))
  : res (list (K * A)) :=
  match l with
  | [] => Ok [x]
  | y :: l' =>
      b ← lt (fst y) (fst x);
      if (b : bool) then
        rest ← insert_res lt x l';
        Ok (y :: rest)
      else Ok (x :: y :: l')
  end.

Fixpoint sort_res {K A} (lt : K → K → res bool) (l : list (K * A)) : res (list (K * A)) :=
  match l with
  | [] => Ok []
  | x :: l' =>
      sorted ← sort_res lt l';
      insert_res lt x sorted
  end.

(** [l.sort(key=key)]: the keys are computed first, in list order. *)
Definition sort_with_key {K A} (key : A → res K) (lt : K → K → res bool) (l : list A)
  : res (list A) :=
  keyed ← map_res (λ x, k ← key x; Ok (k, x)) l;
  sorted ← sort_res lt keyed;
  Ok (map snd sorted).

Inductive key_part : Type :=
| KInt (n : Z)
| KStr (s : string).

(** [_natural_sort_key(text)]. *)
Definition _natural_sort_key (text : value) : res (list key_part) :=
  match text with
  | VStr s =>
      map_res (λ c, if str_isdigit c
                    then match py_int c with
                         | Some n => Ok (KInt n)
                         | None => Raise ValueError
                         end
                    else Ok (KStr (str_lower c)))
              (re_split_digits s)
  | _ => Raise TypeError
  end.

(** [a < b] on two such keys: lists compare at the first place where they
    differ, and an [int] and a [str] there raise. *)
Fixpoint key_lt (a b : list key_part) : res bool :=
  match a, b with
  | [], [] => Ok false
  | [], _ :: _ => Ok true
  | _ :: _, [] => Ok false
  | KInt m :: a', KInt n :: b' => if m =? n then key_lt a' b' else Ok (m <? n)
  | KStr s :: a', KStr t :: b' => if String.eqb s t then key_lt a' b' else Ok (String.ltb s t)
  | _ :: _, _ :: _ => Raise TypeError
  end.

Definition lines_request (query mode : string) : request :=
  let where_parts :=
    (if Str.is_empty query then []
     else ["search(shortname_line, " +:+ dquote +:+ query +:+ dquote +:+ ")"]) ++
    (if Str.is_empty mode then []
     else ["transportmode=" +:+ dquote +:+ mode +:+ dquote]) in
  Request (records_url LINES_DATASET)
    ([("select", VStr "id_line,shortname_line,name_line,transportmode,colourweb_hexa,textcolourweb_hexa");
      ("limit", VInt 20)] ++
     match where_parts with
     | [] => []
     | _ => [("where", VStr (Str.join " AND " where_parts))]
     end).

Definition line_of_record (record : value) : res LineAtStop.t :=
  line_id ← Py.get record "id_line" (VStr "");
  short ← Py.get record "shortname_line" VNone;
  line_name ← (if Py.truthy short then Ok short else Py.get record "name_line" (VStr ""));
  mode ← Py.get record "transportmode" (VStr "");
  line_color ← Py.get record "colourweb_hexa" (VStr "FFFFFF");
  line_text_color ← Py.get record "textcolourweb_hexa" (VStr "000000");
  Ok (LineAtStop.mk line_id line_name mode line_color line_text_color
        ("IDFM:" +:+ py_str line_id)).

Definition LineSearchWorker_run (query mode : string) (search_id : Z) : M unit :=
  try_except
    (data ← requests_get (lines_request query mode);
     records ← lift (r ← Py.get data "results" (VList []); Py.iter r);
     results ← lift (map_res line_of_record records);
     results ← lift (sort_with_key (λ l, _natural_sort_key (LineAtStop.line_name l))
                                   key_lt results);
     emit (LineSearchFinished results search_id))
    (on_request_exception (λ e,
       emit (ErrorSig "Erreur recherche: " e);;
       emit (LineSearchFinished [] search_id))).

(** [x < y] on hashable values: two strings, or two numbers. *)
Definition value_lt (x y : value) : res bool :=
  match x, y with
  | VStr a, VStr b => Ok (String.ltb a b)
  | _, _ =>
      match Py.num_of x, Py.num_of y with
      | Some p, Some q => Ok (negb (QArith_base.Qle_bool q p))
      | _, _ => Raise TypeError
      end
  end.

Definition stops_request (route_id : string) : request :=
  Request (records_url STOP_LINES_DATASET)
    [("where", VStr ("id=" +:+ dquote +:+ route_id +:+ dquote));
     ("limit", VInt 100);
     ("select", VStr "stop_name,stop_id")].

(** The loop of [StopsOnLineWorker.run]; the names kept so far are the set
    [seen]. *)
Fixpoint stops_of_records (results : list StopOnLine.t) (records : list value)
  : res (list StopOnLine.t) :=
  match records with
  | [] => Ok results
  | record :: records' =>
      name ← Py.get record "stop_name" (VStr "");
      if negb (Py.truthy name) then stops_of_records results records'
      else if negb (Py.hashable name) then Raise TypeError
      else if existsb (λ s, Py.eqb (StopOnLine.stop_name s) name) results
      then stops_of_records results records'
      else
        stop_id ← Py.get record "stop_id" (VStr "");
        stops_of_records (results ++ [StopOnLine.mk name stop_id]) records'
  end.

Definition StopsOnLineWorker_run (route_id : string) : M unit :=
  try_except
    (data ← requests_get (stops_request route_id);
     records ← lift (r ← Py.get data "results" (VList []); Py.iter r);
     results ← lift (stops_of_records [] records);
     results ← lift (sort_with_key (λ s, Ok (StopOnLine.stop_name s)) value_lt results);
     emit (StopsOnLineFinished results))
    (on_request_exception (λ e,
       emit (ErrorSig "Erreur arrets: " e);;
       emit (StopsOnLineFinished []))).

(** The signals a run emitted, the requests it issued, and how it ended. *)
Definition run_of (m : M unit) : res unit * world := m world0.

Definition finished_count (w : world) : nat :=
  length (List.filter is_finished (events w)).

Definition error_count (w : world) : nat :=
  length (List.filter is_error (events w)).

End Workers.

(** ** api.py: the WiFi workers *)

(** What [subprocess.run] comes to: one of the exceptions the workers
    name, or a completed process. *)
Inductive process : Type :=
| FileNotFoundError
| TimeoutExpired
| OSError (message : string)
| Completed (returncode : Z) (stdout stderr : string).

(** An item of the list [WiFiScanWorker] emits. *)
Module WiFi.
Record t : Type := mk {
  ssid : string;
  signal : Z;
  security : string;
  in_use : bool;
}.
End WiFi.

(** The system the WiFi workers run on: what [subprocess.run] of a command
    comes to, and [s.splitlines()], a library function like those of
    [Library]. *)
Class System : Type := {
  subprocess_run : list string → process;
  str_splitlines : string → list string;
}.

Section WiFiWorkers.
Context {lib : Library} {sys : System}.

(** The body of the loop of [WiFiScanWorker.run]; the names in [seen] are
    those of [networks]. *)
Definition scan_line (networks : list WiFi.t) (line : string) : res (list WiFi.t) :=
  match Str.split ":" line with
  | p0 :: p1 :: p2 :: p3 :: _ =>
      let in_use := String.eqb (str_strip p0) "*" in
      let ssid := str_strip p1 in
      if Str.is_empty ssid || existsb (λ n, String.eqb (WiFi.ssid n) ssid) networks
      then Ok networks
      else
        signal ← (if str_isdigit p2
                  then match py_int p2 with
                       | Some n => Ok n
                       | None => Raise ValueError
                       end
                  else Ok 0);
        Ok (networks ++ [WiFi.mk ssid signal (str_strip p3) in_use])
  | _ => Ok networks
  end.

Fixpoint scan_lines (networks : list WiFi.t) (lines : list string) : res (list WiFi.t) :=
  match lines with
  | [] => Ok networks
  | line :: lines' =>
      networks ← scan_line networks line;
      scan_lines networks lines'
  end.

(** The sort key [(-n["in_use"], -n["signal"])]. *)
Definition scan_key (n : WiFi.t) : Z * Z :=
  (- (if WiFi.in_use n then 1 else 0), - WiFi.signal n).

(** [a <= b] on two pairs of integers. *)
Definition pair_leb (a b : Z * Z) : bool :=
  (fst a <? fst b) || ((fst a =? fst b) && (snd a <=? snd b)).

(** The command of [WiFiScanWorker.run]. *)
Definition scan_command : list string :=
  ["nmcli"; "-t"; "-f"; "IN-USE,SSID,SIGNAL,SECURITY";
   "device"; "wifi"; "list"; "--rescan"; "yes"].

(** [WiFiScanWorker.run]: the list it emits; [ValueError] is named by
    neither [except] clause. *)
Definition WiFiScanWorker_run : res (list WiFi.t) :=
  match subprocess_run scan_command with
  | Completed _ stdout _ =>
      networks ← scan_lines [] (str_splitlines (str_strip stdout));
      Ok (sort_by (λ a b, pair_leb (scan_key a) (scan_key b)) networks)
  | FileNotFoundError => Ok [WiFi.mk "WiFi non disponible" 0 "" false]
  | TimeoutExpired | OSError _ => Ok []
  end.

(** The command of [WiFiConnectWorker.run]. *)
Definition connect_command (ssid password : string) : list string :=
  ["nmcli"; "device"; "wifi"; "connect"; ssid] ++
  if Str.is_empty password then [] else ["password"; password].

(** [WiFiConnectWorker.run]: the success flag and the message it emits. *)
Definition WiFiConnectWorker_run (ssid password : string) : bool * string :=
  match subprocess_run (connect_command ssid password) with
  | Completed returncode stdout stderr =>
      if returncode =? 0 then (true, "Connecte")
      else
        (false,
         if negb (Str.is_empty (str_strip stderr)) then str_strip stderr
         else if negb (Str.is_empty (str_strip stdout)) then str_strip stdout
         else "Echec de connexion")
  | FileNotFoundError => (false, "WiFi non disponible")
  | TimeoutExpired => (false, "Delai d'attente depasse")
  | OSError message => (false, message)
  end.

End WiFiWorkers.

(** ** models.py: persistence *)

(** What [favourites.json] or [settings.json] is found to be when it is
    looked for and read.  [Absent]: [os.path.exists] is false.  [Fails e]:
    the file is there, and opening, reading or decoding it raises [e], an
    exception other than [json.JSONDecodeError]; a file that is not UTF-8
    ([UnicodeDecodeError]) and a number of too many digits are a
    [ValueError], and the exceptions [exn] has no name for ([OSError] of
    [open], [RecursionError] of too deep a document) fare as [ValueError]
    does, no clause naming them.  [NotJson]: the text is not JSON
    ([json.JSONDecodeError]).  [Json data]: the document. *)
Inductive file : Type :=
| Absent
| Fails (e : exn)
| NotJson
| Json (data : value).

(** [except (json.JSONDecodeError, TypeError, KeyError): return default],
    for what the body of the [try] raises apart from [json.JSONDecodeError]. *)
Definition on_load_error {A} (default : A) (body : res A) : res A :=
  match body with
  | Ok a => Ok a
  | Raise TypeError | Raise KeyError => Ok default
  | Raise e => Raise e
  end.

(** Instances as Python builds them from a document: a field holds
    whatever value the document gives it, the annotations are not
    checked. *)
Module Object.
Record Favourite : Type := mkFavourite {
  stop_area_id : value;
  stop_name : value;
  line_id : value;
  line_name : value;
  line_color : value;
  line_text_color : value;
  direction : value;
  destination_name : value;
}.
Record AppSettings : Type := mkAppSettings {
  theme : value;
  sleep_delay_minutes : value;
}.
End Object.

Module AppSettings.
Record t : Type := mk {
  theme : string;
  sleep_delay_minutes : Z;
}.
End AppSettings.

Definition favourite_fields : list string :=
  ["stop_area_id"; "stop_name"; "line_id"; "line_name";
   "line_color"; "line_text_color"; "direction"; "destination_name"].

Definition settings_fields : list string := ["theme"; "sleep_delay_minutes"].

(** A keyword argument of a constructor, or the default of its field. *)
Definition keyword (kw : list (string * value)) (k : string) (default : value) : value :=
  match Py.dict_lookup k kw with
  | Some v => v
  | None => default
  end.

(** [Favourite] called with [item] unpacked into keywords: [item] must be
    a mapping, every key of it a field, and the four fields without a
    default must be there; all three failures are a [TypeError]. *)
Definition new_Favourite (item : value) : res Object.Favourite :=
  match item with
  | VDict kw =>
      if forallb (λ kv, bool_decide (fst kv ∈ favourite_fields)) kw then
        match Py.dict_lookup "stop_area_id" kw, Py.dict_lookup "stop_name" kw,
              Py.dict_lookup "line_id" kw, Py.dict_lookup "line_name" kw with
        | Some stop_area_id, Some stop_name, Some line_id, Some line_name =>
            Ok (Object.mkFavourite stop_area_id stop_name line_id line_name
                  (keyword kw "line_color" (VStr "FFFFFF"))
                  (keyword kw "line_text_color" (VStr "000000"))
                  (keyword kw "direction" (VStr ""))
                  (keyword kw "destination_name" (VStr "")))
        | _, _, _, _ => Raise TypeError
        end
      else Raise TypeError
  | _ => Raise TypeError
  end.

(** [load_favourites()]. *)
Definition load_favourites (f : file) : res (list Object.Favourite) :=
  match f with
  | Absent => Ok []
  | Fails e => on_load_error [] (Raise e)
  | NotJson => Ok []
  | Json data => on_load_error [] (items ← Py.iter data; map_res new_Favourite items)
  end.

(** [asdict(fav)]. *)
Definition asdict (fav : Favourite.t) : value :=
  VDict [("stop_area_id", VStr (Favourite.stop_area_id fav));
         ("stop_name", VStr (Favourite.stop_name fav));
         ("line_id", VStr (Favourite.line_id fav));
         ("line_name", VStr (Favourite.line_name fav));
         ("line_color", VStr (Favourite.line_color fav));
         ("line_text_color", VStr (Favourite.line_text_color fav));
         ("direction", VStr (Favourite.direction fav));
         ("destination_name", VStr (Favourite.destination_name fav))].

(** [save_favourites(favourites)]: what the file holds afterwards. *)
Definition save_favourites (favourites : list Favourite.t) : file :=
  Json (VList (map asdict favourites)).

(** [data.items()]. *)
Definition dict_items (data : value) : res (list (string * value)) :=
  match data with
  | VDict d => Ok d
  | _ => Raise AttributeError
  end.

(** [AppSettings] called with keywords that are all fields. *)
Definition new_AppSettings (kw : list (string * value)) : Object.AppSettings :=
  Object.mkAppSettings (keyword kw "theme" (VStr "dark"))
                       (keyword kw "sleep_delay_minutes" (VInt 10)).

(** [load_settings()]. *)
Definition load_settings (f : file) : res Object.AppSettings :=
  match f with
  | Absent => Ok (new_AppSettings [])
  | Fails e => on_load_error (new_AppSettings []) (Raise e)
  | NotJson => Ok (new_AppSettings [])
  | Json data =>
      on_load_error (new_AppSettings [])
        (items ← dict_items data;
         Ok (new_AppSettings
               (List.filter (λ kv, bool_decide (fst kv ∈ settings_fields)) items)))
  end.

(** [save_settings(settings)]: what the file holds afterwards. *)
Definition save_settings (settings : AppSettings.t) : file :=
  Json (VDict [("theme", VStr (AppSettings.theme settings));
               ("sleep_delay_minutes", VInt (AppSettings.sleep_delay_minutes settings))]).

(** ** main.py: the favourites of the window *)

(** The window, as far as its favourites go: the list, the departures
    received so far, and what [favourites.json] holds. *)
Record window : Type := Window {
  favourites : list Favourite.t;
  departure_map : gmap string (list Departure.t);
  favourites_file : file;
}.

(** The test of both [_on_favourite_added] and [_delete_favourite]. *)
Definition same_favourite (f fav : Favourite.t) : bool :=
  String.eqb (Favourite.stop_area_id f) (Favourite.stop_area_id fav) &&
  String.eqb (Favourite.line_id f) (Favourite.line_id fav) &&
  String.eqb (Favourite.destination_name f) (Favourite.destination_name fav).

(** [_on_favourite_added(fav)]; the refresh it asks for comes back later,
    through [_on_departures_received]. *)
Definition _on_favourite_added (w : window) (fav : Favourite.t) : window :=
  if existsb (λ existing, same_favourite existing fav) (favourites w) then w
  else
    let favourites := favourites w ++ [fav] in
    Window favourites (departure_map w) (save_favourites favourites).

(** [_delete_favourite(fav)]. *)
Definition _delete_favourite (w : window) (fav : Favourite.t) : window :=
  let favourites := List.filter (λ f, negb (same_favourite f fav)) (favourites w) in
  Window favourites (delete (fav_key fav) (departure_map w)) (save_favourites favourites).

(** [_on_departures_received(dep_map)]: [self.departure_map.update(dep_map)]. *)
Definition _on_departures_received (w : window) (dep_map : gmap string (list Departure.t))
  : window :=
  Window (favourites w) (dep_map ∪ departure_map w) (favourites_file w).

(** ** widgets.py *)

(** [HomeScreen.populate(favourites, departure_map)]: the groups of the
    home screen, each favourite with the departures listed under it. *)
Definition populate (favourites : list Favourite.t)
    (departure_map : gmap string (list Departure.t))
  : list (Favourite.t * list Departure.t) :=
  map (λ fav, (fav, default [] (departure_map !! fav_key fav))) favourites.

(** [_rebuild_home()] of [main.py]. *)
Definition _rebuild_home (w : window) : list (Favourite.t * list Departure.t) :=
  populate (favourites w) (departure_map w).

Definition SLEEP_OPTIONS : list Z := [5; 10; 30; 0].

(** [options.index(x)], [None] where it raises [ValueError]. *)
Fixpoint index_of (x : value) (options : list Z) : option Z :=
  match options with
  | [] => None
  | option :: options' =>
      if Py.eqb (VInt option) x then Some 0
      else match index_of x options' with
           | Some i => Some (i + 1)
           | None => None
           end
  end.

(** [SettingsScreen._cycle_sleep()]: the delay it moves to, from the
    current one. *)
Definition _cycle_sleep (current : value) : Z :=
  let idx := match index_of current SLEEP_OPTIONS with
             | Some idx => idx
             | None => -1
             end in
  nth (Z.to_nat ((idx + 1) mod Z.of_nat (length SLEEP_OPTIONS))) SLEEP_OPTIONS 0.

(** ** A concrete library and scripted networks

    For evaluating the workers on concrete inputs: the library functions on
    ASCII text, and networks that answer from a script, as the mocks of
    [test_app.py] do. *)

Module Sample.

Definition normalize_sub (s : string) : string := ascii_sub_separators false s.

Definition is_digit (c : ascii) : bool :=
  let n := Ascii.nat_of_ascii c in ((48 <=? n)%nat && (n <=? 57)%nat)%bool.

Fixpoint all_digits (s : string) : bool :=
  match s with
  | EmptyString => true
  | String c s' => is_digit c && all_digits s'
  end.

Definition isdigit (s : string) : bool := negb (Str.is_empty s) && all_digits s.

Fixpoint decimal (acc : Z) (s : string) : Z :=
  match s with
  | EmptyString => acc
  | String c s' => decimal (10 * acc + (Z.of_nat (Ascii.nat_of_ascii c) - 48)) s'
  end.

Definition int (s : string) : option Z :=
  if isdigit s then Some (decimal 0 s) else None.

Fixpoint split_digits (s : string) : list string :=
  match s with
  | EmptyString => [EmptyString]
  | String c s' =>
      let r := split_digits s' in
      if is_digit c then
        match r with
        | EmptyString :: d :: rest =>
            if isdigit d then EmptyString :: String c d :: rest
            else EmptyString :: String c EmptyString :: r
        | _ => EmptyString :: String c EmptyString :: r
        end
      else
        match r with
        | chunk :: rest => String c chunk :: rest
        | [] => [String c EmptyString]
        end
  end.

(** The expected times used in the examples, in seconds since the epoch. *)
Definition timestamps : list (string * Z) :=
  [("2025-01-01T12:00:00+01:00", 1735729200);
   ("2025-01-01T12:01:00+01:00", 1735729260);
   ("2025-01-01T12:02:00+01:00", 1735729320);
   ("2025-01-01T12:03:00+01:00", 1735729380);
   ("2025-01-01T12:04:00+01:00", 1735729440);
   ("2025-01-01T12:05:00+01:00", 1735729500);
   ("2025-01-01T12:06:00+01:00", 1735729560);
   ("2025-01-01T12:07:00+01:00", 1735729620);
   ("2025-01-01T12:08:00+01:00", 1735729680);
   ("2025-01-01T12:10:00+01:00", 1735729800);
   ("2025-01-01T12:15:00+01:00", 1735730100)].

Fixpoint lookup_timestamp (s : string) (table : list (string * Z)) : option Z :=
  match table with
  | [] => None
  | (k, t) :: table' => if String.eqb s k then Some t else lookup_timestamp s table'
  end.

Definition repr (v : value) : string :=
  match v with
  | VNone => "None"
  | VBool true => "True"
  | VBool false => "False"
  | VInt n => pretty n
  | _ => "..."
  end.

Definition library : Library := {|
  str_lower := Str.ascii_lower;
  str_strip := Str.ascii_strip;
  unicodedata_nfd := λ s, s;
  drop_marks := λ s, s;
  re_sub_separators := normalize_sub;
  timestamp_of_iso := λ s, lookup_timestamp s timestamps;
  py_repr := repr;
  re_split_digits := split_digits;
  str_isdigit := isdigit;
  py_int := int;
|}.

(** The [n]-th call gets the [n]-th outcome of the script; the clock stands
    at noon. *)
Definition scripted (script : list outcome) : Network := {|
  net := λ n _, nth n script NetFail;
  clock := λ _, 1735729200;
|}.

(** [make_siri_response] of [test_app.py], for visits given as
    (destination, expected time, direction). *)
Definition make_visit (d : string * string * string) : value :=
  let '(destination, expected_time, direction_ref) := d in
  VDict [("MonitoredVehicleJourney", VDict [
    ("PublishedLineName", VList [VDict [("value", VStr "259")]]);
    ("DestinationName", VList [VDict [("value", VStr destination)]]);
    ("LineRef", VDict [("value", VStr "STIF:Line::C02000:")]);
    ("DirectionRef", VDict [("value", VStr direction_ref)]);
    ("MonitoredCall", VDict [
      ("ExpectedDepartureTime", VStr expected_time);
      ("DepartureStatus", VStr "onTime");
      ("VehicleAtStop", VBool false)])])].

Definition make_siri_response (departures_data : list (string * string * string)) : value :=
  VDict [("Siri", VDict [("ServiceDelivery", VDict [("StopMonitoringDelivery",
    VList [VDict [("MonitoredStopVisit", VList (map make_visit departures_data))]])])])].

Definition favourite (stop_area_id stop_name line_id direction destination_name : string)
  : Favourite.t :=
  Favourite.mk stop_area_id stop_name line_id "259" "FFFFFF" "000000"
    direction destination_name.

Definition departure (destination expected_iso direction_ref : string) (eta_seconds : Z)
  : Departure.t :=
  Departure.mk (VStr "259") (VStr "STIF:Line::C02000:") (VStr destination) expected_iso
    (VStr "onTime") (VBool false) (VStr direction_ref) 1735729200 eta_seconds.

(** The favourites of [test_app.py]. *)
Definition fav_halevy_1 : Favourite.t :=
  favourite "50980" "Pavillon Halevy" "C02000" "1" "Saint-Germain".
Definition fav_halevy_2 : Favourite.t :=
  favourite "50980" "Pavillon Halevy" "C02000" "2" "Nanterre".
Definition fav_any_direction : Favourite.t :=
  favourite "50980" "Test" "C02000" "" "".
Definition fav_terminus : Favourite.t :=
  favourite "43114" "Saint-Germain-en-Laye" "C01742" "1" "".

Definition two_directions : list Departure.t :=
  [departure "Saint-Germain" "2025-01-01T12:05:00+01:00" "1" 300;
   departure "Nanterre" "2025-01-01T12:10:00+01:00" "2" 600].

Definition terminus_departures : list Departure.t :=
  [departure "Saint-Germain-en-Laye" "2025-01-01T12:05:00+01:00" "1" 300;
   departure "Marne-la-Vallee Chessy" "2025-01-01T12:10:00+01:00" "1" 600;
   departure "Saint-Germain-En-Laye <RER>" "2025-01-01T12:15:00+01:00" "1" 900].

Definition fav_halevy_nanterre_1 : Favourite.t :=
  favourite "50980" "Pavillon Halevy" "C02000" "1" "Nanterre".
Definition fav_other_stop : Favourite.t :=
  favourite "71517" "La Defense" "C01740" "" "".

Definition halevy_response : value :=
  make_siri_response
    [("Saint-Germain-En-Laye <RER>", "2025-01-01T12:05:00+01:00", "1");
     ("Nanterre - Papeteries", "2025-01-01T12:10:00+01:00", "2")].

(** Both destinations in direction 1, and one of them twice. *)
Definition one_direction_response : value :=
  make_siri_response
    [("Saint-Germain-En-Laye <RER>", "2025-01-01T12:05:00+01:00", "1");
     ("Nanterre - Papeteries", "2025-01-01T12:10:00+01:00", "1");
     ("Saint-Germain-En-Laye <RER>", "2025-01-01T12:15:00+01:00", "2")].

(** A payload whose ["Siri"] is [null]. *)
Definition null_siri : value := VDict [("Siri", VNone)].

(** A visit whose direction reference is a plain string, not an object. *)
Definition scalar_direction_response : value :=
  VDict [("Siri", VDict [("ServiceDelivery", VDict [("StopMonitoringDelivery",
    VList [VDict [("MonitoredStopVisit", VList [
      VDict [("MonitoredVehicleJourney", VDict [
        ("DestinationName", VList [VDict [("value", VStr "Nanterre")]]);
        ("DirectionRef", VStr "1")])]])]])])])].

Definition arrets_defense : value :=
  VDict [("results", VList [VDict [("arrname", VStr "La Defense"); ("zdaid", VStr "71517")]])].

Definition no_record : value := VDict [("results", VList [])].

(** Eight eligible departures, not in order of time. *)
Definition eight_departures : list Departure.t :=
  [departure "Saint-Germain-En-Laye <RER>" "2025-01-01T12:06:00+01:00" "1" 360;
   departure "Saint-Germain-En-Laye <RER>" "2025-01-01T12:02:00+01:00" "1" 120;
   departure "Saint-Germain-En-Laye <RER>" "2025-01-01T12:08:00+01:00" "1" 480;
   departure "Saint-Germain-En-Laye <RER>" "2025-01-01T12:01:00+01:00" "1" 60;
   departure "Saint-Germain-En-Laye <RER>" "2025-01-01T12:05:00+01:00" "1" 300;
   departure "Saint-Germain-En-Laye <RER>" "2025-01-01T12:03:00+01:00" "1" 180;
   departure "Saint-Germain-En-Laye <RER>" "2025-01-01T12:07:00+01:00" "1" 420;
   departure "Saint-Germain-En-Laye <RER>" "2025-01-01T12:04:00+01:00" "1" 240].

(** [splitlines] on text whose only line boundary is the line feed. *)
Definition splitlines (s : string) : list string :=
  if Str.is_empty s then [] else Str.split "010" s.

(** A system on which every command comes to [p]. *)
Definition system (p : process) : System := {|
  subprocess_run := λ _, p;
  str_splitlines := splitlines;
|}.

Definition line_feed : string := String "010" EmptyString.

(** An output of [nmcli -t -f IN-USE,SSID,SIGNAL,SECURITY]: a network seen
    twice, the one in use, a hidden one, one without a signal, and a line
    that is not a record. *)
Definition nmcli_output : string :=
  " :Livebox-1234:62:WPA2" +:+ line_feed +:+
  "*:Maison:78:WPA2" +:+ line_feed +:+
  " :Livebox-1234:40:WPA2" +:+ line_feed +:+
  " ::55:WPA1" +:+ line_feed +:+
  " :Cafe::" +:+ line_feed +:+
  "Error" +:+ line_feed.

(** Catalog payloads: lines by name, and stops with a name seen twice and
    a record without a name. *)
Definition lines_response : value :=
  VDict [("results",
    VList (map (λ name, VDict [("id_line", VStr "C02000"); ("shortname_line", VStr name)])
               ["10"; "2"; "T1"]))].

Definition stops_response : value :=
  VDict [("results", VList [
    VDict [("stop_name", VStr "Nanterre"); ("stop_id", VStr "IDFM:1")];
    VDict [("stop_name", VStr "Chatou"); ("stop_id", VStr "IDFM:2")];
    VDict [("stop_name", VStr "Nanterre"); ("stop_id", VStr "IDFM:3")];
    VDict [("stop_id", VStr "IDFM:4")]])].

(** A favourites file with an entry that lacks [line_name]. *)
Definition broken_favourites : value :=
  VList [asdict fav_halevy_1;
         VDict [("stop_area_id", VStr "43114"); ("stop_name", VStr "Chatou");
                ("line_id", VStr "C01742")]].



(** A window with two favourites filed under one key. *)
Definition home : window :=
  Window [fav_halevy_1; fav_halevy_nanterre_1]
         {[ "50980_C02000_1" := two_directions ]}
         (save_favourites [fav_halevy_1; fav_halevy_nanterre_1]).

End Sample.

(** ** Notions used to state the properties *)

(** [a] occurs in [b]. *)
Definition substring_of (a b : string) : Prop := ∃ p s, b = p +:+ a +:+ s.

(** The pairs the loop of [_probe_directions] sees, visit by visit. *)
Definition visit_pairs (data : value) : res (list (value * value)) :=
  visits ← monitored_visits data;
  match visits with
  | None => Ok []
  | Some visits =>
      visits ← Py.iter visits;
      map_res visit_pair visits
  end.

(** Ordered and unique by destination, as the specification words it: the
    first pair of every destination, in the order of first occurrence. *)
Fixpoint first_seen (pairs : list (value * value)) : list (value * value) :=
  match pairs with
  | [] => []
  | p :: pairs' =>
      p :: List.filter (λ q, negb (Py.eqb (fst p) (fst q))) (first_seen pairs')
  end.

(** The distinct elements of a list, in the order of first occurrence. *)
Fixpoint first_occurrences {A} `{EqDecision A} (l : list A) : list A :=
  match l with
  | [] => []
  | x :: l' => x :: List.filter (λ y, bool_decide (y ≠ x)) (first_occurrences l')
  end.

(** The favourites of a collection with a given pair, in their order. *)
Definition members (key : string * string) (favourites : list Favourite.t)
  : list Favourite.t :=
  List.filter (λ fav, bool_decide (group_key fav = key)) favourites.

(** The request a group gives rise to. *)
Definition group_request (key : string * string) : request :=
  siri_request (fst key) (snd key).

(** What the [i]-th request of a run of [DepartureWorker], made for the
    pair [key], yields: the parsed departures, if the request succeeds and
    the payload parses. *)
Definition group_departures {lib : Library} {nw : Network} (i : nat) (key : string * string)
  : option (list Departure.t) :=
  match net i (group_request key) with
  | NetFail => None
  | NetJson data =>
      match _parse_departures data (clock (S i)) with
      | Ok all_departures => Some all_departures
      | Raise _ => None
      end
  end.

(** The favourites whose list a run stores, in the order it stores them,
    each with the departures of its group; [i] is the number of requests
    made before. *)
Fixpoint writers_from {lib : Library} {nw : Network} (i : nat)
    (groups : list ((string * string) * list Favourite.t))
  : list (Favourite.t * list Departure.t) :=
  match groups with
  | [] => []
  | (key, favs) :: groups' =>
      match group_departures i key with
      | Some all_departures => map (λ fav, (fav, all_departures)) favs
      | None => []
      end ++ writers_from (S i) groups'
  end.

Definition writers {lib : Library} {nw : Network} (favourites : list Favourite.t)
  : list (Favourite.t * list Departure.t) :=
  writers_from 0 (map (λ k, (k, members k favourites))
                      (first_occurrences (map group_key favourites))).

(** One favourite's assignment to [results]. *)
Definition write {lib : Library} (m : gmap string (list Departure.t))
    (w : Favourite.t * list Departure.t) : gmap string (list Departure.t) :=
  match select (fst w) (snd w) with
  | Ok r => <[fav_key (fst w) := r]> m
  | Raise _ => m
  end.

(** The last of them that stores under [key]. *)
Definition last_writer {lib : Library} (key : string)
    (ws : list (Favourite.t * list Departure.t)) : option (Favourite.t * list Departure.t) :=
  last (List.filter (λ w, bool_decide (fav_key (fst w) = key)) ws).

(** The exceptions no [except] clause of the workers names. *)
Definition uncaught (e : exn) : Prop := e = AttributeError ∨ e = TypeError.

(** No two items of the list have equal destinations. *)
Definition unique_by_destination (l : list (value * value)) : Prop :=
  StronglySorted (λ p q, Py.eqb (fst p) (fst q) = false) l.

(** A payload without the delivery: a key on the way to it is absent, or
    the array of deliveries is empty. *)
Inductive delivery_missing : value → Prop :=
| missing_Siri d :
    Py.dict_lookup "Siri" d = None →
    delivery_missing (VDict d)
| missing_ServiceDelivery d s :
    Py.dict_lookup "Siri" d = Some (VDict s) →
    Py.dict_lookup "ServiceDelivery" s = None →
    delivery_missing (VDict d)
| missing_StopMonitoringDelivery d s sd :
    Py.dict_lookup "Siri" d = Some (VDict s) →
    Py.dict_lookup "ServiceDelivery" s = Some (VDict sd) →
    Py.dict_lookup "StopMonitoringDelivery" sd = None →
    delivery_missing (VDict d)
| empty_StopMonitoringDelivery d s sd :
    Py.dict_lookup "Siri" d = Some (VDict s) →
    Py.dict_lookup "ServiceDelivery" s = Some (VDict sd) →
    Py.dict_lookup "StopMonitoringDelivery" sd = Some (VList []) →
    delivery_missing (VDict d).

(** The visits the loops of [_parse_departures] and [_probe_directions]
    run over. *)
Definition visits_of (data : value) : res (list value) :=
  visits ← monitored_visits data;
  match visits with
  | None => Ok []
  | Some visits => Py.iter visits
  end.

(** The seconds from the fetch to an expected time, [0] when there is no
    time or when it does not parse. *)
Definition eta_of {lib : Library} (fetch_ts : Z) (expected_iso : string) : Z :=
  if Str.is_empty expected_iso then 0
  else match timestamp_of_iso (Str.replace_char "Z" "+00:00" expected_iso) with
       | Some expected_epoch => expected_epoch - fetch_ts
       | None => 0
       end.

(** How many of the requests made for [keys] fail, [i] requests having
    been made before them. *)
Fixpoint failures_from {nw : Network} (i : nat) (keys : list (string * string)) : nat :=
  match keys with
  | [] => 0
  | key :: keys' =>
      match net i (group_request key) with
      | NetFail => 1
      | NetJson _ => 0
      end + failures_from (S i) keys'
  end.

(** The records of a catalog payload, as a loop over
    [data.get("results", [])] visits them. *)
Definition records_of (data : value) : res (list value) :=
  r ← Py.get data "results" (VList []);
  Py.iter r.

(** [x] may stand before [y]: [y < x] is false. *)
Definition not_after {K} (lt : K → K → res bool) (x y : K) : Prop := lt y x = Ok false.

(** No two stops of the list have equal names. *)
Definition distinct_names (l : list StopOnLine.t) : Prop :=
  StronglySorted (λ s t, Py.eqb (StopOnLine.stop_name s) (StopOnLine.stop_name t) = false) l.

(** The stop comes from the record: its name and identifier are the
    record's ["stop_name"] and ["stop_id"], the latter [""] if absent. *)
Definition stop_of_record (record : value) (s : StopOnLine.t) : Prop :=
  Py.get record "stop_name" (VStr "") = Ok (StopOnLine.stop_name s) ∧
  Py.get record "stop_id" (VStr "") = Ok (StopOnLine.stop_id s).

(** A key of alternating kinds: text, number, text, ..., ending on text. *)
Fixpoint alternating (key : list key_part) : bool :=
  match key with
  | [KStr _] => true
  | KStr _ :: KInt _ :: key' => alternating key'
  | _ => false
  end.

(** No character of the text is a digit. *)
Fixpoint no_digit (s : string) : bool :=
  match s with
  | EmptyString => true
  | String c s' => negb (Sample.is_digit c) && no_digit s'
  end.

(** Chunks as [re.split] with a capturing group gives them: text without
    digits and runs of digits in turn, text first and last. *)
Fixpoint chunked (chunks : list string) : bool :=
  match chunks with
  | [t] => no_digit t
  | t :: d :: chunks' => no_digit t && Sample.isdigit d && chunked chunks'
  | [] => false
  end.

(** The network comes from the line: the line has four fields at least,
    and the network is what the loop of [WiFiScanWorker.run] makes of
    them. *)
Definition network_of_line {lib : Library} (line : string) (n : WiFi.t) : Prop :=
  ∃ p0 p1 p2 p3 rest,
    Str.split ":" line = p0 :: p1 :: p2 :: p3 :: rest ∧
    WiFi.ssid n = str_strip p1 ∧
    WiFi.security n = str_strip p3 ∧
    WiFi.in_use n = String.eqb (str_strip p0) "*" ∧
    (if str_isdigit p2 then py_int p2 = Some (WiFi.signal n) else WiFi.signal n = 0).

(** [a] is rightly listed before [b]: a network in use before one that is
    not, and of two alike in that the stronger signal first. *)
Definition listed_before (a b : WiFi.t) : Prop :=
  (WiFi.in_use b = true → WiFi.in_use a = true) ∧
  (WiFi.in_use a = WiFi.in_use b → WiFi.signal b ≤ WiFi.signal a).

(** Text of ASCII characters only. *)
Fixpoint is_ascii (s : string) : bool :=
  match s with
  | EmptyString => true
  | String c s' => (Ascii.nat_of_ascii c <? 128)%nat && is_ascii s'
  end.

(** Every separator of the text is one space, with no separator next to
    it; [prev_sep] tells whether a separator stands before the text. *)
Fixpoint collapsed (prev_sep : bool) (s : string) : bool :=
  match s with
  | EmptyString => true
  | String c s' =>
      if is_separator c then Ascii.eqb c " " && negb prev_sep && collapsed true s'
      else collapsed false s'
  end.

(** The text does not start with white space. *)
Definition head_kept (s : string) : bool :=
  match s with
  | EmptyString => true
  | String c _ => negb (Str.ascii_isspace c)
  end.

(** The instance [load_favourites] builds from what [save_favourites]
    wrote for [fav]. *)
Definition loaded (fav : Favourite.t) : Object.Favourite :=
  Object.mkFavourite
    (VStr (Favourite.stop_area_id fav)) (VStr (Favourite.stop_name fav))
    (VStr (Favourite.line_id fav)) (VStr (Favourite.line_name fav))
    (VStr (Favourite.line_color fav)) (VStr (Favourite.line_text_color fav))
    (VStr (Favourite.direction fav)) (VStr (Favourite.destination_name fav)).

(** What makes two favourites the same one for the window: the stop area,
    the line and the destination. *)
Definition favourite_identity (fav : Favourite.t) : string * string * string :=
  (Favourite.stop_area_id fav, Favourite.line_id fav, Favourite.destination_name fav).

(** * Properties *)

(** ** Strings *)

Lemma str_app_nil_l (s : string) : "" +:+ s = s.
Proof. reflexivity. Qed.

Lemma str_app_cons (c : ascii) (s t : string) : String c s +:+ t = String c (s +:+ t).
Proof. reflexivity. Qed.

Lemma str_app_nil_r (s : string) : s +:+ "" = s.
Proof. induction s as [|c s IH]; [reflexivity|]. rewrite str_app_cons, IH. reflexivity. Qed.

Lemma str_app_assoc (s t u : string) : (s +:+ t) +:+ u = s +:+ t +:+ u.
Proof. induction s as [|c s IH]; [reflexivity|]. rewrite !str_app_cons, IH. reflexivity. Qed.

Lemma startswith_spec (p s : string) :
  Str.startswith p s = true ↔ ∃ t, s = p +:+ t.
Proof.
  revert s. induction p as [|a p IH]; intros s; simpl.
  - split; [intros _; exists s; reflexivity | reflexivity].
  - destruct s as [|b s].
    + split; [discriminate | intros [t Ht]; rewrite str_app_cons in Ht; discriminate].
    + rewrite andb_true_iff, IH, Ascii.eqb_eq. split.
      * intros [-> [t ->]]. exists t. reflexivity.
      * intros [t Ht]. rewrite str_app_cons in Ht. injection Ht as -> ->. eauto.
Qed.

Lemma contains_spec (needle hay : string) :
  Str.contains needle hay = true ↔ substring_of needle hay.
Proof.
  unfold substring_of. induction hay as [|c hay IH]; simpl.
  - rewrite orb_false_r, startswith_spec. split.
    + intros [t Ht]. exists "", t. exact Ht.
    + intros [p [s H]]. destruct p; [exists s; exact H | rewrite str_app_cons in H; discriminate].
  - rewrite orb_true_iff, startswith_spec, IH. split.
    + intros [[t Ht] | [p [s H]]].
      * exists "", t. exact Ht.
      * exists (String c p), s. rewrite str_app_cons, H. reflexivity.
    + intros [p [s H]]. destruct p as [|b p].
      * left. exists s. exact H.
      * right. rewrite str_app_cons in H. injection H as -> ->. eauto.
Qed.

Lemma is_empty_spec (s : string) : Str.is_empty s = true ↔ s = "".
Proof. destruct s; simpl; split; congruence. Qed.

Lemma contains_refl (s : string) : Str.contains s s = true.
Proof. apply contains_spec. exists "", "". rewrite str_app_nil_r. reflexivity. Qed.

(** ** C9: [is_same_place] *)

(** C9. [is_same_place a b] is true exactly when one of the two strings is
    non-empty and occurs in the other, whichever way round; it is false as
    soon as one of them is empty. *)
Theorem is_same_place_iff (a b : string) :
  (is_same_place a b = true ↔
     (a ≠ "" ∧ substring_of a b) ∨ (b ≠ "" ∧ substring_of b a))
  ∧ is_same_place "" b = false
  ∧ is_same_place a "" = false.
Proof.
  split; [|split].
  - unfold is_same_place.
    destruct a as [|x a]; [|destruct b as [|y b]]; simpl Str.is_empty; cbv iota.
    + cbn [orb]. split; [discriminate|].
      intros [[H _] | [Hb [p [s H]]]]; [congruence|].
      destruct p; [destruct b; [congruence | discriminate] | discriminate].
    + cbn [orb]. split; [discriminate|].
      intros [[_ [p [s H]]] | [H _]]; [|congruence].
      destruct p; discriminate.
    + cbn [orb]. rewrite orb_true_iff, !contains_spec. split.
      * intros [H | H]; [left | right]; (split; [discriminate | exact H]).
      * intros [[_ H] | [_ H]]; auto.
  - reflexivity.
  - unfold is_same_place. destruct a; reflexivity.
Qed.

(** ** The stable insertion sort *)

Section Sorting.
Context {A : Type} (le : A → A → bool).
Hypothesis le_total : ∀ x y, le x y = true ∨ le y x = true.
Hypothesis le_trans : ∀ x y z, le x y = true → le y z = true → le x z = true.

Lemma insert_by_perm (x : A) (l : list A) : insert_by le x l ≡ₚ x :: l.
Proof.
  induction l as [|y l IH]; simpl; [reflexivity|].
  destruct (le x y); [reflexivity|].
  rewrite IH. apply Permutation_swap.
Qed.

Lemma sort_by_perm (l : list A) : sort_by le l ≡ₚ l.
Proof.
  induction l as [|x l IH]; simpl; [reflexivity|].
  rewrite insert_by_perm, IH. reflexivity.
Qed.

Lemma sort_by_length (l : list A) : length (sort_by le l) = length l.
Proof. apply Permutation_length, sort_by_perm. Qed.

Lemma insert_by_sorted (x : A) (l : list A) :
  StronglySorted (λ a b, le a b = true) l →
  StronglySorted (λ a b, le a b = true) (insert_by le x l).
Proof.
  induction 1 as [|y l Hs IH Hy]; simpl.
  - repeat constructor.
  - destruct (le x y) eqn:Hxy.
    + constructor; [constructor; assumption|].
      constructor; [assumption|].
      eapply Forall_impl; [exact Hy|]. intros z Hz. eauto.
    + constructor; [assumption|].
      rewrite insert_by_perm. constructor; [|assumption].
      destruct (le_total x y) as [H | H]; [congruence | exact H].
Qed.

Lemma sort_by_sorted (l : list A) :
  StronglySorted (λ a b, le a b = true) (sort_by le l).
Proof.
  induction l as [|x l IH]; simpl; [constructor|].
  apply insert_by_sorted, IH.
Qed.

Lemma sorted_take_drop (n : nat) (l : list A) :
  StronglySorted (λ a b, le a b = true) l →
  StronglySorted (λ a b, le a b = true) (take n l) ∧
  ∀ x y, x ∈ take n l → y ∈ drop n l → le x y = true.
Proof.
  intros Hs. rewrite <- (take_drop n l) in Hs. split.
  - eapply StronglySorted_app_1_l, Hs.
  - intros x y Hx Hy. exact (StronglySorted_app_1_elem_of _ _ _ _ _ Hs Hx Hy).
Qed.

(** The sort is stable: the elements that compare equal to [z] keep the
    order they had. *)
Lemma insert_by_stable (z x : A) (l : list A) :
  StronglySorted (λ a b, le a b = true) l →
  List.filter (λ y, le z y && le y z) (insert_by le x l) =
    (if le z x && le x z then [x] else []) ++ List.filter (λ y, le z y && le y z) l.
Proof.
  induction 1 as [|y l _ IH _]; simpl; [destruct (le z x && le x z); reflexivity|].
  destruct (le x y) eqn:Hxy; simpl; [destruct (le z x && le x z); reflexivity|].
  rewrite IH. destruct (le z x && le x z) eqn:Hx; [|reflexivity].
  destruct (le z y && le y z) eqn:Hy; [|reflexivity].
  apply andb_true_iff in Hx as [Hzx Hxz]. apply andb_true_iff in Hy as [Hzy Hyz].
  rewrite (le_trans _ _ _ Hxz Hzy) in Hxy. discriminate.
Qed.

Lemma sort_by_stable (z : A) (l : list A) :
  List.filter (λ y, le z y && le y z) (sort_by le l) =
    List.filter (λ y, le z y && le y z) l.
Proof.
  induction l as [|x l IH]; simpl; [reflexivity|].
  rewrite insert_by_stable by apply sort_by_sorted. rewrite IH.
  destruct (le z x && le x z); reflexivity.
Qed.

End Sorting.

Lemma StronglySorted_mono {A} (R S : A → A → Prop) (l : list A) :
  (∀ x y, R x y → S x y) → StronglySorted R l → StronglySorted S l.
Proof.
  intros HRS. induction 1 as [|x l _ IH Hx]; constructor; [exact IH|].
  eapply Forall_impl; [exact Hx | apply HRS].
Qed.

(** ** The per-favourite filter of [DepartureWorker.run] *)

Lemma filter_res_inv {A} (p : A → res bool) (l m : list A) :
  filter_res p l = Ok m →
  Forall (λ x, ∃ b, p x = Ok b) l ∧ ∀ x, x ∈ m ↔ x ∈ l ∧ p x = Ok true.
Proof.
  revert m. induction l as [|y l IH]; simpl; intros m H.
  - inversion H; subst. split; [constructor|].
    intros x. split; [intros Hx | intros [Hx _]]; inversion Hx.
  - destruct (p y) as [b|e] eqn:Hy; [|discriminate]. cbn in H.
    destruct (filter_res p l) as [rest|e] eqn:Hl; [|discriminate]. cbn in H.
    inversion H; subst. destruct (IH rest eq_refl) as [Hall Hin].
    split; [constructor; eauto|].
    intros x. destruct b.
    + rewrite !elem_of_cons, Hin. split.
      * intros [-> | [Hx Hp]]; auto.
      * intros [[-> | Hx] Hp]; auto.
    + rewrite elem_of_cons, Hin. split.
      * intros [Hx Hp]; auto.
      * intros [[-> | Hx] Hp]; [congruence | auto].
Qed.

Lemma filter_res_total {A} (p : A → res bool) (l : list A) :
  Forall (λ x, ∃ b, p x = Ok b) l → ∃ m, filter_res p l = Ok m.
Proof.
  induction 1 as [|y l [b Hy] _ [rest IH]]; simpl; [eauto|].
  rewrite Hy, IH. cbn. eauto.
Qed.

Lemma py_eqb_str (x : value) (s : string) : Py.eqb x (VStr s) = true ↔ x = VStr s.
Proof.
  destruct x; simpl; try (split; [discriminate | congruence]).
  rewrite String.eqb_eq. split; congruence.
Qed.

Section Filter.
Context {lib : Library}.

(** The four criteria of the comprehension, spelled out. *)
Lemma matches_true (fav : Favourite.t) (stop_norm : string) (d : Departure.t) :
  matches fav stop_norm d = Ok true ↔
    0 ≤ Departure.eta_seconds d ∧
    ∃ dest, Departure.destination d = VStr dest ∧
      Str.contains (str_lower (Favourite.destination_name fav)) (str_lower dest) = true ∧
      (Favourite.direction fav = "" ∨
       Departure.direction_ref d = VStr (Favourite.direction fav)) ∧
      is_same_place stop_norm (normalize dest) = false.
Proof.
  unfold matches. destruct (Z.leb_spec 0 (Departure.eta_seconds d)) as [Heta | Heta].
  - destruct (Departure.destination d) as [| | | |dest| |];
      try (split; [discriminate | intros [_ [? [? _]]]; discriminate]).
    split.
    + intros H. injection H as H.
      apply andb_true_iff in H as [H Hsame]. apply andb_true_iff in H as [Hdest Hdir].
      split; [exact Heta|]. exists dest. split; [reflexivity|]. split; [exact Hdest|].
      split; [|apply negb_true_iff, Hsame].
      apply orb_true_iff in Hdir as [Hdir | Hdir].
      * left. apply is_empty_spec, Hdir.
      * right. apply py_eqb_str, Hdir.
    + intros [_ [dest' [Hd [Hdest [Hdir Hsame]]]]]. injection Hd as <-.
      rewrite Hdest, Hsame. simpl. f_equal.
      rewrite andb_true_r. apply orb_true_iff.
      destruct Hdir as [Hdir | Hdir]; [left; apply is_empty_spec, Hdir|].
      right. apply py_eqb_str, Hdir.
  - split; [discriminate | intros [? _]; lia].
Qed.

Lemma matched_elem (fav : Favourite.t) (all m : list Departure.t) (d : Departure.t) :
  matched fav all = Ok m →
  d ∈ m ↔ d ∈ all ∧ matches fav (normalize (Favourite.stop_name fav)) d = Ok true.
Proof. intros H. apply (filter_res_inv _ _ _ H). Qed.

Lemma select_inv (fav : Favourite.t) (all r : list Departure.t) :
  select fav all = Ok r →
  ∃ m, matched fav all = Ok m ∧ r = take 5 (sort_by by_expected m).
Proof.
  unfold select. destruct (matched fav all) as [m|e]; [|discriminate].
  cbn. intros H. injection H as <-. eauto.
Qed.

Lemma select_elem (fav : Favourite.t) (all r : list Departure.t) (d : Departure.t) :
  select fav all = Ok r → d ∈ r →
  d ∈ all ∧ matches fav (normalize (Favourite.stop_name fav)) d = Ok true.
Proof.
  intros H Hd. apply select_inv in H as [m [Hm ->]].
  apply (matched_elem _ _ _ _ Hm).
  rewrite <- (sort_by_perm by_expected m).
  eapply subseteq_take, Hd.
Qed.

(** C3. With a non-empty direction a departure is kept only if its
    [direction_ref] is that very string; with the empty direction a
    departure is kept exactly when the three other criteria hold, whatever
    its [direction_ref]. *)
Theorem direction_criterion (fav : Favourite.t) (all m : list Departure.t)
    (d : Departure.t) :
  matched fav all = Ok m →
  d ∈ all →
  (Favourite.direction fav ≠ "" → d ∈ m →
     Departure.direction_ref d = VStr (Favourite.direction fav)) ∧
  (Favourite.direction fav = "" →
     (d ∈ m ↔
        0 ≤ Departure.eta_seconds d ∧
        ∃ dest, Departure.destination d = VStr dest ∧
          Str.contains (str_lower (Favourite.destination_name fav)) (str_lower dest) = true ∧
          is_same_place (normalize (Favourite.stop_name fav)) (normalize dest) = false)).
Proof.
  intros Hm Hall. split.
  - intros Hdir Hd. apply (matched_elem _ _ _ _ Hm) in Hd as [_ Hd].
    apply matches_true in Hd as [_ [dest [_ [_ [[H | H] _]]]]]; [congruence | exact H].
  - intros Hdir. rewrite (matched_elem _ _ _ _ Hm), matches_true. split.
    + intros [_ [Heta [dest [Hd [Hdest [_ Hsame]]]]]]. eauto 10.
    + intros [Heta [dest [Hd [Hdest Hsame]]]]. split; [exact Hall|]. eauto 10.
Qed.

(** C4. A departure whose normalized destination is the same place as the
    favourite's normalized stop name is in no result list of that
    favourite, whatever its eta, destination and direction. *)
Theorem terminus_excluded (fav : Favourite.t) (all r : list Departure.t)
    (d : Departure.t) (dest : string) :
  select fav all = Ok r →
  Departure.destination d = VStr dest →
  is_same_place (normalize (Favourite.stop_name fav)) (normalize dest) = true →
  d ∉ r.
Proof.
  intros Hr Hdest Hsame Hd.
  apply (select_elem _ _ _ _ Hr) in Hd as [_ Hd].
  apply matches_true in Hd as [_ [dest' [Hd' [_ [_ H]]]]].
  congruence.
Qed.

Lemma sort_key_eq (d : Departure.t) : sort_key d = Departure.expected_iso d.
Proof. unfold sort_key. destruct (Departure.expected_iso d); reflexivity. Qed.

Lemma by_expected_total (x y : Departure.t) :
  by_expected x y = true ∨ by_expected y x = true.
Proof. apply String.leb_total. Qed.

Lemma by_expected_trans (x y z : Departure.t) :
  by_expected x y = true → by_expected y z = true → by_expected x z = true.
Proof.
  unfold by_expected, Str.leb. intros Hxy Hyz.
  apply Is_true_true. apply Is_true_true in Hxy, Hyz.
  exact (transitivity (R := String.le) Hxy Hyz).
Qed.

(** Of the [n] departures the filter keeps, the selection holds [min n 5],
    in ascending order of the expected-time string, and they are the
    earliest: every departure left out is no earlier than every one
    selected.  Eight kept departures give five. *)
Theorem select_earliest_five (fav : Favourite.t) (all m : list Departure.t) :
  matched fav all = Ok m →
  ∃ r, select fav all = Ok r ∧
    StronglySorted
      (λ d1 d2, String.leb (Departure.expected_iso d1) (Departure.expected_iso d2) = true) r ∧
    length r = Nat.min (length m) 5 ∧
    (length m = 8%nat → length r = 5%nat) ∧
    ∃ rest, r ++ rest ≡ₚ m ∧
      ∀ x y, x ∈ r → y ∈ rest →
        String.leb (Departure.expected_iso x) (Departure.expected_iso y) = true.
Proof.
  intros Hm. exists (take 5 (sort_by by_expected m)).
  split; [unfold select; rewrite Hm; reflexivity|].
  pose proof (sort_by_sorted by_expected by_expected_total by_expected_trans m) as Hs.
  destruct (sorted_take_drop by_expected 5 _ Hs) as [Ht Hle].
  assert (Hlen : length (take 5 (sort_by by_expected m)) = Nat.min (length m) 5).
  { rewrite length_take, sort_by_length. lia. }
  split; [|split; [exact Hlen | split; [rewrite Hlen; intros ->; reflexivity|]]].
  - eapply StronglySorted_mono; [|exact Ht].
    intros x y H. unfold by_expected in H. rewrite !sort_key_eq in H. exact H.
  - exists (drop 5 (sort_by by_expected m)). split.
    + rewrite take_drop. apply sort_by_perm.
    + intros x y Hx Hy. specialize (Hle x y Hx Hy).
      unfold by_expected in Hle. rewrite !sort_key_eq in Hle. exact Hle.
Qed.

End Filter.

(** ** Splitting an identifier at its colons *)

Lemma split_nonempty (sep : ascii) (s : string) : Str.split sep s ≠ [].
Proof.
  destruct s as [|c s]; simpl; [discriminate|].
  destruct (Ascii.eqb c sep); [discriminate|].
  destruct (Str.split sep s); discriminate.
Qed.

Lemma split_app (sep : ascii) (p t : string) :
  Str.split sep (p +:+ String sep t) = Str.split sep p ++ Str.split sep t.
Proof.
  induction p as [|c p IH].
  - rewrite str_app_nil_l. simpl. rewrite Ascii.eqb_refl. reflexivity.
  - rewrite str_app_cons. simpl. rewrite IH.
    destruct (Ascii.eqb c sep); [reflexivity|].
    destruct (Str.split sep p) as [|seg segs] eqn:Hp; [|reflexivity].
    exfalso. exact (split_nonempty _ _ Hp).
Qed.

Lemma split_no_sep (sep : ascii) (s : string) :
  Str.contains (String sep "") s = false → Str.split sep s = [s].
Proof.
  induction s as [|c s IH]; simpl; [reflexivity|].
  intros H. apply orb_false_iff in H as [Hc Hs].
  destruct (Ascii.eqb_spec c sep) as [-> | Hne].
  - rewrite Ascii.eqb_refl in Hc. discriminate.
  - rewrite (IH Hs). reflexivity.
Qed.

Lemma List_last_app {A} (l1 l2 : list A) (d : A) :
  l2 ≠ [] → List.last (l1 ++ l2) d = List.last l2 d.
Proof.
  intros Hl2. induction l1 as [|x l1 IH]; [reflexivity|].
  simpl. destruct (l1 ++ l2) eqn:E; [|exact IH].
  apply app_eq_nil in E as [_ ->]. congruence.
Qed.

(** The trailing colon-separated component of an identifier. *)
Lemma last_segment_trailing (p t : string) :
  Str.contains ":" t = false → Str.last_segment ":" (p +:+ ":" +:+ t) = t.
Proof.
  intros Ht. unfold Str.last_segment.
  change (p +:+ ":" +:+ t) with (p +:+ String ":" t).
  rewrite split_app, List_last_app by apply split_nonempty.
  rewrite (split_no_sep _ _ Ht). reflexivity.
Qed.

Lemma last_segment_whole (s : string) :
  Str.contains ":" s = false → Str.last_segment ":" s = s.
Proof. intros Hs. unfold Str.last_segment. rewrite (split_no_sep _ _ Hs). reflexivity. Qed.

(** ** ResolveAndProbeWorker *)

Section Resolve.
Context {lib : Library} {nw : Network}.

(** The identifier that keys the catalog lookup is the trailing component
    in both branches of the conditional expression. *)
Lemma arr_id_last_segment (stop_id : string) :
  (if Str.contains ":" stop_id then Str.last_segment ":" stop_id else stop_id)
  = Str.last_segment ":" stop_id.
Proof.
  destruct (Str.contains ":" stop_id) eqn:H; [reflexivity|].
  symmetry. apply last_segment_whole, H.
Qed.

(** The catalog lookup, written out: the records of the dataset [arrets]
    whose [arrid] is the identifier, one at most, with their name and
    stop-area id. *)
Lemma arrets_request_eq (arr_id : string) :
  arrets_request arr_id =
    Request "https://data.iledefrance-mobilites.fr/api/explore/v2.1/catalog/datasets/arrets/records"
      [("where", VStr ("arrid=" +:+ String "034" (arr_id +:+ String "034" "")));
       ("limit", VInt 1);
       ("select", VStr "arrname,zdaid")].
Proof. reflexivity. Qed.

(** C6. An identifier with the marker resolves to its trailing
    colon-separated component and the empty name, and the world (so the
    request log) is untouched.  An identifier without it costs exactly one
    request, the catalog lookup: a request to the records of the dataset
    [arrets] of the open-data catalog, with the filter [arrid="t"] where
    [t] is the trailing component, at most one record asked for; it
    resolves to two empty strings when the payload holds no record
    ([results] absent or empty).  The trailing component is what follows
    the last colon. *)
Theorem resolve_by_shape (stop_id : string) (w : world) :
  let trailing := Str.last_segment ":" stop_id in
  let lookup :=
    Request "https://data.iledefrance-mobilites.fr/api/explore/v2.1/catalog/datasets/arrets/records"
      [("where", VStr ("arrid=" +:+ String "034" (trailing +:+ String "034" "")));
       ("limit", VInt 1);
       ("select", VStr "arrname,zdaid")] in
  (Str.contains "monomodalStopPlace" stop_id = true →
     _resolve stop_id w = (Ok (trailing, VStr ""), w)) ∧
  (Str.contains "monomodalStopPlace" stop_id = false →
     calls (snd (_resolve stop_id w)) = calls w ++ [lookup] ∧
     ∀ data records,
       net (length (calls w)) lookup = NetJson data →
       Py.get data "results" (VList []) = Ok records →
       Py.truthy records = false →
       fst (_resolve stop_id w) = Ok ("", VStr "")) ∧
  (∀ p t, stop_id = p +:+ ":" +:+ t → Str.contains ":" t = false → trailing = t).
Proof.
  intros trailing lookup. subst trailing lookup.
  rewrite <- (arrets_request_eq (Str.last_segment ":" stop_id)).
  split; [|split].
  - intros Hm. unfold _resolve. rewrite Hm. reflexivity.
  - intros Hm. unfold _resolve. rewrite Hm, arr_id_last_segment.
    set (req := arrets_request _).
    unfold mbind, M_bind, requests_get. split.
    + destruct (net (length (calls w)) req) as [|data]; [reflexivity|].
      unfold lift. destruct (Py.get data "results" (VList [])) as [records|e]; [|reflexivity].
      destruct (Py.truthy records); [|reflexivity].
      destruct (Py.getitem0 records) as [first|e]; [|reflexivity].
      destruct (Py.get first "arrname" (VStr "")) as [name|e]; [|reflexivity].
      destruct (Py.get first "zdaid" (VStr "")) as [z|e]; reflexivity.
    + intros data records Hnet Hrec Hempty. rewrite Hnet. unfold lift.
      rewrite Hrec, Hempty. reflexivity.
  - intros p t -> Ht. apply last_segment_trailing, Ht.
Qed.

End Resolve.

(** ** The direction prober *)

Lemma py_eqb_trans (x y z : value) :
  Py.eqb x y = true → Py.eqb y z = true → Py.eqb x z = true.
Proof.
  assert (Hq : ∀ p q r, QArith_base.Qeq_bool p q = true → QArith_base.Qeq_bool q r = true →
                        QArith_base.Qeq_bool p r = true).
  { intros p q r Hpq Hqr. apply QArith_base.Qeq_bool_iff.
    apply QArith_base.Qeq_bool_iff in Hpq, Hqr.
    exact (QArith_base.Qeq_trans _ _ _ Hpq Hqr). }
  destruct x, y, z; simpl; try discriminate; try (intros; reflexivity); try apply Hq.
  intros H1 H2. apply String.eqb_eq in H1, H2. subst. apply String.eqb_refl.
Qed.

Lemma filter_filter_comm {A} (f g : A → bool) (l : list A) :
  List.filter f (List.filter g l) = List.filter g (List.filter f l).
Proof.
  induction l as [|x l IH]; simpl; [reflexivity|].
  destruct (g x) eqn:Hg, (f x) eqn:Hf; simpl; rewrite ?Hg, ?Hf, IH; reflexivity.
Qed.

Lemma filter_filter_absorb {A} (f g : A → bool) (l : list A) :
  (∀ x, f x = true → g x = true) →
  List.filter f (List.filter g l) = List.filter f l.
Proof.
  intros Hfg. induction l as [|x l IH]; simpl; [reflexivity|].
  destruct (g x) eqn:Hg; simpl.
  - destruct (f x); rewrite IH; reflexivity.
  - destruct (f x) eqn:Hf; [|exact IH].
    rewrite (Hfg _ Hf) in Hg. discriminate.
Qed.

Lemma first_seen_filter (k : value) (l : list (value * value)) :
  first_seen (List.filter (λ q, negb (Py.eqb k (fst q))) l)
  = List.filter (λ q, negb (Py.eqb k (fst q))) (first_seen l).
Proof.
  induction l as [|p l IH]; simpl; [reflexivity|].
  destruct (Py.eqb k (fst p)) eqn:Hk; simpl.
  - rewrite IH. symmetry. apply filter_filter_absorb.
    intros q Hq. apply negb_true_iff in Hq. apply negb_true_iff.
    destruct (Py.eqb (fst p) (fst q)) eqn:Hpq; [|reflexivity].
    rewrite (py_eqb_trans _ _ _ Hk Hpq) in Hq. discriminate.
  - rewrite IH. f_equal. apply filter_filter_comm.
Qed.

Lemma first_seen_unique (l : list (value * value)) : unique_by_destination (first_seen l).
Proof.
  unfold unique_by_destination. induction l as [|p l IH]; simpl; [constructor|].
  constructor.
  - revert IH. generalize (first_seen l) as t. intros t.
    induction 1 as [|q t Ht IH Hq]; simpl; [constructor|].
    destruct (negb (Py.eqb (fst p) (fst q))); [|exact IH].
    constructor; [exact IH|].
    apply Forall_forall. intros r Hr. rewrite Forall_forall in Hq. apply Hq.
    apply list_elem_of_In in Hr. apply filter_In in Hr as [Hr _].
    apply list_elem_of_In. exact Hr.
  - apply Forall_forall. intros q Hq.
    apply list_elem_of_In in Hq. apply filter_In in Hq as [_ Hq].
    apply negb_true_iff, Hq.
Qed.

Lemma has_key_app (k : value) (d1 d2 : list (value * value)) :
  has_key k (d1 ++ d2) = has_key k d1 || has_key k d2.
Proof. apply existsb_app. Qed.

(** The loop keeps, after what it started with, the first pair of every
    named destination it did not know. *)
Lemma probe_visits_first_seen (visits : list value) (d l : list (value * value)) :
  probe_visits d visits = Ok l →
  ∃ pairs, map_res visit_pair visits = Ok pairs ∧
    l = d ++ first_seen (List.filter (λ p, named p && negb (has_key (fst p) d)) pairs).
Proof.
  revert d. induction visits as [|visit visits IH]; simpl; intros d H.
  - inversion H; subst. exists []. rewrite app_nil_r. split; reflexivity.
  - unfold probe_visit in H. destruct (visit_pair visit) as [pair|e]; [|discriminate].
    cbn in H. destruct (remember d pair) as [d1|e] eqn:Hrem; [|discriminate].
    cbn in H. destruct (IH d1 H) as [pairs [Hpairs ->]].
    exists (pair :: pairs). rewrite Hpairs. split; [reflexivity|].
    unfold remember in Hrem. cbn [List.filter].
    destruct (named pair); simpl.
    + destruct (Py.hashable (fst pair)); [|discriminate].
      destruct (has_key (fst pair) d) eqn:Hk; inversion Hrem; subst; simpl; [reflexivity|].
      rewrite <- app_assoc. simpl. do 2 f_equal.
      rewrite <- first_seen_filter. f_equal.
      clear. induction pairs as [|q pairs IH]; simpl; [reflexivity|].
      rewrite has_key_app. simpl. rewrite orb_false_r, negb_orb.
      destruct (Py.eqb (fst pair) (fst q)) eqn:He, (named q), (has_key (fst q) d);
        simpl; rewrite ?He; simpl; rewrite ?IH; reflexivity.
    + inversion Hrem; subst. reflexivity.
Qed.

Lemma directions_of_inv (data : value) (l : list (value * value)) :
  directions_of data = Ok l →
  ∃ pairs, visit_pairs data = Ok pairs ∧ l = first_seen (List.filter named pairs).
Proof.
  unfold directions_of, visit_pairs.
  destruct (monitored_visits data) as [[visits|]|e]; cbn; [| |discriminate].
  - destruct (Py.iter visits) as [vs|e]; cbn; [|discriminate].
    intros H. apply probe_visits_first_seen in H as [pairs [Hp ->]].
    exists pairs. split; [exact Hp|]. simpl. f_equal.
    clear. induction pairs as [|q pairs IH]; simpl; [reflexivity|].
    rewrite andb_true_r, IH. reflexivity.
  - intros H. inversion H; subst. exists []. split; reflexivity.
Qed.

Lemma delivery_missing_visits (data : value) :
  delivery_missing data → monitored_visits data = Ok None.
Proof.
  unfold monitored_visits.
  destruct 1 as [d H1 | d s H1 H2 | d s sd H1 H2 H3 | d s sd H1 H2 H3];
    cbn; rewrite H1; cbn; rewrite ?H2; cbn; rewrite ?H3; reflexivity.
Qed.

(** X26.  Whenever the prober returns, its list is the first
    pair of every named destination among the visits, in the order of first
    occurrence, and no two of its items have equal destinations.  When a
    key on the way to the delivery is absent, or the array of deliveries is
    empty, it returns the empty list. *)
Theorem prober_first_seen (data : value) :
  (∀ l, directions_of data = Ok l →
     ∃ pairs, visit_pairs data = Ok pairs ∧
       l = first_seen (List.filter named pairs) ∧
       unique_by_destination l) ∧
  (delivery_missing data → directions_of data = Ok []).
Proof.
  split.
  - intros l H. apply directions_of_inv in H as [pairs [Hp ->]].
    exists pairs. split; [exact Hp|]. split; [reflexivity|]. apply first_seen_unique.
  - intros H. unfold directions_of. rewrite (delivery_missing_visits _ H). reflexivity.
Qed.

(** C8.  The prober does not return the empty list on every response that
    lacks the delivery: on a payload whose ["Siri"] is [null] the subscript
    raises [TypeError], which [except (KeyError, IndexError)] does not
    name, and the prober raises where an absent key gives the empty
    list. *)
Lemma prober_raises_on_null_Siri :
  directions_of (VDict [("Siri", VNone)]) = Raise TypeError.
Proof. reflexivity. Qed.

(** On a payload of the shape the tests build the prober returns. *)
Lemma directions_of_make_siri_response (l : list (string * string * string)) :
  ∃ r, directions_of (Sample.make_siri_response l) = Ok r.
Proof.
  unfold directions_of, Sample.make_siri_response. cbn.
  generalize (@nil (value * value)) as ds.
  induction l as [|[[destination expected_time] direction_ref] l IH]; intros ds; cbn.
  - eauto.
  - unfold remember. cbn [fst Py.hashable].
    destruct (named _); [|apply IH].
    destruct (has_key _ ds); apply IH.
Qed.

Section ResolveAndProbe.
Context {lib : Library} {nw : Network}.

(** [_resolve] emits nothing and leaves [results] alone. *)
Lemma resolve_frame (stop_id : string) (w : world) :
  events (snd (_resolve stop_id w)) = events w ∧
  results (snd (_resolve stop_id w)) = results w.
Proof.
  unfold _resolve. destruct (Str.contains "monomodalStopPlace" stop_id); [split; reflexivity|].
  rewrite arr_id_last_segment. set (req := arrets_request _).
  unfold mbind, M_bind, requests_get.
  destruct (net (length (calls w)) req) as [|data]; [split; reflexivity|].
  unfold lift. destruct (Py.get data "results" (VList [])) as [records|e]; [|split; reflexivity].
  destruct (Py.truthy records); [|split; reflexivity].
  destruct (Py.getitem0 records) as [first|e]; [|split; reflexivity].
  destruct (Py.get first "arrname" (VStr "")) as [name|e]; [|split; reflexivity].
  destruct (Py.get first "zdaid" (VStr "")) as [z|e]; split; reflexivity.
Qed.

(** C7. When the stop resolves to a non-empty stop-area id and the request
    of the probe fails, the run ends normally having emitted one error and
    then the terminal event, which carries the resolved id and name and an
    empty list of directions. *)
Theorem probe_failure_keeps_stop (stop_id line_id stop_area_id : string)
    (stop_name : value) (w1 : world) :
  _resolve stop_id world0 = (Ok (stop_area_id, stop_name), w1) →
  stop_area_id ≠ "" →
  net (length (calls w1)) (siri_request stop_area_id line_id) = NetFail →
  let run := run_of (ResolveAndProbeWorker_run stop_id line_id) in
  fst run = Ok () ∧
  events (snd run) =
    [ErrorSig "Erreur directions: " RequestException;
     ResolveFinished stop_area_id stop_name []] ∧
  finished_count (snd run) = 1%nat ∧
  error_count (snd run) = 1%nat.
Proof.
  intros Hres Hne Hnet.
  pose proof (resolve_frame stop_id world0) as [Hev Hrs]. rewrite Hres in Hev, Hrs.
  destruct w1 as [c1 e1 r1]. simpl in Hev, Hrs, Hnet. subst e1 r1.
  assert (Hrun : run_of (ResolveAndProbeWorker_run stop_id line_id) =
                 (Ok (), World (c1 ++ [siri_request stop_area_id line_id])
                           [ErrorSig "Erreur directions: " RequestException;
                            ResolveFinished stop_area_id stop_name []] ∅)).
  { unfold run_of, ResolveAndProbeWorker_run.
    unfold mbind at 1. unfold M_bind at 1. unfold try_except at 1.
    unfold mbind at 1. unfold M_bind at 1. rewrite Hres.
    destruct stop_area_id as [|c s]; [congruence|]. cbn [fst Str.is_empty].
    cbv beta iota. unfold mret at 1. unfold M_ret at 1. cbv beta iota.
    unfold try_except, _probe_directions.
    unfold mbind at 1. unfold M_bind at 1.
    unfold mbind at 1. unfold M_bind at 1.
    unfold requests_get. cbn [calls events results]. rewrite Hnet.
    reflexivity. }
  intros run. subst run. rewrite Hrun. repeat split.
Qed.

Lemma probe_directions_frame (stop_area_id line_id : string) (w : world) :
  events (snd (_probe_directions stop_area_id line_id w)) = events w.
Proof.
  unfold _probe_directions, mbind, M_bind, requests_get, lift.
  destruct (net _ _); reflexivity.
Qed.

(** The terminal signal of [ResolveAndProbeWorker]: one if the run returns,
    none if an exception other than [RequestException] ends it. *)
Lemma ResolveAndProbeWorker_terminal_signal (stop_id line_id : string) :
  let run := run_of (ResolveAndProbeWorker_run stop_id line_id) in
  match fst run with
  | Ok _ => finished_count (snd run) = 1%nat
  | Raise e => e ≠ RequestException ∧ finished_count (snd run) = 0%nat
  end.
Proof.
  cbv zeta. destruct (run_of _) as [r w] eqn:Hrun. cbn [fst snd].
  unfold run_of, ResolveAndProbeWorker_run in Hrun.
  unfold mbind at 1 in Hrun. unfold M_bind at 1 in Hrun. unfold try_except at 1 in Hrun.
  unfold mbind at 1 in Hrun. unfold M_bind at 1 in Hrun.
  pose proof (resolve_frame stop_id world0) as [Hev _].
  destruct (_resolve stop_id world0) as [[[stop_area_id stop_name]|e] [c1 e1 r1]];
    cbn [snd events world0] in Hev; subst e1.
  - cbn [fst] in Hrun. destruct (Str.is_empty stop_area_id).
    + inversion Hrun; subst. reflexivity.
    + unfold mret at 1 in Hrun. unfold M_ret at 1 in Hrun. cbv beta iota in Hrun.
      unfold try_except, on_request_exception in Hrun.
      unfold mbind at 1 in Hrun. unfold M_bind at 1 in Hrun.
      pose proof (probe_directions_frame stop_area_id line_id (World c1 [] r1)) as Hev.
      destruct (_probe_directions stop_area_id line_id (World c1 [] r1))
        as [[directions|e] [c2 e2 r2]]; cbn [snd events] in Hev; subst e2.
      * inversion Hrun; subst. reflexivity.
      * destruct e; inversion Hrun; subst;
          first [reflexivity | split; [discriminate | reflexivity]].
  - unfold on_request_exception in Hrun.
    destruct e; inversion Hrun; subst;
      first [reflexivity | split; [discriminate | reflexivity]].
Qed.

End ResolveAndProbe.

(** ** Grouping the favourites *)

Lemma filter_In_elem {A} (f : A → bool) (l : list A) (x : A) :
  x ∈ List.filter f l ↔ x ∈ l ∧ f x = true.
Proof. rewrite !list_elem_of_In. apply filter_In. Qed.

Lemma first_occurrences_elem {A} `{EqDecision A} (l : list A) (x : A) :
  x ∈ first_occurrences l ↔ x ∈ l.
Proof.
  induction l as [|y l IH]; simpl; [reflexivity|].
  rewrite !elem_of_cons, filter_In_elem, IH.
  destruct (decide (x = y)) as [-> | Hne]; [tauto|].
  rewrite bool_decide_eq_true_2 by exact Hne. tauto.
Qed.

Lemma NoDup_filter_bool {A} (f : A → bool) (l : list A) :
  NoDup l → NoDup (List.filter f l).
Proof.
  induction 1 as [|x l Hx _ IH]; simpl; [constructor|].
  destruct (f x); [|exact IH].
  constructor; [|exact IH]. rewrite filter_In_elem. tauto.
Qed.

Lemma first_occurrences_NoDup {A} `{EqDecision A} (l : list A) :
  NoDup (first_occurrences l).
Proof.
  induction l as [|x l IH]; simpl; constructor.
  - rewrite filter_In_elem. intros [_ H]. apply bool_decide_eq_true in H. congruence.
  - apply NoDup_filter_bool, IH.
Qed.

Lemma first_occurrences_snoc {A} `{EqDecision A} (l : list A) (x : A) :
  first_occurrences (l ++ [x]) =
    if bool_decide (x ∈ l) then first_occurrences l else first_occurrences l ++ [x].
Proof.
  induction l as [|y l IH]; simpl; [reflexivity|].
  rewrite IH. destruct (decide (x = y)) as [-> | Hne].
  - rewrite (bool_decide_eq_true_2 (y ∈ y :: l)) by (apply elem_of_cons; auto).
    destruct (bool_decide (y ∈ l)); [reflexivity|].
    rewrite List.filter_app. simpl.
    rewrite bool_decide_eq_false_2 by tauto. rewrite app_nil_r. reflexivity.
  - destruct (bool_decide (x ∈ l)) eqn:Hin.
    + apply bool_decide_eq_true in Hin.
      rewrite bool_decide_eq_true_2 by (apply elem_of_cons; auto). reflexivity.
    + apply bool_decide_eq_false in Hin.
      rewrite bool_decide_eq_false_2
        by (rewrite elem_of_cons; intros [? | ?]; [congruence | contradiction]).
      rewrite List.filter_app. simpl. rewrite bool_decide_eq_true_2 by exact Hne. reflexivity.
Qed.

Lemma members_snoc (key : string * string) (favs : list Favourite.t) (fav : Favourite.t) :
  members key (favs ++ [fav]) =
    members key favs ++ (if bool_decide (group_key fav = key) then [fav] else []).
Proof. unfold members. rewrite List.filter_app. reflexivity. Qed.

Lemma members_nil (key : string * string) (favs : list Favourite.t) :
  key ∉ map group_key favs → members key favs = [].
Proof.
  induction favs as [|f favs IH]; simpl; [reflexivity|].
  intros H. apply not_elem_of_cons in H as [Hne H].
  rewrite bool_decide_eq_false_2 by congruence. apply IH, H.
Qed.

Lemma members_snoc_other (key : string * string) (favs : list Favourite.t)
    (fav : Favourite.t) :
  group_key fav ≠ key → members key (favs ++ [fav]) = members key favs.
Proof.
  intros H. rewrite members_snoc, bool_decide_eq_false_2 by exact H. apply app_nil_r.
Qed.

Lemma members_snoc_same (favs : list Favourite.t) (fav : Favourite.t) :
  members (group_key fav) (favs ++ [fav]) = members (group_key fav) favs ++ [fav].
Proof. rewrite members_snoc, bool_decide_eq_true_2 by reflexivity. reflexivity. Qed.

Lemma group_append_members (fav : Favourite.t) (favs : list Favourite.t)
    (ks : list (string * string)) :
  NoDup ks →
  (group_key fav ∉ ks → members (group_key fav) favs = []) →
  group_append (group_key fav) fav (map (λ k, (k, members k favs)) ks) =
    map (λ k, (k, members k (favs ++ [fav])))
        (if bool_decide (group_key fav ∈ ks) then ks else ks ++ [group_key fav]).
Proof.
  intros Hnd Hnil. induction Hnd as [|k ks Hk Hnd IH]; simpl.
  - rewrite members_snoc_same, Hnil by apply not_elem_of_nil. reflexivity.
  - destruct (decide (k = group_key fav)) as [-> | Hne].
    + rewrite bool_decide_eq_true_2 by (apply elem_of_cons; auto).
      simpl. rewrite members_snoc_same. f_equal.
      apply map_ext_in. intros k Hin. apply list_elem_of_In in Hin.
      rewrite members_snoc_other; [reflexivity|]. congruence.
    + rewrite IH.
      2:{ intros H. apply Hnil. rewrite not_elem_of_cons. split; [congruence | exact H]. }
      destruct (bool_decide (group_key fav ∈ ks)) eqn:Hin.
      * apply bool_decide_eq_true in Hin.
        rewrite bool_decide_eq_true_2 by (apply elem_of_cons; auto).
        simpl. rewrite members_snoc_other by congruence. reflexivity.
      * apply bool_decide_eq_false in Hin.
        rewrite bool_decide_eq_false_2
          by (rewrite elem_of_cons; intros [? | ?]; [congruence | contradiction]).
        simpl. rewrite members_snoc_other by congruence. reflexivity.
Qed.

(** The groups are the distinct pairs in the order of first occurrence,
    each with the favourites that have it, in their order. *)
Lemma group_favourites_spec (favs : list Favourite.t) :
  group_favourites favs =
    map (λ k, (k, members k favs)) (first_occurrences (map group_key favs)).
Proof.
  unfold group_favourites. induction favs as [|fav favs IH] using rev_ind; [reflexivity|].
  rewrite foldl_snoc, IH, map_app. simpl.
  rewrite first_occurrences_snoc, group_append_members.
  - destruct (bool_decide (group_key fav ∈ map group_key favs)) eqn:Hin.
    + apply bool_decide_eq_true in Hin.
      rewrite bool_decide_eq_true_2 by (apply first_occurrences_elem, Hin). reflexivity.
    + apply bool_decide_eq_false in Hin.
      rewrite bool_decide_eq_false_2 by (rewrite first_occurrences_elem; exact Hin).
      reflexivity.
  - apply first_occurrences_NoDup.
  - intros H. apply members_nil. rewrite first_occurrences_elem in H. exact H.
Qed.

(** ** Which exceptions the parsing raises *)

Lemma bind_raise {A B} (r : res A) (k : A → res B) (e : exn) :
  (r ≫= k) = Raise e → r = Raise e ∨ ∃ a, r = Ok a ∧ k a = Raise e.
Proof.
  destruct r as [a|e']; cbn; intros H.
  - right. exists a. split; [reflexivity | exact H].
  - left. inversion H. reflexivity.
Qed.

Lemma get_raises (v : value) (k : string) (d : value) (e : exn) :
  Py.get v k d = Raise e → e = AttributeError.
Proof. destruct v; cbn; congruence. Qed.

Ltac raises H :=
  lazymatch type of H with
  | (mbind _ _) = Raise _ => apply bind_raise in H as [H | [? [_ H]]]; [raises H | raises H]
  | (if ?c then _ else _) = Raise _ => destruct c; raises H
  | Ok _ = Raise _ => discriminate H
  | Raise _ = Raise _ => inversion H; subst
  | Py.get _ _ _ = Raise _ => apply get_raises in H
  | _ => idtac
  end.

Lemma list_or_scalar_raises (journey : value) (field default : string) (e : exn) :
  list_or_scalar journey field default = Raise e → e = AttributeError.
Proof.
  unfold list_or_scalar. intros H.
  apply bind_raise in H as [H | [x [_ H]]]; [apply get_raises in H; exact H|].
  destruct (Py.or_else x (VList [VDict []])) as [| | | | |l|]; cbn in H;
    try discriminate H.
  destruct l as [|first l]; cbn in H; [discriminate|].
  apply get_raises in H. exact H.
Qed.

Lemma ref_value_raises (journey : value) (field : string) (e : exn) :
  ref_value journey field = Raise e → e = AttributeError.
Proof. unfold ref_value. intros H. raises H; exact H. Qed.

Section Parsing.
Context {lib : Library}.

Lemma parse_visit_raises (fetch_ts : Z) (visit : value) (e : exn) :
  parse_visit fetch_ts visit = Raise e → e = AttributeError.
Proof.
  unfold parse_visit. intros H.
  apply bind_raise in H as [H | [journey [_ H]]]; [raises H; exact H|].
  apply bind_raise in H as [H | [call [_ H]]]; [raises H; exact H|].
  apply bind_raise in H as [H | [destination [_ H]]];
    [apply list_or_scalar_raises in H; exact H|].
  apply bind_raise in H as [H | [t1 [_ H]]]; [raises H; exact H|].
  apply bind_raise in H as [H | [expected_time [_ H]]]; [raises H; exact H|].
  apply bind_raise in H as [H | [line_name [_ H]]];
    [apply list_or_scalar_raises in H; exact H|].
  apply bind_raise in H as [H | [line_ref [_ H]]]; [apply ref_value_raises in H; exact H|].
  apply bind_raise in H as [H | [dep_status [_ H]]]; [raises H; exact H|].
  apply bind_raise in H as [H | [vehicle_at_stop [_ H]]]; [raises H; exact H|].
  apply bind_raise in H as [H | [direction_ref [_ H]]];
    [apply ref_value_raises in H; exact H|].
  apply bind_raise in H as [H | [eta_seconds [_ H]]]; [|discriminate H].
  destruct (Py.truthy expected_time); [|discriminate H].
  destruct expected_time; try (inversion H; reflexivity).
  destruct (timestamp_of_iso _); discriminate H.
Qed.

Lemma map_res_raises {A B} (f : A → res B) (l : list A) (e : exn) :
  map_res f l = Raise e → ∃ x, x ∈ l ∧ f x = Raise e.
Proof.
  induction l as [|x l IH]; simpl; [discriminate|]. intros H.
  apply bind_raise in H as [H | [y [_ H]]].
  - exists x. split; [apply elem_of_cons; auto | exact H].
  - apply bind_raise in H as [H | [rest [_ H]]]; [|discriminate H].
    destruct (IH H) as [x' [Hin Hx']]. exists x'. split; [apply elem_of_cons; auto | exact Hx'].
Qed.

Lemma monitored_visits_raises (data : value) (e : exn) :
  monitored_visits data = Raise e → uncaught e.
Proof.
  unfold monitored_visits.
  destruct (_ ≫= _) as [visits|e'] eqn:Hpath; [discriminate|].
  assert (He' : e' = KeyError ∨ e' = IndexError ∨ uncaught e').
  { unfold uncaught.
    apply bind_raise in Hpath as [H | [siri [_ Hpath]]];
      [destruct data; cbn in H; try destruct (Py.dict_lookup _ _); inversion H; auto|].
    apply bind_raise in Hpath as [H | [sd [_ Hpath]]];
      [destruct siri; cbn in H; try destruct (Py.dict_lookup _ _); inversion H; auto|].
    apply bind_raise in Hpath as [H | [smd [_ Hpath]]];
      [destruct sd; cbn in H; try destruct (Py.dict_lookup _ _); inversion H; auto|].
    apply bind_raise in Hpath as [H | [delivery [_ Hpath]]].
    - destruct smd as [| | | |s0|l0|]; cbn in H; try (inversion H; auto; fail).
      + destruct s0; inversion H; auto.
      + destruct l0; inversion H; auto.
    - apply get_raises in Hpath. auto. }
  destruct e'; intros H; inversion H; subst;
    destruct He' as [He' | [He' | He']]; try discriminate He'; exact He'.
Qed.

(** Past the request, nothing but [AttributeError] and [TypeError] is
    raised: the clause for [KeyError] and [ValueError] never runs. *)
Lemma parse_departures_raises (data : value) (fetch_ts : Z) (e : exn) :
  _parse_departures data fetch_ts = Raise e → uncaught e.
Proof.
  unfold _parse_departures. intros H.
  apply bind_raise in H as [H | [visits [_ H]]]; [apply monitored_visits_raises in H; exact H|].
  destruct visits as [visits|]; [|discriminate H].
  apply bind_raise in H as [H | [vs [_ H]]].
  - destruct visits; inversion H; right; reflexivity.
  - apply map_res_raises in H as [x [_ H]]. apply parse_visit_raises in H. left. exact H.
Qed.

End Parsing.

(** ** DepartureWorker: what a run does to the world *)

Section Aggregator.
Context {lib : Library} {nw : Network}.

Lemma for_each_cons {A} (body : A → M unit) (x : A) (l : list A) (w : world) :
  for_each body (x :: l) w =
    match body x w with
    | (Ok _, w') => for_each body l w'
    | (Raise e, w') => (Raise e, w')
    end.
Proof. reflexivity. Qed.

Lemma distribute_eq (all : list Departure.t) (fav : Favourite.t) (w : world) :
  distribute all fav w =
    match select fav all with
    | Ok r => (Ok (), World (calls w) (events w) (<[fav_key fav := r]> (results w)))
    | Raise e => (Raise e, w)
    end.
Proof.
  unfold distribute, mbind, M_bind, lift. destruct (select fav all); reflexivity.
Qed.

(** The filter raises nothing but [AttributeError]. *)
Lemma select_raises (fav : Favourite.t) (all : list Departure.t) (e : exn) :
  select fav all = Raise e → e = AttributeError.
Proof.
  unfold select. destruct (matched fav all) as [m|e'] eqn:Hm; [discriminate|].
  cbn. intros H. inversion H; subst. unfold matched in Hm.
  induction all as [|d all IHd]; simpl in Hm; [discriminate|].
  destruct (matches fav _ d) as [b|e0] eqn:Hd.
  - cbn in Hm. destruct (filter_res _ all) as [rest|e1]; [discriminate|].
    cbn in Hm. inversion Hm; subst. apply IHd. reflexivity.
  - cbn in Hm. inversion Hm; subst. unfold matches in Hd.
    destruct (0 <=? Departure.eta_seconds d); [|discriminate].
    destruct (Departure.destination d); inversion Hd; reflexivity.
Qed.

Lemma for_each_distribute (all : list Departure.t) (favs : list Favourite.t) (w : world) :
  (Forall (λ fav, ∃ r, select fav all = Ok r) favs ∧
   for_each (distribute all) favs w =
     (Ok (), World (calls w) (events w)
               (foldl write (results w) (map (λ fav, (fav, all)) favs)))) ∨
  (∃ m, for_each (distribute all) favs w =
          (Raise AttributeError, World (calls w) (events w) m)).
Proof.
  revert w. induction favs as [|fav favs IH]; intros w.
  - left. split; [constructor|]. destruct w; reflexivity.
  - rewrite for_each_cons, distribute_eq.
    destruct (select fav all) as [r|e] eqn:Hsel.
    + destruct (IH (World (calls w) (events w) (<[fav_key fav := r]> (results w))))
        as [[Hall Hrun] | [m Hrun]]; rewrite Hrun; simpl.
      * left. split; [constructor; eauto|].
        assert (Hw : write (results w) (fav, all) = <[fav_key fav := r]> (results w))
          by (unfold write; simpl; rewrite Hsel; reflexivity).
        rewrite Hw. reflexivity.
      * right. exists m. reflexivity.
    + right. exists (results w). rewrite (select_raises _ _ _ Hsel).
      destruct w; reflexivity.
Qed.

Lemma length_snoc {A} (l : list A) (x : A) : length (l ++ [x]) = S (length l).
Proof. rewrite length_app. simpl. lia. Qed.

Lemma fetch_group_eq (key : string * string) (favs : list Favourite.t) (w : world) :
  fetch_group (key, favs) w =
    let w1 := World (calls w ++ [group_request key]) (events w) (results w) in
    match net (length (calls w)) (group_request key) with
    | NetFail =>
        (Ok (), World (calls w1) (events w ++ [ErrorSig "Erreur réseau: " RequestException])
                  (results w))
    | NetJson data =>
        match _parse_departures data (clock (S (length (calls w)))) with
        | Ok all =>
            match for_each (distribute all) favs w1 with
            | (Ok a, w2) => (Ok a, w2)
            | (Raise e, w2) =>
                match handlers e with
                | Some h => h w2
                | None => (Raise e, w2)
                end
            end
        | Raise e =>
            match handlers e with
            | Some h => h w1
            | None => (Raise e, w1)
            end
        end
    end.
Proof.
  destruct key as [stop_area_id line_id].
  unfold fetch_group, try_except, group_request, mbind, M_bind, requests_get, time_time, lift.
  cbn [fst snd].
  destruct (net (length (calls w)) (siri_request stop_area_id line_id)) as [|data];
    [reflexivity|].
  cbn [calls events results]. rewrite length_snoc.
  destruct (_parse_departures data (clock (S (length (calls w))))) as [all|e]; reflexivity.
Qed.

(** One group: the request fails and is reported; or its departures are
    parsed and every favourite of the group gets its list; or an exception
    that no clause names ends the loop.  The request is issued in all
    three. *)
Lemma fetch_group_cases (key : string * string) (favs : list Favourite.t) (w : world) :
  let i := length (calls w) in
  let calls' := calls w ++ [group_request key] in
  (group_departures i key = None ∧
   fetch_group (key, favs) w =
     (Ok (), World calls' (events w ++ [ErrorSig "Erreur réseau: " RequestException])
               (results w))) ∨
  (∃ all, group_departures i key = Some all ∧
     Forall (λ fav, ∃ r, select fav all = Ok r) favs ∧
     fetch_group (key, favs) w =
       (Ok (), World calls' (events w)
                 (foldl write (results w) (map (λ fav, (fav, all)) favs)))) ∨
  (∃ e m, uncaught e ∧
     fetch_group (key, favs) w = (Raise e, World calls' (events w) m)).
Proof.
  intros i calls'. rewrite fetch_group_eq. unfold group_departures. fold i. cbv zeta.
  destruct (net i (group_request key)) as [|data] eqn:Hnet.
  - left. split; reflexivity.
  - right. destruct (_parse_departures data (clock (S i))) as [all|e] eqn:Hparse.
    + destruct (for_each_distribute all favs
                  (World (calls w ++ [group_request key]) (events w) (results w)))
        as [[Hall Hrun] | [m Hrun]]; rewrite Hrun; cbn [calls events results handlers].
      * left. exists all. split; [reflexivity|]. split; [exact Hall | reflexivity].
      * right. exists AttributeError, m. split; [left; reflexivity | reflexivity].
    + right. exists e, (results w). split; [apply (parse_departures_raises _ _ _ Hparse)|].
      destruct (parse_departures_raises _ _ _ Hparse) as [-> | ->]; reflexivity.
Qed.

(** The loop over the groups: it runs through, having issued the request
    of every group, emitted nothing but errors and stored the lists of the
    [writers]; or it is cut short by an exception that no clause names,
    having issued the requests of the groups up to that one. *)
Lemma for_each_fetch_group (groups : list ((string * string) * list Favourite.t))
    (w : world) :
  (∃ errs, Forall (λ ev, is_error ev = true) errs ∧
     Forall (λ wr, ∃ r, select (fst wr) (snd wr) = Ok r)
            (writers_from (length (calls w)) groups) ∧
     for_each fetch_group groups w =
       (Ok (), World (calls w ++ map (λ g, group_request (fst g)) groups)
                 (events w ++ errs)
                 (foldl write (results w) (writers_from (length (calls w)) groups)))) ∨
  (∃ e j errs m, uncaught e ∧ (j < length groups)%nat ∧
     Forall (λ ev, is_error ev = true) errs ∧
     for_each fetch_group groups w =
       (Raise e, World (calls w ++ map (λ g, group_request (fst g)) (take (S j) groups))
                   (events w ++ errs) m)).
Proof.
  revert w. induction groups as [|[key favs] groups IH]; intros w.
  - left. exists []. split; [constructor|]. split; [constructor|].
    simpl. rewrite !app_nil_r. destruct w; reflexivity.
  - rewrite for_each_cons.
    destruct (fetch_group_cases key favs w) as [[Hdep Hrun] | [[all [Hdep [Hall Hrun]]] | [e [m [He Hrun]]]]];
      rewrite Hrun; clear Hrun.
    + match goal with |- context [for_each fetch_group groups ?w1] => specialize (IH w1) end.
      cbn [calls events results] in IH. rewrite length_snoc in IH.
      cbn [writers_from map fst]. rewrite Hdep. cbn [app].
      destruct IH as [[errs [Herrs [Hsel Hrun]]] | [e [j [errs [m [He [Hj [Herrs Hrun]]]]]]]];
        rewrite Hrun.
      * left. exists (ErrorSig "Erreur réseau: " RequestException :: errs).
        split; [constructor; [reflexivity | exact Herrs]|]. split; [exact Hsel|].
        rewrite <- !app_assoc. reflexivity.
      * right. exists e, (S j), (ErrorSig "Erreur réseau: " RequestException :: errs), m.
        split; [exact He|]. split; [simpl; lia|].
        split; [constructor; [reflexivity | exact Herrs]|].
        rewrite <- !app_assoc. reflexivity.
    + match goal with |- context [for_each fetch_group groups ?w1] => specialize (IH w1) end.
      cbn [calls events results] in IH. rewrite length_snoc in IH.
      cbn [writers_from map fst]. rewrite Hdep.
      destruct IH as [[errs [Herrs [Hsel Hrun]]] | [e [j [errs [m [He [Hj [Herrs Hrun]]]]]]]];
        rewrite Hrun.
      * left. exists errs. split; [exact Herrs|]. split.
        -- apply Forall_app. split; [|exact Hsel].
           apply Forall_fmap. eapply Forall_impl; [exact Hall|]. intros fav H. exact H.
        -- rewrite foldl_app, <- !app_assoc. reflexivity.
      * right. exists e, (S j), errs, m.
        split; [exact He|]. split; [simpl; lia|]. split; [exact Herrs|].
        rewrite <- !app_assoc. reflexivity.
    + right. exists e, 0%nat, [], m. split; [exact He|]. split; [simpl; lia|].
      split; [constructor|]. rewrite app_nil_r. reflexivity.
Qed.

Lemma writers_groups (favs : list Favourite.t) :
  writers favs = writers_from 0 (group_favourites favs).
Proof. unfold writers. rewrite group_favourites_spec. reflexivity. Qed.

Lemma group_requests (favs : list Favourite.t) :
  map (λ g, group_request (fst g)) (group_favourites favs) =
    map group_request (first_occurrences (map group_key favs)).
Proof. rewrite group_favourites_spec, map_map. reflexivity. Qed.

Lemma DepartureWorker_run_eq (favs : list Favourite.t) :
  run_of (DepartureWorker_run favs) =
    match for_each fetch_group (group_favourites favs) world0 with
    | (Ok _, w) =>
        (Ok (), World (calls w) (events w ++ [DepartureFinished (results w)]) (results w))
    | (Raise e, w) => (Raise e, w)
    end.
Proof.
  unfold run_of, DepartureWorker_run, mbind, M_bind, get_results, emit.
  destruct (for_each fetch_group (group_favourites favs) world0) as [[[]|e] w]; reflexivity.
Qed.

(** A run of the worker: it returns, having issued one request for every
    group, and its last signal is the terminal one, with the lists of the
    [writers]; or an exception that no clause names ends it, and no terminal
    signal is emitted. *)
Lemma DepartureWorker_run_cases (favs : list Favourite.t) :
  let keys := first_occurrences (map group_key favs) in
  let res := foldl write ∅ (writers favs) in
  (∃ errs, Forall (λ ev, is_error ev = true) errs ∧
     Forall (λ wr, ∃ r, select (fst wr) (snd wr) = Ok r) (writers favs) ∧
     run_of (DepartureWorker_run favs) =
       (Ok (), World (map group_request keys) (errs ++ [DepartureFinished res]) res)) ∨
  (∃ e j errs m, uncaught e ∧ (j < length keys)%nat ∧
     Forall (λ ev, is_error ev = true) errs ∧
     run_of (DepartureWorker_run favs) =
       (Raise e, World (map group_request (take (S j) keys)) errs m)).
Proof.
  intros keys res. rewrite DepartureWorker_run_eq.
  destruct (for_each_fetch_group (group_favourites favs) world0)
    as [[errs [Herrs [Hsel Hrun]]] | [e [j [errs [m [He [Hj [Herrs Hrun]]]]]]]];
    rewrite Hrun; cbn [calls events results world0 length app] in *.
  - left. exists errs. rewrite <- writers_groups in *. rewrite group_requests.
    split; [exact Herrs|]. split; [exact Hsel|]. reflexivity.
  - right. exists e, j, errs, m. split; [exact He|].
    rewrite group_favourites_spec, length_map in Hj. split; [exact Hj|].
    split; [exact Herrs|].
    rewrite group_favourites_spec, firstn_map, map_map. reflexivity.
Qed.

Lemma app_colon_inj (s s' : string) : s +:+ ":" = s' +:+ ":" → s = s'.
Proof.
  revert s'. induction s as [|c s IH]; intros [|c' s']; rewrite ?str_app_cons, ?str_app_nil_l.
  - reflexivity.
  - intros H. injection H as _ H. destruct s'; discriminate H.
  - intros H. injection H as _ H. destruct s; discriminate H.
  - intros H. injection H as -> H. f_equal. apply IH, H.
Qed.

Lemma group_request_inj (k k' : string * string) :
  group_request k = group_request k' → k = k'.
Proof.
  destruct k as [a b], k' as [a' b']. unfold group_request, siri_request. cbn [fst snd].
  intros H. injection H as Ha Hb.
  apply (inj (String.app _)) in Ha, Hb.
  apply app_colon_inj in Ha, Hb. congruence.
Qed.

(** X25.  Whatever the network does, no request is issued twice
    and every request issued is the one of the pair of some favourite.
    When the run returns, the requests issued are exactly those of the
    distinct pairs of the favourites, one each, in the order the pairs first
    occur: how many favourites share a pair, and with which directions or
    destinations, makes no difference. *)
Theorem one_request_per_pair (favs : list Favourite.t) :
  let run := run_of (DepartureWorker_run favs) in
  NoDup (calls (snd run)) ∧
  (∀ r, r ∈ calls (snd run) → ∃ fav, fav ∈ favs ∧ r = group_request (group_key fav)) ∧
  (fst run = Ok () →
     calls (snd run) = map group_request (first_occurrences (map group_key favs))).
Proof.
  intros run. subst run.
  assert (Hnd : ∀ ks : list (string * string), NoDup ks → NoDup (map group_request ks)).
  { intros ks H. apply (NoDup_fmap_2_strong group_request); [|exact H].
    intros x y _ _. apply group_request_inj. }
  assert (Hin : ∀ ks r, ks ⊆ first_occurrences (map group_key favs) →
                  r ∈ map group_request ks →
                  ∃ fav, fav ∈ favs ∧ r = group_request (group_key fav)).
  { intros ks r Hks Hr. apply list_elem_of_fmap in Hr as [k [-> Hk]].
    apply Hks, first_occurrences_elem, list_elem_of_fmap in Hk as [fav [-> Hfav]].
    exists fav. split; [exact Hfav | reflexivity]. }
  destruct (DepartureWorker_run_cases favs)
    as [[errs [_ [_ Hrun]]] | [e [j [errs [m [_ [_ [_ Hrun]]]]]]]];
    rewrite Hrun; cbn [fst snd calls].
  - split; [apply Hnd, first_occurrences_NoDup|].
    split; [intros r; apply Hin; reflexivity | reflexivity].
  - split.
    + apply Hnd. eapply sublist_NoDup; [apply first_occurrences_NoDup | apply sublist_take].
    + split; [intros r; apply Hin, subseteq_take | discriminate].
Qed.

Lemma last_writer_snoc (key : string) (ws : list (Favourite.t * list Departure.t))
    (wr : Favourite.t * list Departure.t) :
  last_writer key (ws ++ [wr]) =
    if bool_decide (fav_key (fst wr) = key) then Some wr else last_writer key ws.
Proof.
  unfold last_writer. rewrite List.filter_app. simpl.
  destruct (bool_decide (fav_key (fst wr) = key)); [apply last_snoc|].
  rewrite app_nil_r. reflexivity.
Qed.

(** Later assignments to a key replace earlier ones: under a key,
    [results] holds the list of the last favourite stored under it. *)
Lemma foldl_write_lookup (ws : list (Favourite.t * list Departure.t))
    (m : gmap string (list Departure.t)) (key : string) :
  Forall (λ wr, ∃ r, select (fst wr) (snd wr) = Ok r) ws →
  match last_writer key ws with
  | None => foldl write m ws !! key = m !! key
  | Some wr => ∃ r, select (fst wr) (snd wr) = Ok r ∧ foldl write m ws !! key = Some r
  end.
Proof.
  induction ws as [|wr ws IH] using rev_ind; intros Hall; [reflexivity|].
  apply Forall_app in Hall as [Hall Hwr]. apply Forall_singleton in Hwr as [r Hr].
  rewrite last_writer_snoc, foldl_snoc.
  assert (Hw : write (foldl write m ws) wr = <[fav_key (fst wr) := r]> (foldl write m ws))
    by (unfold write; rewrite Hr; reflexivity).
  rewrite Hw. clear Hw.
  destruct (decide (fav_key (fst wr) = key)) as [<- | Hne].
  - rewrite bool_decide_eq_true_2 by reflexivity.
    exists r. split; [exact Hr | apply lookup_insert_eq].
  - rewrite bool_decide_eq_false_2 by exact Hne.
    specialize (IH Hall). destruct (last_writer key ws) as [wr'|].
    + destruct IH as [r' [Hr' Hl]]. exists r'. split; [exact Hr'|].
      rewrite lookup_insert_ne by exact Hne. exact Hl.
    + rewrite lookup_insert_ne by exact Hne. exact IH.
Qed.

Lemma writers_from_elem (n i : nat) (groups : list ((string * string) * list Favourite.t))
    (key : string * string) (favs : list Favourite.t) (all : list Departure.t)
    (fav : Favourite.t) :
  groups !! i = Some (key, favs) →
  group_departures (n + i) key = Some all →
  fav ∈ favs →
  (fav, all) ∈ writers_from n groups.
Proof.
  revert n i. induction groups as [|[k fs] groups IH]; intros n i Hi Hdep Hfav;
    [discriminate Hi|].
  cbn [writers_from]. apply elem_of_app. destruct i as [|i].
  - injection Hi as -> ->. rewrite Nat.add_0_r in Hdep. rewrite Hdep.
    left. apply list_elem_of_fmap. exists fav. split; [reflexivity | exact Hfav].
  - right. apply (IH (S n) i Hi); [|exact Hfav].
    rewrite Nat.add_succ_comm. exact Hdep.
Qed.

Lemma members_elem (key : string * string) (favs : list Favourite.t) (fav : Favourite.t) :
  fav ∈ members key favs ↔ fav ∈ favs ∧ group_key fav = key.
Proof.
  unfold members. rewrite filter_In_elem.
  split; intros [H1 H2]; (split; [exact H1|]).
  - apply bool_decide_eq_true in H2. exact H2.
  - apply bool_decide_eq_true. exact H2.
Qed.

Lemma last_writer_is_Some (key : string) (ws : list (Favourite.t * list Departure.t))
    (wr : Favourite.t * list Departure.t) :
  wr ∈ ws → fav_key (fst wr) = key → is_Some (last_writer key ws).
Proof.
  intros Hin Hkey. unfold last_writer. apply last_is_Some.
  intros Hnil.
  assert (H : wr ∈ List.filter (λ w, bool_decide (fav_key (fst w) = key)) ws)
    by (apply filter_In_elem; split; [exact Hin | apply bool_decide_eq_true, Hkey]).
  rewrite Hnil in H. inversion H.
Qed.

(** C10. Two favourites with the same stop area, line and direction have
    the same key.  When the run returns, its terminal signal carries the
    mapping [results], and under that key the mapping holds one list: none
    if no favourite was stored under the key, and otherwise the filtered
    list of the favourite stored under it last, which replaced those
    stored before.  When the request of their group succeeds and its
    payload parses, both favourites are stored, so the list of one of them
    has been replaced. *)
Theorem shared_key_last_writer (favs : list Favourite.t) (f1 f2 : Favourite.t) :
  f1 ∈ favs → f2 ∈ favs →
  group_key f1 = group_key f2 →
  Favourite.direction f1 = Favourite.direction f2 →
  let run := run_of (DepartureWorker_run favs) in
  fst run = Ok () →
  fav_key f1 = fav_key f2 ∧
  (∃ errs, Forall (λ ev, is_error ev = true) errs ∧
     events (snd run) = errs ++ [DepartureFinished (results (snd run))]) ∧
  match last_writer (fav_key f1) (writers favs) with
  | None => results (snd run) !! fav_key f1 = None
  | Some (g, all_departures) =>
      ∃ r, select g all_departures = Ok r ∧ results (snd run) !! fav_key f1 = Some r
  end ∧
  (∀ i all_departures,
     first_occurrences (map group_key favs) !! i = Some (group_key f1) →
     group_departures i (group_key f1) = Some all_departures →
     (f1, all_departures) ∈ writers favs ∧ (f2, all_departures) ∈ writers favs ∧
     is_Some (last_writer (fav_key f1) (writers favs))).
Proof.
  intros Hf1 Hf2 Hkey Hdir run. subst run.
  destruct (DepartureWorker_run_cases favs)
    as [[errs [Herrs [Hsel Hrun]]] | [e [j [errs [m [_ [_ [_ Hrun]]]]]]]];
    rewrite Hrun; cbn [fst snd calls events results]; [|discriminate].
  intros _. split; [|split; [|split]].
  - unfold fav_key. unfold group_key in Hkey. injection Hkey as -> ->.
    rewrite Hdir. reflexivity.
  - exists errs. split; [exact Herrs | reflexivity].
  - pose proof (foldl_write_lookup (writers favs) ∅ (fav_key f1) Hsel) as H.
    destruct (last_writer (fav_key f1) (writers favs)) as [[g all]|]; exact H.
  - intros i all Hi Hdep.
    assert (Hw : ∀ f, f ∈ favs → group_key f = group_key f1 → (f, all) ∈ writers favs).
    { intros f Hf Hk. unfold writers.
      apply (writers_from_elem 0 i _ (group_key f1) (members (group_key f1) favs)).
      - rewrite list_lookup_fmap, Hi. reflexivity.
      - exact Hdep.
      - apply members_elem. split; [exact Hf | exact Hk]. }
    split; [apply Hw; [exact Hf1 | reflexivity]|].
    split; [apply Hw; [exact Hf2 | symmetry; exact Hkey]|].
    apply (last_writer_is_Some _ _ (f1, all)); [|reflexivity].
    apply Hw; [exact Hf1 | reflexivity].
Qed.

(** The terminal signal of [DepartureWorker]: one if the run returns, none
    if an exception ends it. *)
Lemma DepartureWorker_terminal_signal (favs : list Favourite.t) :
  let run := run_of (DepartureWorker_run favs) in
  match fst run with
  | Ok _ => finished_count (snd run) = 1%nat
  | Raise e => uncaught e ∧ finished_count (snd run) = 0%nat
  end.
Proof.
  intros run. subst run.
  assert (Hcount : ∀ errs, Forall (λ ev, is_error ev = true) errs →
                     List.filter is_finished errs = []).
  { induction 1 as [|ev errs Hev _ IH]; [reflexivity|].
    simpl. destruct ev; try discriminate Hev. exact IH. }
  destruct (DepartureWorker_run_cases favs)
    as [[errs [Herrs [_ Hrun]]] | [e [j [errs [m [He [_ [Herrs Hrun]]]]]]]];
    rewrite Hrun; unfold finished_count; cbn [fst snd events].
  - rewrite List.filter_app, (Hcount _ Herrs). reflexivity.
  - split; [exact He|]. rewrite (Hcount _ Herrs). reflexivity.
Qed.

End Aggregator.

(** ** The terminal signal of the two search workers *)

Section Search.
Context {lib : Library} {nw : Network}.

Ltac raised e := destruct e; first [reflexivity | split; [discriminate | reflexivity]].

(** One terminal signal if the run returns, none if an exception other
    than [RequestException] ends it. *)
Lemma LineSearchWorker_terminal_signal (query mode : string) (search_id : Z) :
  let run := run_of (LineSearchWorker_run query mode search_id) in
  match fst run with
  | Ok _ => finished_count (snd run) = 1%nat
  | Raise e => e ≠ RequestException ∧ finished_count (snd run) = 0%nat
  end.
Proof.
  unfold run_of, LineSearchWorker_run, try_except, mbind, M_bind, requests_get, lift, emit,
    on_request_exception, finished_count.
  cbn [calls events results world0 length app].
  destruct (net 0%nat _) as [|data]; [reflexivity|].
  destruct (res_bind _ _ _ _) as [records|e]; [|raised e].
  destruct (map_res _ _) as [results|e]; [|raised e].
  destruct (sort_with_key _ _ _) as [sorted|e]; [reflexivity | raised e].
Qed.

Lemma StopsOnLineWorker_terminal_signal (route_id : string) :
  let run := run_of (StopsOnLineWorker_run route_id) in
  match fst run with
  | Ok _ => finished_count (snd run) = 1%nat
  | Raise e => e ≠ RequestException ∧ finished_count (snd run) = 0%nat
  end.
Proof.
  unfold run_of, StopsOnLineWorker_run, try_except, mbind, M_bind, requests_get, lift, emit,
    on_request_exception, finished_count.
  cbn [calls events results world0 length app].
  destruct (net 0%nat _) as [|data]; [reflexivity|].
  destruct (res_bind _ _ _ _) as [records|e]; [|raised e].
  destruct (stops_of_records _ _) as [results|e]; [|raised e].
  destruct (sort_with_key _ _ _) as [sorted|e]; [reflexivity | raised e].
Qed.

End Search.

(** ** Runs on a feed of the expected shape *)

Section Feed.
Context {lib : Library} {nw : Network}.

Lemma parse_make_visit (fetch_ts : Z) (d : string * string * string) :
  ∃ dep, parse_visit fetch_ts (Sample.make_visit d) = Ok dep ∧
         Departure.destination dep = VStr (fst (fst d)).
Proof.
  destruct d as [[destination expected_time] direction_ref].
  unfold parse_visit, Sample.make_visit. cbn.
  destruct (String.eqb expected_time "") eqn:He; cbn.
  - eexists. split; reflexivity.
  - rewrite He. cbn. destruct (timestamp_of_iso _); eexists; split; reflexivity.
Qed.

Lemma parse_make_siri_response (fetch_ts : Z) (l : list (string * string * string)) :
  ∃ all, _parse_departures (Sample.make_siri_response l) fetch_ts = Ok all ∧
         Forall (λ dep, ∃ s, Departure.destination dep = VStr s) all.
Proof.
  unfold _parse_departures, Sample.make_siri_response. cbn.
  induction l as [|d l [all [Hall Hstr]]]; cbn.
  - exists []. split; [reflexivity | constructor].
  - destruct (parse_make_visit fetch_ts d) as [dep [Hdep Hd]].
    rewrite Hdep. cbn. rewrite Hall. cbn.
    exists (dep :: all). split; [reflexivity|]. constructor; eauto.
Qed.

(** The filter returns on departures whose destinations are strings. *)
Lemma select_total (fav : Favourite.t) (all : list Departure.t) :
  Forall (λ dep, ∃ s, Departure.destination dep = VStr s) all →
  ∃ r, select fav all = Ok r.
Proof.
  intros Hall. unfold select, matched.
  destruct (filter_res_total (matches fav (normalize (Favourite.stop_name fav))) all)
    as [m Hm].
  - eapply Forall_impl; [exact Hall|]. intros dep [s Hs]. unfold matches.
    destruct (0 <=? Departure.eta_seconds dep); [|eauto]. rewrite Hs. eauto.
  - rewrite Hm. cbn. eauto.
Qed.

Lemma for_each_distribute_returns (all : list Departure.t) (favs : list Favourite.t)
    (w : world) :
  Forall (λ dep, ∃ s, Departure.destination dep = VStr s) all →
  fst (for_each (distribute all) favs w) = Ok ().
Proof.
  intros Hstr. revert w. induction favs as [|fav favs IH]; intros w; [reflexivity|].
  rewrite for_each_cons, distribute_eq.
  destruct (select_total fav all Hstr) as [r ->]. apply IH.
Qed.

(** X6. When every request fails or is answered with a payload of the
    shape the tests build, the run returns and emits exactly one terminal
    signal. *)
Lemma DepartureWorker_returns_on_feed (favs : list Favourite.t) :
  (∀ n req, net n req = NetFail ∨ ∃ l, net n req = NetJson (Sample.make_siri_response l)) →
  let run := run_of (DepartureWorker_run favs) in
  fst run = Ok () ∧ finished_count (snd run) = 1%nat.
Proof.
  intros Hnet run. subst run.
  assert (Hloop : ∀ groups w, fst (for_each fetch_group groups w) = Ok ()).
  { induction groups as [|[key gfavs] groups IH]; intros w; [reflexivity|].
    rewrite for_each_cons, fetch_group_eq. cbv zeta.
    destruct (Hnet (length (calls w)) (group_request key)) as [-> | [l ->]]; [apply IH|].
    destruct (parse_make_siri_response (clock (S (length (calls w)))) l) as [all [-> Hstr]].
    match goal with |- context [for_each (distribute all) gfavs ?w1] =>
      pose proof (for_each_distribute_returns all gfavs w1 Hstr) as Hret;
      destruct (for_each (distribute all) gfavs w1) as [[[]|e] w2] end;
      [apply IH | discriminate Hret]. }
  pose proof (DepartureWorker_terminal_signal favs) as Hsig. cbv zeta in Hsig.
  rewrite DepartureWorker_run_eq in *.
  specialize (Hloop (group_favourites favs) world0).
  destruct (for_each fetch_group (group_favourites favs) world0) as [[[]|e] w];
    [|discriminate Hloop].
  split; [reflexivity | exact Hsig].
Qed.

End Feed.

(** ** C1 and C2: a run cut short *)

(** C1.  The code does not issue one request for every distinct pair on
    every input: with two favourites at different stops and a first payload
    whose ["Siri"] is [null], [_parse_departures] raises [TypeError], which
    no [except] clause of the loop names; the run ends on the first group,
    and the pair of the second favourite gets no request.  (A request that
    fails, or any exception a clause names, is reported and the loop goes
    on to the next group.) *)
Lemma second_pair_without_request :
  let favs := [Sample.fav_halevy_1; Sample.fav_other_stop] in
  let run :=
    run_of (DepartureWorker_run (lib := Sample.library)
              (nw := Sample.scripted [NetJson Sample.null_siri; NetJson Sample.halevy_response])
              favs) in
  Sample.fav_other_stop ∈ favs ∧
  group_key Sample.fav_other_stop ≠ group_key Sample.fav_halevy_1 ∧
  fst run = Raise TypeError ∧
  calls (snd run) = [group_request (group_key Sample.fav_halevy_1)] ∧
  group_request (group_key Sample.fav_other_stop) ∉ calls (snd run).
Proof.
  split; [apply elem_of_cons; right; apply elem_of_cons; left; reflexivity|].
  split; [discriminate|].
  split; [vm_compute; reflexivity|].
  split; [vm_compute; reflexivity|].
  intros H. apply elem_of_cons in H as [H | H]; [discriminate H | inversion H].
Qed.


(** C2 fails on the code.  A payload whose ["Siri"] is [null] makes
    [_parse_departures] raise [TypeError], which neither [except] clause of
    [DepartureWorker.run] names: the run ends with the request issued and
    no signal at all.  A visit whose direction reference is a plain string
    does the same with [AttributeError].  [LineSearchWorker.run], given a
    payload that is an array, ends likewise. *)
Theorem run_without_terminal_signal :
  let departures :=
    run_of (DepartureWorker_run (lib := Sample.library)
              (nw := Sample.scripted [NetJson Sample.null_siri]) [Sample.fav_halevy_1]) in
  let departures' :=
    run_of (DepartureWorker_run (lib := Sample.library)
              (nw := Sample.scripted [NetJson Sample.scalar_direction_response])
              [Sample.fav_halevy_1]) in
  let search :=
    run_of (LineSearchWorker_run (lib := Sample.library)
              (nw := Sample.scripted [NetJson (VList [])]) "259" "" 0) in
  (fst departures = Raise TypeError ∧ events (snd departures) = [] ∧
   length (calls (snd departures)) = 1%nat) ∧
  (fst departures' = Raise AttributeError ∧ events (snd departures') = []) ∧
  (fst search = Raise AttributeError ∧ events (snd search) = []).
Proof. vm_compute. repeat split. Qed.

(** ** The theorems at concrete inputs *)

(** X25, on the two favourites of [test_run_groups_by_stop_and_line] and a
    third one at another stop: two requests. *)
Lemma one_request_per_pair_witness :
  let run :=
    run_of (DepartureWorker_run (lib := Sample.library)
              (nw := Sample.scripted [NetJson Sample.halevy_response; NetFail])
              [Sample.fav_halevy_1; Sample.fav_other_stop; Sample.fav_halevy_2]) in
  fst run = Ok () ∧
  calls (snd run) = [group_request ("50980", "C02000"); group_request ("71517", "C01740")].
Proof.
  split; [vm_compute; reflexivity|].
  apply (one_request_per_pair (lib := Sample.library)
           (nw := Sample.scripted [NetJson Sample.halevy_response; NetFail])
           [Sample.fav_halevy_1; Sample.fav_other_stop; Sample.fav_halevy_2]).
  vm_compute. reflexivity.
Defined.

(** C3, on the departures of [test_run_filters_by_direction] and of
    [test_run_empty_direction_shows_all]. *)
Lemma direction_criterion_witness :
  let fav := Sample.favourite "50980" "Test" "C02000" "1" "" in
  let d1 := Sample.departure "Saint-Germain" "2025-01-01T12:05:00+01:00" "1" 300 in
  let d2 := Sample.departure "Nanterre" "2025-01-01T12:10:00+01:00" "2" 600 in
  Departure.direction_ref d1 = VStr (Favourite.direction fav) ∧
  (d2 ∈ [d1; d2] ↔
     0 ≤ Departure.eta_seconds d2 ∧
     ∃ dest, Departure.destination d2 = VStr dest ∧
       Str.contains
         (Str.ascii_lower (Favourite.destination_name Sample.fav_any_direction))
         (Str.ascii_lower dest) = true ∧
       is_same_place
         (normalize (lib := Sample.library) (Favourite.stop_name Sample.fav_any_direction))
         (normalize (lib := Sample.library) dest) = false).
Proof.
  intros fav d1 d2. split.
  - apply (direction_criterion (lib := Sample.library) fav Sample.two_directions [d1] d1).
    + vm_compute. reflexivity.
    + apply elem_of_cons. left. reflexivity.
    + discriminate.
    + apply elem_of_cons. left. reflexivity.
  - apply (direction_criterion (lib := Sample.library) Sample.fav_any_direction
             Sample.two_directions [d1; d2] d2).
    + vm_compute. reflexivity.
    + apply elem_of_cons. right. apply elem_of_cons. left. reflexivity.
    + reflexivity.
Defined.

(** C4, on the departures of [test_run_filters_terminus_arrivals]. *)
Lemma terminus_excluded_witness :
  Sample.departure "Saint-Germain-En-Laye <RER>" "2025-01-01T12:15:00+01:00" "1" 900
  ∉ [Sample.departure "Marne-la-Vallee Chessy" "2025-01-01T12:10:00+01:00" "1" 600].
Proof.
  apply (terminus_excluded (lib := Sample.library) Sample.fav_terminus
           Sample.terminus_departures _ _ "Saint-Germain-En-Laye <RER>").
  - vm_compute. reflexivity.
  - reflexivity.
  - vm_compute. reflexivity.
Defined.

(** The selection from eight eligible departures. *)
Lemma select_earliest_five_witness :
  ∃ r, select (lib := Sample.library) Sample.fav_halevy_1 Sample.eight_departures = Ok r ∧
    StronglySorted
      (λ d1 d2, String.leb (Departure.expected_iso d1) (Departure.expected_iso d2) = true) r ∧
    length r = Nat.min (length Sample.eight_departures) 5 ∧
    (length Sample.eight_departures = 8%nat → length r = 5%nat) ∧
    ∃ rest, r ++ rest ≡ₚ Sample.eight_departures ∧
      ∀ x y, x ∈ r → y ∈ rest →
        String.leb (Departure.expected_iso x) (Departure.expected_iso y) = true.
Proof.
  apply (select_earliest_five (lib := Sample.library) Sample.fav_halevy_1
           Sample.eight_departures Sample.eight_departures).
  vm_compute. reflexivity.
Defined.

(** The five kept are those of 12:01 to 12:05, in that order. *)
Example select_eight :
  (λ r, match r with Ok l => Ok (map Departure.expected_iso l) | Raise e => Raise e end)
    (select (lib := Sample.library) Sample.fav_halevy_1 Sample.eight_departures)
  = Ok ["2025-01-01T12:01:00+01:00"; "2025-01-01T12:02:00+01:00";
        "2025-01-01T12:03:00+01:00"; "2025-01-01T12:04:00+01:00";
        "2025-01-01T12:05:00+01:00"].
Proof. vm_compute. reflexivity. Qed.

(** C6, on the identifiers of [test_resolves_train_directly] and
    [test_no_arrets_result]. *)
Lemma resolve_by_shape_witness :
  let lookup :=
    Request "https://data.iledefrance-mobilites.fr/api/explore/v2.1/catalog/datasets/arrets/records"
      [("where", VStr ("arrid=" +:+ String "034" ("999999" +:+ String "034" "")));
       ("limit", VInt 1);
       ("select", VStr "arrname,zdaid")] in
  _resolve (lib := Sample.library) (nw := Sample.scripted [])
    "IDFM:monomodalStopPlace:470195" world0
    = (Ok ("470195", VStr ""), world0) ∧
  (calls (snd (_resolve (lib := Sample.library) (nw := Sample.scripted [NetJson Sample.no_record])
                 "IDFM:999999" world0))
     = [lookup] ∧
   fst (_resolve (lib := Sample.library) (nw := Sample.scripted [NetJson Sample.no_record])
          "IDFM:999999" world0)
     = Ok ("", VStr "")) ∧
  Str.last_segment ":" "IDFM:monomodalStopPlace:470195" = "470195".
Proof.
  intros lookup. split; [|split].
  - apply (resolve_by_shape (lib := Sample.library) (nw := Sample.scripted [])
             "IDFM:monomodalStopPlace:470195" world0).
    vm_compute. reflexivity.
  - destruct (proj1 (proj2 (resolve_by_shape (lib := Sample.library)
                              (nw := Sample.scripted [NetJson Sample.no_record])
                              "IDFM:999999" world0)) eq_refl) as [Hcalls Hnone].
    split; [exact Hcalls|].
    apply (Hnone Sample.no_record (VList [])); reflexivity.
  - apply (proj2 (proj2 (resolve_by_shape (lib := Sample.library) (nw := Sample.scripted [])
                           "IDFM:monomodalStopPlace:470195" world0))
             "IDFM:monomodalStopPlace" "470195"); reflexivity.
Defined.

(** C7, on the run of [test_probe_failure_still_returns_stop_area]. *)
Lemma probe_failure_keeps_stop_witness :
  let run :=
    run_of (ResolveAndProbeWorker_run (lib := Sample.library)
              (nw := Sample.scripted [NetJson Sample.arrets_defense; NetFail])
              "IDFM:470549" "C01740") in
  fst run = Ok () ∧
  events (snd run) =
    [ErrorSig "Erreur directions: " RequestException;
     ResolveFinished "71517" (VStr "La Defense") []] ∧
  finished_count (snd run) = 1%nat ∧
  error_count (snd run) = 1%nat.
Proof.
  apply (probe_failure_keeps_stop (lib := Sample.library)
           (nw := Sample.scripted [NetJson Sample.arrets_defense; NetFail])
           "IDFM:470549" "C01740" "71517" (VStr "La Defense")
           (World [arrets_request "470549"] [] ∅)).
  - vm_compute. reflexivity.
  - discriminate.
  - reflexivity.
Defined.

(** X26, on a payload with one destination seen twice, and on the payloads
    of [test_parse_missing_keys]. *)
Lemma prober_first_seen_witness :
  (∃ pairs, visit_pairs Sample.one_direction_response = Ok pairs ∧
     [(VStr "Saint-Germain-En-Laye <RER>", VStr "1"); (VStr "Nanterre - Papeteries", VStr "1")]
       = first_seen (List.filter named pairs) ∧
     unique_by_destination
       [(VStr "Saint-Germain-En-Laye <RER>", VStr "1");
        (VStr "Nanterre - Papeteries", VStr "1")]) ∧
  directions_of (VDict []) = Ok [] ∧
  directions_of (VDict [("Siri", VDict [])]) = Ok [].
Proof.
  split; [|split].
  - apply (proj1 (prober_first_seen Sample.one_direction_response)). reflexivity.
  - apply (proj2 (prober_first_seen (VDict []))). apply missing_Siri. reflexivity.
  - apply (proj2 (prober_first_seen (VDict [("Siri", VDict [])]))).
    eapply missing_ServiceDelivery; reflexivity.
Defined.

(** C10, on two favourites that differ in their destination only: the
    mapping has one entry, the list of the second, and the departure for
    the first one's destination is in no list. *)
Lemma shared_key_last_writer_witness :
  let nw := Sample.scripted [NetJson Sample.one_direction_response] in
  let favs := [Sample.fav_halevy_1; Sample.fav_halevy_nanterre_1] in
  let run := run_of (DepartureWorker_run (lib := Sample.library) (nw := nw) favs) in
  fav_key Sample.fav_halevy_1 = fav_key Sample.fav_halevy_nanterre_1 ∧
  (∃ errs, Forall (λ ev, is_error ev = true) errs ∧
     events (snd run) = errs ++ [DepartureFinished (results (snd run))]) ∧
  match last_writer (lib := Sample.library) (fav_key Sample.fav_halevy_1)
          (writers (lib := Sample.library) (nw := nw) favs) with
  | None => results (snd run) !! fav_key Sample.fav_halevy_1 = None
  | Some (g, all_departures) =>
      ∃ r, select (lib := Sample.library) g all_departures = Ok r ∧
           results (snd run) !! fav_key Sample.fav_halevy_1 = Some r
  end ∧
  (∀ i all_departures,
     first_occurrences (map group_key favs) !! i = Some (group_key Sample.fav_halevy_1) →
     group_departures (lib := Sample.library) (nw := nw) i (group_key Sample.fav_halevy_1)
       = Some all_departures →
     (Sample.fav_halevy_1, all_departures) ∈ writers (lib := Sample.library) (nw := nw) favs ∧
     (Sample.fav_halevy_nanterre_1, all_departures)
       ∈ writers (lib := Sample.library) (nw := nw) favs ∧
     is_Some (last_writer (lib := Sample.library) (fav_key Sample.fav_halevy_1)
                (writers (lib := Sample.library) (nw := nw) favs))).
Proof.
  intros nw favs.
  apply (shared_key_last_writer (lib := Sample.library) (nw := nw) favs
           Sample.fav_halevy_1 Sample.fav_halevy_nanterre_1).
  - apply elem_of_cons. left. reflexivity.
  - apply elem_of_cons. right. apply elem_of_cons. left. reflexivity.
  - reflexivity.
  - reflexivity.
  - vm_compute. reflexivity.
Defined.

Example shared_key_results :
  let run :=
    run_of (DepartureWorker_run (lib := Sample.library)
              (nw := Sample.scripted [NetJson Sample.one_direction_response])
              [Sample.fav_halevy_1; Sample.fav_halevy_nanterre_1]) in
  map (λ kv, (fst kv, map Departure.destination (snd kv))) (map_to_list (results (snd run)))
  = [("50980_C02000_1", [VStr "Nanterre - Papeteries"])].
Proof. vm_compute. reflexivity. Qed.

(** Scenario A of the specification: two favourites share the stop and the
    line and differ in direction and destination; one request, and each
    favourite's list holds its own departure. *)
Example scenario_A :
  let run :=
    run_of (DepartureWorker_run (lib := Sample.library)
              (nw := Sample.scripted [NetJson Sample.halevy_response])
              [Sample.fav_halevy_1; Sample.fav_halevy_2]) in
  length (calls (snd run)) = 1%nat ∧
  map (λ kv, (fst kv, map Departure.destination (snd kv))) (map_to_list (results (snd run)))
  = [("50980_C02000_1", [VStr "Saint-Germain-En-Laye <RER>"]);
     ("50980_C02000_2", [VStr "Nanterre - Papeteries"])].
Proof. vm_compute. split; reflexivity. Qed.

(** Scenario B: at a terminus, the two visits bound for the stop itself
    are dropped, decorated or not. *)
Example scenario_B :
  let run :=
    run_of (DepartureWorker_run (lib := Sample.library)
              (nw := Sample.scripted [NetJson (Sample.make_siri_response
                 [("Saint-Germain-en-Laye", "2025-01-01T12:05:00+01:00", "1");
                  ("Marne-la-Vallee Chessy", "2025-01-01T12:10:00+01:00", "1");
                  ("Saint-Germain-En-Laye <RER>", "2025-01-01T12:15:00+01:00", "1")])])
              [Sample.fav_terminus]) in
  map (λ kv, (fst kv, map Departure.destination (snd kv))) (map_to_list (results (snd run)))
  = [("43114_C01742_1", [VStr "Marne-la-Vallee Chessy"])].
Proof. vm_compute. reflexivity. Qed.

(** The line search orders its results by the natural key. *)
Example natural_order :
  let record name := VDict [("id_line", VStr "C02000"); ("shortname_line", VStr name)] in
  let run :=
    run_of (LineSearchWorker_run (lib := Sample.library)
              (nw := Sample.scripted
                       [NetJson (VDict [("results",
                          VList (map record ["10"; "2"; "1"; "T1"; "T3a"]))])])
              "" "" 0) in
  match events (snd run) with
  | [LineSearchFinished lines _] => map LineAtStop.line_name lines
  | _ => []
  end = [VStr "1"; VStr "2"; VStr "10"; VStr "T1"; VStr "T3a"].
Proof. vm_compute. reflexivity. Qed.

(** The runs of [TestResolveAndProbeWorker]: a bus stop resolved through
    the catalog and probed, and a transport failure of the catalog. *)
Example resolve_bus_and_probe :
  events (snd (run_of (ResolveAndProbeWorker_run (lib := Sample.library)
                         (nw := Sample.scripted [NetJson Sample.arrets_defense;
                                                 NetJson Sample.halevy_response])
                         "IDFM:470549" "C01740")))
  = [ResolveFinished "71517" (VStr "La Defense")
       [(VStr "Saint-Germain-En-Laye <RER>", VStr "1");
        (VStr "Nanterre - Papeteries", VStr "2")]].
Proof. vm_compute. reflexivity. Qed.

Example resolve_http_error :
  events (snd (run_of (ResolveAndProbeWorker_run (lib := Sample.library)
                         (nw := Sample.scripted [NetFail]) "IDFM:423181" "C02000")))
  = [ErrorSig "Erreur resolution: " RequestException; ResolveFinished "" (VStr "") []].
Proof. vm_compute. reflexivity. Qed.

(** * The rest of the workers, the persistence and the window *)

(** ** [_parse_departures]: what it makes of a payload *)

Lemma map_res_Forall2 {A B} (f : A → res B) (l : list A) (m : list B) :
  map_res f l = Ok m → Forall2 (λ x y, f x = Ok y) l m.
Proof.
  revert m. induction l as [|x l IH]; intros m; simpl.
  - intros H. injection H as <-. constructor.
  - destruct (f x) as [y|e] eqn:Hx; cbn; [|discriminate].
    destruct (map_res f l) as [rest|e]; cbn; [|discriminate].
    intros H. injection H as <-. constructor; [exact Hx | apply IH; reflexivity].
Qed.

Section Parsed.
Context {lib : Library}.

Lemma parse_visit_stamped (fetch_ts : Z) (visit : value) (dep : Departure.t) :
  parse_visit fetch_ts visit = Ok dep →
  Departure.fetch_timestamp dep = fetch_ts ∧
  Departure.eta_seconds dep = eta_of fetch_ts (Departure.expected_iso dep).
Proof.
  unfold parse_visit. intros H.
  destruct (Py.get visit _ _) as [journey|?]; cbn in H; [|discriminate H].
  destruct (Py.get journey _ _) as [call|?]; cbn in H; [|discriminate H].
  destruct (list_or_scalar journey "DestinationName" "?") as [destination|?]; cbn in H;
    [|discriminate H].
  destruct (Py.get call "ExpectedDepartureTime" VNone) as [t1|?]; cbn in H; [|discriminate H].
  destruct (if Py.truthy t1 then _ else _) as [expected_time|?]; cbn in H; [|discriminate H].
  repeat match type of H with
  | (mbind _ ?r) = Ok _ =>
      let x := fresh "x" in destruct r as [x|?] eqn:?; cbn in H; [|discriminate H]
  end.
  injection H as <-.
  cbn [Departure.fetch_timestamp Departure.eta_seconds Departure.expected_iso].
  split; [reflexivity|].
  unfold eta_of, Py.or_else.
  destruct (Py.truthy expected_time) eqn:Ht.
  - destruct expected_time as [| | | |s| |]; try discriminate.
    destruct s; [discriminate Ht|]. cbn.
    destruct (timestamp_of_iso _); congruence.
  - cbn. congruence.
Qed.

(** X1. Whenever [_parse_departures] returns, it has made one departure of
    every visit of the payload, in their order; every departure carries the
    fetch time it was given, and its [eta_seconds] is the time from the
    fetch to its expected time, or [0] when it has no expected time or one
    that does not parse. *)
Theorem parse_departures_stamped (data : value) (fetch_ts : Z) (deps : list Departure.t) :
  _parse_departures data fetch_ts = Ok deps →
  ∃ visits, visits_of data = Ok visits ∧
    Forall2 (λ visit dep, parse_visit fetch_ts visit = Ok dep) visits deps ∧
    length deps = length visits ∧
    Forall (λ dep, Departure.fetch_timestamp dep = fetch_ts ∧
                   Departure.eta_seconds dep = eta_of fetch_ts (Departure.expected_iso dep))
           deps.
Proof.
  unfold _parse_departures, visits_of.
  destruct (monitored_visits data) as [[visits|]|e]; cbn; [| |discriminate].
  - destruct (Py.iter visits) as [vs|e]; cbn; [|discriminate].
    intros H. apply map_res_Forall2 in H. exists vs. split; [reflexivity|].
    split; [exact H|]. split; [symmetry; eapply Forall2_length, H|].
    induction H as [|v d vs ds Hv _ IH]; constructor; [|exact IH].
    eapply parse_visit_stamped, Hv.
  - intros H. injection H as <-. exists []. repeat split; constructor.
Qed.

(** X2. On a payload without the delivery (a key on the way to it absent,
    or the array of deliveries empty) [_parse_departures] returns the empty
    list, whatever the fetch time. *)
Theorem parse_departures_without_delivery (data : value) (fetch_ts : Z) :
  delivery_missing data → _parse_departures data fetch_ts = Ok [].
Proof.
  intros H. unfold _parse_departures. rewrite (delivery_missing_visits _ H). reflexivity.
Qed.

End Parsed.

(** The payload of [test_run_groups_by_stop_and_line], fetched at noon. *)
Lemma parse_departures_stamped_witness :
  let deps :=
    [Sample.departure "Saint-Germain-En-Laye <RER>" "2025-01-01T12:05:00+01:00" "1" 300;
     Sample.departure "Nanterre - Papeteries" "2025-01-01T12:10:00+01:00" "2" 600] in
  ∃ visits, visits_of Sample.halevy_response = Ok visits ∧
    Forall2 (λ visit dep, parse_visit (lib := Sample.library) 1735729200 visit = Ok dep)
            visits deps ∧
    length deps = length visits ∧
    Forall (λ dep, Departure.fetch_timestamp dep = 1735729200 ∧
                   Departure.eta_seconds dep
                   = eta_of (lib := Sample.library) 1735729200 (Departure.expected_iso dep))
           deps.
Proof.
  intros deps.
  apply (parse_departures_stamped (lib := Sample.library) Sample.halevy_response
           1735729200 deps).
  vm_compute. reflexivity.
Defined.

(** The payloads of [test_parse_empty_response] and
    [test_parse_missing_keys]. *)
Lemma parse_departures_without_delivery_witness :
  _parse_departures (lib := Sample.library) (VDict []) 1735729200 = Ok [] ∧
  _parse_departures (lib := Sample.library) (VDict [("Siri", VDict [])]) 1735729200 = Ok [].
Proof.
  split.
  - apply (parse_departures_without_delivery (lib := Sample.library) (VDict []) 1735729200).
    apply missing_Siri. reflexivity.
  - apply (parse_departures_without_delivery (lib := Sample.library)
             (VDict [("Siri", VDict [])]) 1735729200).
    eapply missing_ServiceDelivery; reflexivity.
Defined.

(** ** [DepartureWorker.run]: the lists it stores and the errors it reports *)

Section Stored.
Context {lib : Library} {nw : Network}.

Lemma writers_from_inv (n : nat) (groups : list ((string * string) * list Favourite.t))
    (fav : Favourite.t) (all : list Departure.t) :
  (fav, all) ∈ writers_from n groups →
  ∃ i key favs, groups !! i = Some (key, favs) ∧ fav ∈ favs ∧
    group_departures (n + i) key = Some all.
Proof.
  revert n. induction groups as [|[k fs] groups IH]; intros n Hin; [inversion Hin|].
  cbn [writers_from] in Hin. apply elem_of_app in Hin as [Hin | Hin].
  - destruct (group_departures n k) as [a|] eqn:Hdep; [|inversion Hin].
    apply list_elem_of_fmap in Hin as [f [Heq Hf]]. injection Heq as -> ->.
    exists 0%nat, k, fs. rewrite Nat.add_0_r. split; [reflexivity|]. split; assumption.
  - apply IH in Hin as [i [key [favs [Hi [Hf Hdep]]]]].
    exists (S i), key, favs. rewrite <- Nat.add_succ_comm.
    split; [exact Hi|]. split; assumption.
Qed.

Lemma last_writer_elem (key : string) (ws : list (Favourite.t * list Departure.t))
    (wr : Favourite.t * list Departure.t) :
  last_writer key ws = Some wr → wr ∈ ws ∧ fav_key (fst wr) = key.
Proof.
  unfold last_writer. intros H.
  assert (Hin : wr ∈ List.filter (λ w, bool_decide (fav_key (fst w) = key)) ws).
  { apply last_Some in H as [l' ->]. apply elem_of_app. right.
    apply elem_of_cons. left. reflexivity. }
  apply filter_In_elem in Hin as [Hin Hk]. split; [exact Hin|].
  apply bool_decide_eq_true in Hk. exact Hk.
Qed.

(** X3. When the run returns, every list of the mapping it emits is filed
    under the key of one of the favourites it was given, and is what the
    filter of that favourite keeps of the departures parsed from the
    payload of the request of its own group: it holds five departures at
    most, all of them among the parsed ones and none already gone. *)
Theorem stored_lists (favs : list Favourite.t) (key : string) (r : list Departure.t) :
  let run := run_of (DepartureWorker_run favs) in
  fst run = Ok () →
  results (snd run) !! key = Some r →
  (length r ≤ 5)%nat ∧
  ∃ fav i all_departures,
    fav ∈ favs ∧ fav_key fav = key ∧
    first_occurrences (map group_key favs) !! i = Some (group_key fav) ∧
    group_departures i (group_key fav) = Some all_departures ∧
    select fav all_departures = Ok r ∧
    ∀ d, d ∈ r → d ∈ all_departures ∧ 0 ≤ Departure.eta_seconds d.
Proof.
  intros run. subst run.
  destruct (DepartureWorker_run_cases favs)
    as [[errs [Herrs [Hsel Hrun]]] | [e [j [errs [m [_ [_ [_ Hrun]]]]]]]];
    rewrite Hrun; cbn [fst snd calls events results]; [|discriminate].
  intros _ Hr.
  pose proof (foldl_write_lookup (writers favs) ∅ key Hsel) as H.
  destruct (last_writer key (writers favs)) as [[g all]|] eqn:Hlast.
  - destruct H as [r' [Hr' Hl]]. rewrite Hl in Hr. injection Hr as ->.
    apply last_writer_elem in Hlast as [Hin Hkey]. cbn [fst snd] in *.
    unfold writers in Hin. apply writers_from_inv in Hin as [i [k [fs [Hi [Hg Hdep]]]]].
    rewrite list_lookup_fmap in Hi.
    destruct (first_occurrences (map group_key favs) !! i) as [k'|] eqn:Hk; [|discriminate Hi].
    injection Hi as -> <-. apply members_elem in Hg as [Hg <-].
    split.
    + unfold select in Hr'. destruct (matched g all) as [m|]; [|discriminate Hr'].
      injection Hr' as <-. rewrite length_take. lia.
    + exists g, i, all. repeat split; try assumption.
      * eapply select_elem in H; [|exact Hr']. apply H.
      * eapply select_elem in H; [|exact Hr']. destruct H as [_ Hm].
        apply matches_true in Hm. apply Hm.
  - rewrite H in Hr. rewrite lookup_empty in Hr. discriminate Hr.
Qed.

Lemma error_count_snoc (w : world) (ev : event) (cs : list request)
    (m : gmap string (list Departure.t)) :
  error_count (World cs (events w ++ [ev]) m) =
    (error_count w + if is_error ev then 1 else 0)%nat.
Proof.
  unfold error_count. cbn [events]. rewrite List.filter_app, length_app. simpl.
  destruct (is_error ev); reflexivity.
Qed.

Lemma for_each_fetch_group_errors (groups : list ((string * string) * list Favourite.t))
    (w w' : world) :
  for_each fetch_group groups w = (Ok (), w') →
  error_count w' = (error_count w + failures_from (length (calls w)) (map fst groups))%nat.
Proof.
  revert w. induction groups as [|[key favs] groups IH]; intros w.
  - simpl. intros H. injection H as <-. lia.
  - rewrite for_each_cons, fetch_group_eq. cbv zeta. cbn [map fst failures_from].
    destruct (net (length (calls w)) (group_request key)) as [|data].
    + intros H. apply IH in H. rewrite H. cbn [calls].
      rewrite length_snoc, error_count_snoc. simpl. lia.
    + destruct (_parse_departures data _) as [all|e] eqn:Hparse.
      * destruct (for_each_distribute all favs
                    (World (calls w ++ [group_request key]) (events w) (results w)))
          as [[_ Hrun] | [m Hrun]]; rewrite Hrun; cbn [handlers].
        -- intros H. apply IH in H. rewrite H. cbn [calls]. rewrite length_snoc.
           unfold error_count. cbn [events]. lia.
        -- discriminate.
      * destruct (parse_departures_raises _ _ _ Hparse) as [-> | ->]; discriminate.
Qed.

(** X4. When the run returns, it has reported exactly as many errors as
    requests have failed, and the last signal it has emitted is the
    terminal one, with the mapping. *)
Theorem one_error_per_failed_request (favs : list Favourite.t) :
  let run := run_of (DepartureWorker_run favs) in
  fst run = Ok () →
  error_count (snd run) = failures_from 0 (first_occurrences (map group_key favs)) ∧
  last (events (snd run)) = Some (DepartureFinished (results (snd run))).
Proof.
  intros run. subst run. rewrite DepartureWorker_run_eq.
  destruct (for_each fetch_group (group_favourites favs) world0) as [[[]|e] w] eqn:Hloop;
    [|discriminate].
  intros _. cbn [fst snd events results]. split; [|apply last_snoc].
  apply for_each_fetch_group_errors in Hloop.
  rewrite error_count_snoc. cbn [is_error]. rewrite Hloop.
  rewrite group_favourites_spec, map_map. cbn [fst]. rewrite map_id.
  unfold error_count. simpl. lia.
Qed.

Lemma for_each_fetch_group_outage (groups : list ((string * string) * list Favourite.t))
    (w : world) :
  (∀ n req, net n req = NetFail) →
  for_each fetch_group groups w =
    (Ok (), World (calls w ++ map (λ g, group_request (fst g)) groups)
              (events w ++ map (λ _, ErrorSig "Erreur réseau: " RequestException) groups)
              (results w)).
Proof.
  intros Hnet. revert w. induction groups as [|[key favs] groups IH]; intros w.
  - simpl. rewrite !app_nil_r. destruct w; reflexivity.
  - rewrite for_each_cons, fetch_group_eq. cbv zeta. rewrite Hnet, IH.
    cbn [calls events results map fst]. rewrite <- !app_assoc. reflexivity.
Qed.

(** X5. When every request fails, the run still returns: it has tried the
    request of every distinct pair, reported one network error for each,
    and emitted the terminal signal last, with an empty mapping. *)
Theorem outage_reported_per_group (favs : list Favourite.t) :
  (∀ n req, net n req = NetFail) →
  let keys := first_occurrences (map group_key favs) in
  run_of (DepartureWorker_run favs) =
    (Ok (), World (map group_request keys)
              (map (λ _, ErrorSig "Erreur réseau: " RequestException) keys ++
               [DepartureFinished ∅])
              ∅).
Proof.
  intros Hnet keys. rewrite DepartureWorker_run_eq, (for_each_fetch_group_outage _ _ Hnet).
  cbn [calls events results world0 app]. rewrite group_requests.
  rewrite group_favourites_spec, map_map. reflexivity.
Qed.

End Stored.

(** The run of [test_run_groups_by_stop_and_line]: the list under the key
    of the first favourite. *)
Lemma stored_lists_witness :
  let nw := Sample.scripted [NetJson Sample.halevy_response] in
  let favs := [Sample.fav_halevy_1; Sample.fav_halevy_2] in
  let r := [Sample.departure "Saint-Germain-En-Laye <RER>" "2025-01-01T12:05:00+01:00"
              "1" 300] in
  (length r ≤ 5)%nat ∧
  ∃ fav i all_departures,
    fav ∈ favs ∧ fav_key fav = "50980_C02000_1" ∧
    first_occurrences (map group_key favs) !! i = Some (group_key fav) ∧
    group_departures (lib := Sample.library) (nw := nw) i (group_key fav)
      = Some all_departures ∧
    select (lib := Sample.library) fav all_departures = Ok r ∧
    ∀ d, d ∈ r → d ∈ all_departures ∧ 0 ≤ Departure.eta_seconds d.
Proof.
  intros nw favs r.
  apply (stored_lists (lib := Sample.library) (nw := nw) favs "50980_C02000_1" r).
  - vm_compute. reflexivity.
  - vm_compute. reflexivity.
Defined.

(** Two groups, the request of the second failing: one error. *)
Lemma one_error_per_failed_request_witness :
  let nw := Sample.scripted [NetJson Sample.halevy_response; NetFail] in
  let favs := [Sample.fav_halevy_1; Sample.fav_other_stop; Sample.fav_halevy_2] in
  let run := run_of (DepartureWorker_run (lib := Sample.library) (nw := nw) favs) in
  error_count (snd run)
    = failures_from (nw := nw) 0 (first_occurrences (map group_key favs)) ∧
  last (events (snd run)) = Some (DepartureFinished (results (snd run))).
Proof.
  intros nw favs.
  apply (one_error_per_failed_request (lib := Sample.library) (nw := nw) favs).
  vm_compute. reflexivity.
Defined.

(** The run of [test_run_handles_http_error], with a second group. *)
Lemma outage_reported_per_group_witness :
  run_of (DepartureWorker_run (lib := Sample.library) (nw := Sample.scripted [])
            [Sample.fav_halevy_1; Sample.fav_other_stop; Sample.fav_halevy_2]) =
    (Ok (), World [group_request ("50980", "C02000"); group_request ("71517", "C01740")]
              [ErrorSig "Erreur réseau: " RequestException;
               ErrorSig "Erreur réseau: " RequestException;
               DepartureFinished ∅]
              ∅).
Proof.
  apply (outage_reported_per_group (lib := Sample.library) (nw := Sample.scripted [])
           [Sample.fav_halevy_1; Sample.fav_other_stop; Sample.fav_halevy_2]).
  intros n req. destruct n; reflexivity.
Defined.

(** A run on one payload of the shape the tests build, then on failures. *)
Lemma DepartureWorker_returns_on_feed_witness :
  let run :=
    run_of (DepartureWorker_run (lib := Sample.library)
              (nw := Sample.scripted [NetJson Sample.halevy_response])
              [Sample.fav_halevy_1; Sample.fav_other_stop]) in
  fst run = Ok () ∧ finished_count (snd run) = 1%nat.
Proof.
  apply (DepartureWorker_returns_on_feed (lib := Sample.library)
           (nw := Sample.scripted [NetJson Sample.halevy_response])
           [Sample.fav_halevy_1; Sample.fav_other_stop]).
  intros n req. destruct n as [|n].
  - right. eexists. reflexivity.
  - left. destruct n; reflexivity.
Defined.

(** ** [ResolveAndProbeWorker.run]: its requests and its terminal signal *)

Section Probed.
Context {lib : Library} {nw : Network}.



(** The requests of [_resolve]: none for an identifier with the marker,
    the catalog lookup otherwise. *)
Lemma resolve_calls (stop_id : string) (w : world) :
  calls (snd (_resolve stop_id w)) =
    calls w ++
    if Str.contains "monomodalStopPlace" stop_id then []
    else [arrets_request (Str.last_segment ":" stop_id)].
Proof.
  unfold _resolve. destruct (Str.contains "monomodalStopPlace" stop_id);
    [symmetry; apply app_nil_r|].
  rewrite arr_id_last_segment. set (req := arrets_request _).
  unfold mbind, M_bind, requests_get.
  destruct (net (length (calls w)) req) as [|data]; [reflexivity|].
  unfold lift. destruct (Py.get data "results" (VList [])) as [records|e]; [|reflexivity].
  destruct (Py.truthy records); [|reflexivity].
  destruct (Py.getitem0 records) as [first|e]; [|reflexivity].
  destruct (Py.get first "arrname" (VStr "")) as [name|e]; [|reflexivity].
  destruct (Py.get first "zdaid" (VStr "")) as [z|e]; reflexivity.
Qed.

(** A run of [ResolveAndProbeWorker], by what [_resolve] comes to. *)
Lemma ResolveAndProbeWorker_run_eq (stop_id line_id : string) :
  run_of (ResolveAndProbeWorker_run stop_id line_id) =
    match _resolve stop_id world0 with
    | (Ok (stop_area_id, stop_name), w1) =>
        if Str.is_empty stop_area_id then
          (Ok (), World (calls w1) [ResolveFinished "" (VStr "") []] ∅)
        else
          let calls' := calls w1 ++ [siri_request stop_area_id line_id] in
          match net (length (calls w1)) (siri_request stop_area_id line_id) with
          | NetFail =>
              (Ok (), World calls' [ErrorSig "Erreur directions: " RequestException;
                                    ResolveFinished stop_area_id stop_name []] ∅)
          | NetJson data =>
              match directions_of data with
              | Ok directions =>
                  (Ok (), World calls' [ResolveFinished stop_area_id stop_name directions] ∅)
              | Raise RequestException =>
                  (Ok (), World calls' [ErrorSig "Erreur directions: " RequestException;
                                        ResolveFinished stop_area_id stop_name []] ∅)
              | Raise e => (Raise e, World calls' [] ∅)
              end
          end
    | (Raise RequestException, w1) =>
        (Ok (), World (calls w1) [ErrorSig "Erreur resolution: " RequestException;
                                  ResolveFinished "" (VStr "") []] ∅)
    | (Raise e, w1) => (Raise e, World (calls w1) [] ∅)
    end.
Proof.
  unfold run_of, ResolveAndProbeWorker_run.
  unfold mbind at 1. unfold M_bind at 1. unfold try_except at 1.
  unfold mbind at 1. unfold M_bind at 1.
  pose proof (resolve_frame stop_id world0) as [Hev Hrs].
  destruct (_resolve stop_id world0) as [[[stop_area_id stop_name]|e] [c1 e1 r1]];
    cbn [snd events results world0] in Hev, Hrs; subst e1 r1.
  - cbn [fst]. destruct (Str.is_empty stop_area_id); [reflexivity|].
    unfold mret at 1. unfold M_ret at 1. cbv beta iota zeta.
    unfold try_except, on_request_exception, _probe_directions.
    unfold mbind at 1. unfold M_bind at 1.
    unfold mbind at 1. unfold M_bind at 1.
    unfold requests_get, lift. cbn [calls events results].
    destruct (net (length c1) _) as [|data]; [reflexivity|].
    destruct (directions_of data) as [directions|e]; [reflexivity|].
    destruct e; reflexivity.
  - unfold on_request_exception. destruct e; reflexivity.
Qed.

Lemma directions_of_raises (data : value) : directions_of data ≠ Raise RequestException.
Proof.
  unfold directions_of. intros H.
  destruct (monitored_visits data) as [[visits|]|e] eqn:Hv; cbn in H.
  - destruct (Py.iter visits) as [vs|e] eqn:Hi; cbn in H.
    + clear Hi Hv. revert H. generalize (@nil (value * value)).
      induction vs as [|v vs IH]; intros ds H; [discriminate H|].
      cbn [probe_visits] in H.
      destruct (probe_visit ds v) as [ds'|e] eqn:Hp; cbn in H; [apply (IH _ H)|].
      injection H as ->. unfold probe_visit in Hp.
      destruct (visit_pair v) as [p|e] eqn:Hvp; cbn in Hp.
      * unfold remember in Hp.
        destruct (named p); [|discriminate Hp].
        destruct (Py.hashable (fst p)); [|discriminate Hp].
        destruct (has_key (fst p) ds); discriminate Hp.
      * injection Hp as ->. unfold visit_pair in Hvp. raises Hvp; try discriminate Hvp.
        -- destruct (Py.or_else _ _) as [| | | |[|c s]|[|first l]|]; discriminate Hvp.
        -- apply ref_value_raises in Hvp. discriminate Hvp.
    + injection H as ->. destruct visits; discriminate Hi.
  - discriminate H.
  - injection H as ->. apply monitored_visits_raises in Hv. destruct Hv; discriminate.
Qed.

(** X7. A terminal signal with an empty stop-area id carries an empty name
    and no direction, and the run that emits it has made no probe: its only
    request, if the identifier lacks the marker, is the catalog lookup. *)
Theorem unresolved_stop_is_not_probed (stop_id line_id : string) (stop_name : value)
    (directions : list (value * value)) :
  let run := run_of (ResolveAndProbeWorker_run stop_id line_id) in
  ResolveFinished "" stop_name directions ∈ events (snd run) →
  stop_name = VStr "" ∧ directions = [] ∧
  calls (snd run) =
    if Str.contains "monomodalStopPlace" stop_id then []
    else [arrets_request (Str.last_segment ":" stop_id)].
Proof.
  intros run. subst run. rewrite ResolveAndProbeWorker_run_eq.
  pose proof (resolve_calls stop_id world0) as Hcalls. cbn [calls world0 app] in Hcalls.
  destruct (_resolve stop_id world0) as [[[stop_area_id name]|e] w1]; cbn [snd] in Hcalls.
  - destruct stop_area_id as [|c s]; cbn [Str.is_empty].
    + cbn [snd events calls]. intros H. apply list_elem_of_singleton in H.
      injection H as -> ->. repeat split. exact Hcalls.
    + cbv zeta. destruct (net _ _) as [|data]; [|destruct (directions_of data) as [ds|[]]];
        cbn [snd events]; intros H;
        repeat (apply elem_of_cons in H as [H | H]; [discriminate H|]); inversion H.
  - destruct e; cbn [snd events calls]; intros H;
      repeat (apply elem_of_cons in H as [H | H]; [try discriminate H|]); try (inversion H; fail).
    injection H as -> ->. repeat split. exact Hcalls.
Qed.

(** X8. A terminal signal with a stop-area id that is not empty carries
    what [_resolve] returned, and comes after one probe, of that stop area
    and the line of the worker: its directions are those of the payload of
    the probe, or none if the probe failed. *)
Theorem probe_of_the_resolved_stop (stop_id line_id stop_area_id : string)
    (stop_name : value) (directions : list (value * value)) :
  let run := run_of (ResolveAndProbeWorker_run stop_id line_id) in
  ResolveFinished stop_area_id stop_name directions ∈ events (snd run) →
  stop_area_id ≠ "" →
  ∃ w1, _resolve stop_id world0 = (Ok (stop_area_id, stop_name), w1) ∧
    calls (snd run) = calls w1 ++ [siri_request stop_area_id line_id] ∧
    match net (length (calls w1)) (siri_request stop_area_id line_id) with
    | NetFail => directions = []
    | NetJson data => directions_of data = Ok directions
    end.
Proof.
  intros run. subst run. rewrite ResolveAndProbeWorker_run_eq.
  destruct (_resolve stop_id world0) as [[[sa name]|e] w1].
  - destruct sa as [|c s]; cbn [Str.is_empty].
    + cbn [snd events]. intros H Hne. apply list_elem_of_singleton in H.
      injection H as -> _ _. contradiction Hne. reflexivity.
    + cbv zeta. destruct (net _ _) as [|data] eqn:Hnet;
        [|destruct (directions_of data) as [ds|e] eqn:Hd].
      * cbn [snd events calls]. intros H _.
        apply elem_of_cons in H as [H | H]; [discriminate H|].
        apply list_elem_of_singleton in H. injection H as -> -> ->.
        exists w1. rewrite Hnet. repeat split.
      * cbn [snd events calls]. intros H _.
        apply list_elem_of_singleton in H. injection H as -> -> ->.
        exists w1. rewrite Hnet. repeat split. exact Hd.
      * destruct e; try (cbn [snd events]; intros H _; inversion H; fail).
        contradiction (directions_of_raises data).
  - destruct e; cbn [snd events]; intros H Hne;
      repeat (apply elem_of_cons in H as [H | H]; [try discriminate H|]);
      try (inversion H; fail).
    injection H as -> _ _. contradiction Hne. reflexivity.
Qed.

(** X9. The requests of a run.  For an identifier with the marker: the
    probe of its trailing component alone, and nothing if that component is
    empty.  For any other: the catalog lookup keyed by the trailing
    component, followed or not by one probe.  So a run makes two requests
    at most. *)
Theorem requests_of_a_probe_run (stop_id line_id : string) :
  let run := run_of (ResolveAndProbeWorker_run stop_id line_id) in
  let trailing := Str.last_segment ":" stop_id in
  if Str.contains "monomodalStopPlace" stop_id then
    calls (snd run) = if Str.is_empty trailing then [] else [siri_request trailing line_id]
  else
    calls (snd run) = [arrets_request trailing] ∨
    ∃ stop_area_id, stop_area_id ≠ "" ∧
      calls (snd run) = [arrets_request trailing; siri_request stop_area_id line_id].
Proof.
  intros run trailing. subst run trailing. rewrite ResolveAndProbeWorker_run_eq.
  pose proof (resolve_calls stop_id world0) as Hcalls. cbn [calls world0 app] in Hcalls.
  unfold _resolve in *.
  destruct (Str.contains "monomodalStopPlace" stop_id).
  - unfold mret, M_ret. cbn [calls world0 length app].
    destruct (Str.last_segment ":" stop_id) as [|c s]; cbn [Str.is_empty]; [reflexivity|].
    cbv zeta. destruct (net _ _) as [|data]; [reflexivity|].
    destruct (directions_of data) as [ds|[]]; reflexivity.
  - match type of Hcalls with calls (snd ?r) = _ => destruct r as [[[sa name]|e] w1] end.
    + cbn [snd] in Hcalls. destruct sa as [|c s]; cbn [Str.is_empty].
      * left. exact Hcalls.
      * right. exists (String c s). split; [discriminate|].
        cbv zeta. rewrite Hcalls.
        destruct (net _ _) as [|data]; [reflexivity|].
        destruct (directions_of data) as [ds|[]]; reflexivity.
    + left. cbn [snd] in Hcalls. destruct e; exact Hcalls.
Qed.



End Probed.

(** The runs of [TestResolveAndProbeWorker]: no record in the catalog, a
    stop resolved through the catalog and probed, and a rail stop. *)
Lemma unresolved_stop_is_not_probed_witness :
  let run :=
    run_of (ResolveAndProbeWorker_run (lib := Sample.library)
              (nw := Sample.scripted [NetJson Sample.no_record]) "IDFM:999999" "C02000") in
  VStr "" = VStr "" ∧ @nil (value * value) = [] ∧
  calls (snd run) = [arrets_request "999999"].
Proof.
  apply (unresolved_stop_is_not_probed (lib := Sample.library)
           (nw := Sample.scripted [NetJson Sample.no_record]) "IDFM:999999" "C02000"
           (VStr "") []).
  vm_compute. apply elem_of_cons. left. reflexivity.
Defined.

Lemma probe_of_the_resolved_stop_witness :
  let nw := Sample.scripted [NetJson Sample.arrets_defense; NetJson Sample.halevy_response] in
  let run := run_of (ResolveAndProbeWorker_run (lib := Sample.library) (nw := nw)
                       "IDFM:470549" "C01740") in
  let directions := [(VStr "Saint-Germain-En-Laye <RER>", VStr "1");
                     (VStr "Nanterre - Papeteries", VStr "2")] in
  ∃ w1, _resolve (lib := Sample.library) (nw := nw) "IDFM:470549" world0
          = (Ok ("71517", VStr "La Defense"), w1) ∧
    calls (snd run) = calls w1 ++ [siri_request "71517" "C01740"] ∧
    match net (Network := nw) (length (calls w1)) (siri_request "71517" "C01740") with
    | NetFail => directions = []
    | NetJson data => directions_of data = Ok directions
    end.
Proof.
  intros nw run directions.
  apply (probe_of_the_resolved_stop (lib := Sample.library) (nw := nw)
           "IDFM:470549" "C01740" "71517" (VStr "La Defense") directions).
  - vm_compute. apply elem_of_cons. left. reflexivity.
  - discriminate.
Defined.

Lemma requests_of_a_probe_run_witness :
  calls (snd (run_of (ResolveAndProbeWorker_run (lib := Sample.library)
                        (nw := Sample.scripted [NetJson Sample.halevy_response])
                        "IDFM:monomodalStopPlace:43114" "C01742")))
  = [siri_request "43114" "C01742"].
Proof.
  exact (requests_of_a_probe_run (lib := Sample.library)
           (nw := Sample.scripted [NetJson Sample.halevy_response])
           "IDFM:monomodalStopPlace:43114" "C01742").
Defined.



(** ** The sort of the search workers *)

Section SortRes.
Context {K A : Type} (lt : K → K → res bool).

Hypothesis lt_asym : ∀ x y, lt x y = Ok true → lt y x = Ok false.
Hypothesis not_after_trans :
  ∀ x y z, not_after lt x y → not_after lt y z → not_after lt x z.

Lemma insert_res_perm (x : K * A) (l s : list (K * A)) :
  insert_res lt x l = Ok s → s ≡ₚ x :: l.
Proof.
  revert s. induction l as [|y l IH]; intros s; simpl.
  - intros H. injection H as <-. reflexivity.
  - destruct (lt (fst y) (fst x)) as [[]|e]; cbn; [| |discriminate].
    + destruct (insert_res lt x l) as [rest|e]; cbn; [|discriminate].
      intros H. injection H as <-. rewrite (IH rest eq_refl). apply Permutation_swap.
    + intros H. injection H as <-. reflexivity.
Qed.

Lemma sort_res_perm (l s : list (K * A)) : sort_res lt l = Ok s → s ≡ₚ l.
Proof.
  revert s. induction l as [|x l IH]; intros s; simpl.
  - intros H. injection H as <-. reflexivity.
  - destruct (sort_res lt l) as [sorted|e]; cbn; [|discriminate].
    intros H. apply insert_res_perm in H. rewrite H, (IH sorted eq_refl). reflexivity.
Qed.

Lemma insert_res_sorted (x : K * A) (l s : list (K * A)) :
  StronglySorted (λ a b, not_after lt (fst a) (fst b)) l →
  insert_res lt x l = Ok s →
  StronglySorted (λ a b, not_after lt (fst a) (fst b)) s.
Proof.
  intros Hl. revert s. induction Hl as [|y l Hl IH Hy]; intros s; simpl.
  - intros H. injection H as <-. repeat constructor.
  - destruct (lt (fst y) (fst x)) as [[]|e] eqn:Hlt; cbn; [| |discriminate].
    + destruct (insert_res lt x l) as [rest|e] eqn:Hins; cbn; [|discriminate].
      intros H. injection H as <-. constructor; [apply IH; reflexivity|].
      apply insert_res_perm in Hins. rewrite Hins. constructor; [|exact Hy].
      apply lt_asym, Hlt.
    + intros H. injection H as <-. constructor; [constructor; assumption|].
      constructor; [exact Hlt|].
      eapply Forall_impl; [exact Hy|]. intros z Hz. eapply not_after_trans; [exact Hlt | exact Hz].
Qed.

Lemma sort_res_sorted (l s : list (K * A)) :
  sort_res lt l = Ok s → StronglySorted (λ a b, not_after lt (fst a) (fst b)) s.
Proof.
  revert s. induction l as [|x l IH]; intros s; simpl.
  - intros H. injection H as <-. constructor.
  - destruct (sort_res lt l) as [sorted|e]; cbn; [|discriminate].
    apply insert_res_sorted, IH. reflexivity.
Qed.

Lemma sort_with_key_inv (key : A → res K) (l s : list A) :
  sort_with_key key lt l = Ok s →
  s ≡ₚ l ∧
  StronglySorted (λ a b, ∃ ka kb, key a = Ok ka ∧ key b = Ok kb ∧ not_after lt ka kb) s.
Proof.
  unfold sort_with_key.
  destruct (map_res _ l) as [keyed|e] eqn:Hk; cbn; [|discriminate].
  destruct (sort_res lt keyed) as [sorted|e] eqn:Hs; cbn; [|discriminate].
  intros H. injection H as <-.
  assert (Hkeyed : Forall (λ kx, key (snd kx) = Ok (fst kx)) keyed ∧ map snd keyed = l).
  { clear Hs. revert keyed Hk. induction l as [|x l IH]; intros keyed; simpl.
    - intros H. injection H as <-. split; [constructor | reflexivity].
    - destruct (key x) as [k|e] eqn:Hx; cbn; [|discriminate].
      destruct (map_res _ l) as [rest|e]; cbn; [|discriminate].
      intros H. injection H as <-. destruct (IH rest eq_refl) as [Hall Hmap].
      split; [constructor; [exact Hx | exact Hall] | simpl; rewrite Hmap; reflexivity]. }
  destruct Hkeyed as [Hall <-].
  pose proof (sort_res_perm _ _ Hs) as Hperm.
  split; [rewrite Hperm; reflexivity|].
  rewrite <- Hperm in Hall. apply sort_res_sorted in Hs. clear Hperm.
  induction Hs as [|kx sorted Hs IH Hkx]; [constructor|].
  apply Forall_cons in Hall as [Hx Hall]. simpl. constructor; [apply IH, Hall|].
  apply Forall_fmap. rewrite Forall_forall in Hall, Hkx. apply Forall_forall.
  intros ky Hy. exists (fst kx), (fst ky). split; [exact Hx|]. split; [apply Hall, Hy|].
  apply Hkx, Hy.
Qed.

End SortRes.


Lemma string_ltb_leb (s t : string) : String.ltb s t = negb (String.leb t s).
Proof.
  unfold String.ltb, String.leb. rewrite (String.compare_antisym s t).
  destruct (String.compare t s); reflexivity.
Qed.

Lemma string_ltb_asym (s t : string) : String.ltb s t = true → String.ltb t s = false.
Proof.
  unfold String.ltb. rewrite (String.compare_antisym s t).
  destruct (String.compare t s); simpl; congruence.
Qed.

Lemma string_leb_trans (s t u : string) :
  String.leb s t = true → String.leb t u = true → String.leb s u = true.
Proof.
  intros H1 H2. apply Is_true_true. apply Is_true_true in H1, H2.
  exact (transitivity (R := String.le) H1 H2).
Qed.

Lemma string_leb_antisym (s t : string) :
  String.leb s t = true → String.leb t s = true → s = t.
Proof.
  intros H1 H2. apply Is_true_true in H1, H2.
  exact (anti_symm String.le _ _ H1 H2).
Qed.

Lemma key_lt_asym (a b : list key_part) : key_lt a b = Ok true → key_lt b a = Ok false.
Proof.
  revert b. induction a as [|[m|s] a IH]; intros [|[n|t] b]; simpl; try congruence.
  - rewrite (Z.eqb_sym n m). destruct (Z.eqb_spec m n) as [_ | Hne]; [apply IH|].
    intros H. injection H as H. f_equal. lia.
  - rewrite (String.eqb_sym t s). destruct (String.eqb s t); [apply IH|].
    intros H. injection H as H. f_equal. apply string_ltb_asym, H.
Qed.

Lemma key_lt_trans (a b c : list key_part) :
  key_lt b a = Ok false → key_lt c b = Ok false → key_lt c a = Ok false.
Proof.
  revert b c.
  induction a as [|[m|s] a IH]; intros [|[n|t] b] [|[p|u] c]; simpl; try congruence.
  - destruct (Z.eqb_spec n m) as [-> | Hnm].
    + destruct (Z.eqb_spec p m) as [-> | Hpm]; [apply IH|]. intros _ H. exact H.
    + intros H1. injection H1 as H1.
      destruct (Z.eqb_spec p n) as [-> | Hpn].
      * intros _. destruct (Z.eqb_spec n m); [contradiction|]. f_equal. exact H1.
      * intros H2. injection H2 as H2.
        destruct (Z.eqb_spec p m) as [-> | Hpm]; [lia|]. f_equal. lia.
  - destruct (String.eqb_spec t s) as [-> | Hts].
    + destruct (String.eqb_spec u s) as [-> | Hus]; [apply IH|]. intros _ H. exact H.
    + intros H1. injection H1 as H1.
      destruct (String.eqb_spec u t) as [-> | Hut].
      * intros _. destruct (String.eqb_spec t s); [contradiction|]. f_equal. exact H1.
      * intros H2. injection H2 as H2.
        rewrite string_ltb_leb in H1, H2. apply negb_false_iff in H1, H2.
        pose proof (string_leb_trans _ _ _ H1 H2) as H3.
        destruct (String.eqb_spec u s) as [-> | Hus].
        -- contradiction Hts. apply string_leb_antisym; assumption.
        -- f_equal. rewrite string_ltb_leb, H3. reflexivity.
Qed.

Lemma value_lt_asym (x y : value) : value_lt x y = Ok true → value_lt y x = Ok false.
Proof.
  assert (Hq : ∀ p q, negb (QArith_base.Qle_bool q p) = true →
                      negb (QArith_base.Qle_bool p q) = false).
  { intros p q H. apply negb_false_iff, QArith_base.Qle_bool_iff.
    apply negb_true_iff in H.
    destruct (QArith_base.Qlt_le_dec p q) as [Hlt | Hle].
    - apply QArith_base.Qlt_le_weak, Hlt.
    - apply QArith_base.Qle_bool_iff in Hle. congruence. }
  destruct x, y; simpl; try discriminate;
    try (intros H; injection H as H; f_equal; apply Hq, H).
  intros H. injection H as H. f_equal. apply string_ltb_asym, H.
Qed.

Lemma value_lt_trans (x y z : value) :
  value_lt y x = Ok false → value_lt z y = Ok false → value_lt z x = Ok false.
Proof.
  assert (Hq : ∀ p q r, negb (QArith_base.Qle_bool p q) = false →
                        negb (QArith_base.Qle_bool q r) = false →
                        negb (QArith_base.Qle_bool p r) = false).
  { intros p q r H1 H2. apply negb_false_iff in H1, H2. apply negb_false_iff.
    apply QArith_base.Qle_bool_iff in H1, H2. apply QArith_base.Qle_bool_iff.
    exact (QArith_base.Qle_trans _ _ _ H1 H2). }
  destruct x, y; simpl; try discriminate; destruct z; simpl; try discriminate;
    try (intros H1 H2; injection H1 as H1; injection H2 as H2; f_equal;
         exact (Hq _ _ _ H1 H2)).
  intros H1 H2. injection H1 as H1. injection H2 as H2. f_equal.
  rewrite string_ltb_leb in *. apply negb_false_iff in H1, H2. apply negb_false_iff.
  exact (string_leb_trans _ _ _ H1 H2).
Qed.


Lemma py_eqb_sym (x y : value) : Py.eqb x y = Py.eqb y x.
Proof.
  assert (Hq : ∀ p q, QArith_base.Qeq_bool p q = QArith_base.Qeq_bool q p).
  { intros p q. unfold QArith_base.Qeq_bool. apply Z.eqb_sym. }
  destruct x, y; simpl; try reflexivity; try apply Hq. apply String.eqb_sym.
Qed.

Lemma StronglySorted_symmetric_perm {A} (R : A → A → Prop) (l l' : list A) :
  (∀ x y, R x y → R y x) → l ≡ₚ l' → StronglySorted R l → StronglySorted R l'.
Proof.
  intros Hsym Hperm. induction Hperm as [|x l l' Hperm IH|x y l|l l' l'' _ IH1 _ IH2].
  - intros H; exact H.
  - intros H. apply StronglySorted_inv in H as [Hl Hx].
    constructor; [apply IH, Hl | rewrite <- Hperm; exact Hx].
  - intros H. apply StronglySorted_inv in H as [H Hy].
    apply StronglySorted_inv in H as [Hl Hx].
    apply Forall_cons in Hy as [Hyx Hy].
    constructor; [constructor; assumption|].
    constructor; [apply Hsym, Hyx | exact Hx].
  - intros H. apply IH2, IH1, H.
Qed.

Lemma stops_of_records_inv (records : list value) (results out : list StopOnLine.t) :
  stops_of_records results records = Ok out →
  distinct_names results →
  Forall (λ s, Py.truthy (StopOnLine.stop_name s) = true) results →
  distinct_names out ∧
  Forall (λ s, Py.truthy (StopOnLine.stop_name s) = true) out ∧
  (∀ s, s ∈ out → s ∈ results ∨ ∃ record, record ∈ records ∧ stop_of_record record s) ∧
  (∀ s, s ∈ results → s ∈ out) ∧
  (∀ record name, record ∈ records →
     Py.get record "stop_name" (VStr "") = Ok name → Py.truthy name = true →
     ∃ s, s ∈ out ∧ Py.eqb (StopOnLine.stop_name s) name = true).
Proof.
  revert results. induction records as [|record records IH]; intros results; simpl.
  - intros H Hd Ht. injection H as <-. repeat split; try assumption.
    + intros s Hs. left. exact Hs.
    + intros s Hs. exact Hs.
    + intros record name Hin. inversion Hin.
  - destruct (Py.get record "stop_name" (VStr "")) as [name|e] eqn:Hname; cbn; [|discriminate].
    destruct (Py.truthy name) eqn:Htruthy; cbn.
    + destruct (Py.hashable name) eqn:Hhash; cbn; [|discriminate].
      destruct (existsb _ results) eqn:Hseen.
      * intros H Hd Ht. destruct (IH _ H Hd Ht) as (Hd' & Ht' & Hfrom & Hkeep & Hall).
        split; [exact Hd'|]. split; [exact Ht'|]. split; [|split; [exact Hkeep|]].
        -- intros s Hs. destruct (Hfrom s Hs) as [Hr | [rec [Hrec Hs']]]; [left; exact Hr|].
           right. exists rec. split; [apply elem_of_cons; right; exact Hrec | exact Hs'].
        -- intros rec nm Hrec Hnm Htr. apply elem_of_cons in Hrec as [-> | Hrec];
             [|apply (Hall rec nm Hrec Hnm Htr)].
           rewrite Hname in Hnm. injection Hnm as <-.
           apply existsb_exists in Hseen as [s [Hs Heq]].
           exists s. split; [apply Hkeep, list_elem_of_In, Hs | exact Heq].
      * destruct (Py.get record "stop_id" (VStr "")) as [stop_id|e] eqn:Hid; cbn;
          [|discriminate].
        intros H Hd Ht.
        assert (Hd1 : distinct_names (results ++ [StopOnLine.mk name stop_id])).
        { apply StronglySorted_app. split; [|split; [exact Hd | repeat constructor]].
          intros s t Hs Ht'. apply list_elem_of_singleton in Ht' as ->. simpl.
          destruct (Py.eqb (StopOnLine.stop_name s) name) eqn:Heq; [|reflexivity].
          assert (Hex : existsb (λ s, Py.eqb (StopOnLine.stop_name s) name) results = true)
            by (apply existsb_exists; exists s; split; [apply list_elem_of_In, Hs | exact Heq]).
          congruence. }
        assert (Ht1 : Forall (λ s, Py.truthy (StopOnLine.stop_name s) = true)
                        (results ++ [StopOnLine.mk name stop_id])).
        { apply Forall_app. split; [exact Ht|]. constructor; [exact Htruthy | constructor]. }
        destruct (IH _ H Hd1 Ht1) as (Hd' & Ht' & Hfrom & Hkeep & Hall).
        split; [exact Hd'|]. split; [exact Ht'|]. split; [|split].
        -- intros s Hs. destruct (Hfrom s Hs) as [Hr | [rec [Hrec Hs']]].
           ++ apply elem_of_app in Hr as [Hr | Hr]; [left; exact Hr|].
              apply list_elem_of_singleton in Hr as ->. right. exists record.
              split; [apply elem_of_cons; left; reflexivity|]. split; assumption.
           ++ right. exists rec. split; [apply elem_of_cons; right; exact Hrec | exact Hs'].
        -- intros s Hs. apply Hkeep, elem_of_app. left. exact Hs.
        -- intros rec nm Hrec Hnm Htr. apply elem_of_cons in Hrec as [-> | Hrec];
             [|apply (Hall rec nm Hrec Hnm Htr)].
           rewrite Hname in Hnm. injection Hnm as <-.
           exists (StopOnLine.mk name stop_id). split.
           ++ apply Hkeep, elem_of_app. right. apply list_elem_of_singleton. reflexivity.
           ++ simpl. destruct name; try discriminate Hhash; simpl; try reflexivity.
              ** apply QArith_base.Qeq_bool_iff. reflexivity.
              ** apply QArith_base.Qeq_bool_iff. reflexivity.
              ** apply QArith_base.Qeq_bool_iff. reflexivity.
              ** apply String.eqb_refl.
    + intros H Hd Ht. destruct (IH _ H Hd Ht) as (Hd' & Ht' & Hfrom & Hkeep & Hall).
      split; [exact Hd'|]. split; [exact Ht'|]. split; [|split; [exact Hkeep|]].
      * intros s Hs. destruct (Hfrom s Hs) as [Hr | [rec [Hrec Hs']]]; [left; exact Hr|].
        right. exists rec. split; [apply elem_of_cons; right; exact Hrec | exact Hs'].
      * intros rec nm Hrec Hnm Htr. apply elem_of_cons in Hrec as [-> | Hrec];
          [|apply (Hall rec nm Hrec Hnm Htr)].
        rewrite Hname in Hnm. injection Hnm as <-. congruence.
Qed.


(** ** The search workers: what they emit *)

Section Found.
Context {lib : Library} {nw : Network}.

Lemma line_of_record_route (record : value) (line : LineAtStop.t) :
  line_of_record record = Ok line →
  LineAtStop.route_id line = "IDFM:" +:+ py_str (LineAtStop.line_id line).
Proof.
  unfold line_of_record. intros H.
  repeat match type of H with
  | (mbind _ ?r) = Ok _ =>
      let x := fresh "x" in destruct r as [x|?] eqn:?; cbn in H; [|discriminate H]
  end.
  injection H as <-. reflexivity.
Qed.

Lemma sort_with_key_raises {K A} (key : A → res K) (lt : K → K → res bool) (l : list A)
    (e : exn) :
  sort_with_key key lt l = Raise e →
  (∃ x, key x = Raise e) ∨ (∃ a b, lt a b = Raise e).
Proof.
  unfold sort_with_key. intros H.
  apply bind_raise in H as [H | [keyed [_ H]]].
  - left. apply map_res_raises in H as [x [_ H]].
    apply bind_raise in H as [H | [k [_ H]]]; [eauto | discriminate H].
  - right. apply bind_raise in H as [H | [sorted [_ H]]]; [|discriminate H].
    clear -H. induction keyed as [|x keyed IH]; simpl in H; [discriminate H|].
    apply bind_raise in H as [H | [sorted [_ H]]]; [apply IH, H|].
    clear -H. induction sorted as [|y sorted IH]; simpl in H; [discriminate H|].
    apply bind_raise in H as [H | [b [_ H]]]; [eauto|].
    destruct b; [|discriminate H].
    apply bind_raise in H as [H | [rest [_ H]]]; [apply IH, H | discriminate H].
Qed.

Lemma key_lt_raises (a b : list key_part) (e : exn) : key_lt a b = Raise e → e = TypeError.
Proof.
  revert b. induction a as [|[m|s] a IH]; intros [|[n|t] b]; simpl; try congruence.
  - destruct (m =? n); [apply IH | discriminate].
  - destruct (String.eqb s t); [apply IH | discriminate].
Qed.

Lemma value_lt_raises (x y : value) (e : exn) : value_lt x y = Raise e → e = TypeError.
Proof. destruct x, y; simpl; congruence. Qed.

Lemma natural_sort_key_raises (text : value) (e : exn) :
  _natural_sort_key text = Raise e → e = TypeError ∨ e = ValueError.
Proof.
  destruct text; simpl; try (intros H; injection H as <-; left; reflexivity).
  intros H. apply map_res_raises in H as [c [_ H]].
  destruct (str_isdigit c); [|discriminate H].
  destruct (py_int c); [discriminate H|]. injection H as <-. right. reflexivity.
Qed.

Lemma records_of_raises (data : value) (e : exn) :
  records_of data = Raise e → uncaught e.
Proof.
  unfold records_of. intros H. apply bind_raise in H as [H | [r [_ H]]].
  - apply get_raises in H. left. exact H.
  - destruct r; inversion H; right; reflexivity.
Qed.

Lemma line_of_record_raises (record : value) (e : exn) :
  line_of_record record = Raise e → e = AttributeError.
Proof. unfold line_of_record. intros H. raises H; exact H. Qed.

Lemma stops_of_records_raises (records : list value) (results : list StopOnLine.t) (e : exn) :
  stops_of_records results records = Raise e → uncaught e.
Proof.
  revert results. induction records as [|record records IH]; intros results; simpl;
    [discriminate|].
  intros H. apply bind_raise in H as [H | [name [_ H]]];
    [apply get_raises in H; left; exact H|].
  destruct (negb (Py.truthy name)); [apply (IH _ H)|].
  destruct (negb (Py.hashable name)); [injection H as <-; right; reflexivity|].
  destruct (existsb _ results); [apply (IH _ H)|].
  apply bind_raise in H as [H | [stop_id [_ H]]];
    [apply get_raises in H; left; exact H | apply (IH _ H)].
Qed.

Lemma LineSearchWorker_run_eq (query mode : string) (search_id : Z) :
  run_of (LineSearchWorker_run query mode search_id) =
    let req := lines_request query mode in
    match net 0 req with
    | NetFail =>
        (Ok (), World [req] [ErrorSig "Erreur recherche: " RequestException;
                             LineSearchFinished [] search_id] ∅)
    | NetJson data =>
        match (records ← records_of data;
               decoded ← map_res line_of_record records;
               sort_with_key (λ l, _natural_sort_key (LineAtStop.line_name l)) key_lt decoded)
        with
        | Ok lines => (Ok (), World [req] [LineSearchFinished lines search_id] ∅)
        | Raise e => (Raise e, World [req] [] ∅)
        end
    end.
Proof.
  cbv zeta.
  unfold run_of, LineSearchWorker_run, try_except, mbind at 1 2 3 4, M_bind, requests_get,
    lift, emit, on_request_exception.
  cbn [calls events results world0 length app].
  destruct (net 0%nat _) as [|data]; [reflexivity|].
  fold (records_of data).
  destruct (records_of data) as [records|e] eqn:Hrec; cbn.
  - destruct (map_res line_of_record records) as [decoded|e] eqn:Hdec; cbn.
    + destruct (sort_with_key _ key_lt decoded) as [sorted|e] eqn:Hsort; [reflexivity|].
      apply sort_with_key_raises in Hsort as [[x H] | [a [b H]]].
      * apply natural_sort_key_raises in H as [-> | ->]; reflexivity.
      * apply key_lt_raises in H as ->. reflexivity.
    + apply map_res_raises in Hdec as [x [_ H]]. apply line_of_record_raises in H as ->.
      reflexivity.
  - apply records_of_raises in Hrec as [-> | ->]; reflexivity.
Qed.

Lemma StopsOnLineWorker_run_eq (route_id : string) :
  run_of (StopsOnLineWorker_run route_id) =
    let req := stops_request route_id in
    match net 0 req with
    | NetFail =>
        (Ok (), World [req] [ErrorSig "Erreur arrets: " RequestException;
                             StopsOnLineFinished []] ∅)
    | NetJson data =>
        match (records ← records_of data;
               found ← stops_of_records [] records;
               sort_with_key (λ s, Ok (StopOnLine.stop_name s)) value_lt found)
        with
        | Ok stops => (Ok (), World [req] [StopsOnLineFinished stops] ∅)
        | Raise e => (Raise e, World [req] [] ∅)
        end
    end.
Proof.
  cbv zeta.
  unfold run_of, StopsOnLineWorker_run, try_except, mbind at 1 2 3 4, M_bind, requests_get,
    lift, emit, on_request_exception.
  cbn [calls events results world0 length app].
  destruct (net 0%nat _) as [|data]; [reflexivity|].
  fold (records_of data).
  destruct (records_of data) as [records|e] eqn:Hrec; cbn.
  - destruct (stops_of_records [] records) as [found|e] eqn:Hfound; cbn.
    + destruct (sort_with_key _ value_lt found) as [sorted|e] eqn:Hsort; [reflexivity|].
      apply sort_with_key_raises in Hsort as [[x H] | [a [b H]]]; [discriminate H|].
      apply value_lt_raises in H as ->. reflexivity.
    + apply stops_of_records_raises in Hfound as [-> | ->]; reflexivity.
  - apply records_of_raises in Hrec as [-> | ->]; reflexivity.
Qed.

(** X10. [LineSearchWorker.run] makes one request.  If it fails, the run
    reports one error and emits the empty list with its search id.  If it
    is answered, whatever list the run emits comes with the search id of
    the worker and is the only signal; it holds one line for every record
    of the payload, each with the route id ["IDFM:"] followed by its line
    id, in an order in which no line comes before one with a smaller
    natural key. *)
Theorem line_search_outcome (query mode : string) (search_id : Z) :
  let run := run_of (LineSearchWorker_run query mode search_id) in
  let key := λ line, _natural_sort_key (LineAtStop.line_name line) in
  calls (snd run) = [lines_request query mode] ∧
  match net 0 (lines_request query mode) with
  | NetFail =>
      fst run = Ok () ∧
      events (snd run) = [ErrorSig "Erreur recherche: " RequestException;
                          LineSearchFinished [] search_id]
  | NetJson data =>
      ∀ lines id, LineSearchFinished lines id ∈ events (snd run) →
        id = search_id ∧
        events (snd run) = [LineSearchFinished lines search_id] ∧
        ∃ records decoded,
          records_of data = Ok records ∧
          Forall2 (λ record line, line_of_record record = Ok line) records decoded ∧
          lines ≡ₚ decoded ∧
          Forall (λ line, LineAtStop.route_id line
                          = "IDFM:" +:+ py_str (LineAtStop.line_id line)) lines ∧
          StronglySorted
            (λ a b, ∃ ka kb, key a = Ok ka ∧ key b = Ok kb ∧ key_lt kb ka = Ok false) lines
  end.
Proof.
  cbv zeta. rewrite LineSearchWorker_run_eq. cbv zeta.
  destruct (net 0%nat _) as [|data]; [repeat split|].
  destruct (records_of data) as [records|e]; cbn; [|split; [reflexivity|]; intros ? ? H; inversion H].
  destruct (map_res line_of_record records) as [decoded|e] eqn:Hdec; cbn;
    [|split; [reflexivity|]; intros ? ? H; inversion H].
  destruct (sort_with_key _ key_lt decoded) as [sorted|e] eqn:Hsort; cbn;
    [|split; [reflexivity|]; intros ? ? H; inversion H].
  split; [reflexivity|]. intros lines id H.
  apply list_elem_of_singleton in H. injection H as -> ->. split; [reflexivity|].
  split; [reflexivity|].
  apply map_res_Forall2 in Hdec.
  apply (sort_with_key_inv key_lt key_lt_asym key_lt_trans) in Hsort as [Hperm Hsorted].
  exists records, decoded. split; [reflexivity|]. split; [exact Hdec|].
  split; [exact Hperm|]. split; [|exact Hsorted].
  rewrite Hperm. clear -Hdec. induction Hdec as [|r l rs ls Hr _ IH]; constructor;
    [eapply line_of_record_route, Hr | exact IH].
Qed.

(** X11. [StopsOnLineWorker.run] makes one request.  If it fails, the run
    reports one error and emits the empty list.  If it is answered,
    whatever list the run emits holds no two stops of the same name and no
    stop without a name; every stop of it comes from a record of the
    payload, every named record has its stop in it, and no stop comes
    before one with a smaller name. *)
Theorem stops_on_line_outcome (route_id : string) :
  let run := run_of (StopsOnLineWorker_run route_id) in
  calls (snd run) = [stops_request route_id] ∧
  match net 0 (stops_request route_id) with
  | NetFail =>
      fst run = Ok () ∧
      events (snd run) = [ErrorSig "Erreur arrets: " RequestException;
                          StopsOnLineFinished []]
  | NetJson data =>
      ∀ stops, StopsOnLineFinished stops ∈ events (snd run) →
        ∃ records,
          records_of data = Ok records ∧
          distinct_names stops ∧
          Forall (λ s, Py.truthy (StopOnLine.stop_name s) = true) stops ∧
          (∀ s, s ∈ stops → ∃ record, record ∈ records ∧ stop_of_record record s) ∧
          (∀ record name, record ∈ records →
             Py.get record "stop_name" (VStr "") = Ok name → Py.truthy name = true →
             ∃ s, s ∈ stops ∧ Py.eqb (StopOnLine.stop_name s) name = true) ∧
          StronglySorted
            (λ a b, value_lt (StopOnLine.stop_name b) (StopOnLine.stop_name a) = Ok false)
            stops
  end.
Proof.
  cbv zeta. rewrite StopsOnLineWorker_run_eq. cbv zeta.
  destruct (net 0%nat _) as [|data]; [repeat split|].
  destruct (records_of data) as [records|e]; cbn; [|split; [reflexivity|]; intros ? H; inversion H].
  destruct (stops_of_records [] records) as [found|e] eqn:Hfound; cbn;
    [|split; [reflexivity|]; intros ? H; inversion H].
  destruct (sort_with_key _ value_lt found) as [sorted|e] eqn:Hsort; cbn;
    [|split; [reflexivity|]; intros ? H; inversion H].
  split; [reflexivity|]. intros stops H.
  apply list_elem_of_singleton in H. injection H as ->.
  apply (sort_with_key_inv value_lt value_lt_asym value_lt_trans) in Hsort as [Hperm Hsorted].
  apply stops_of_records_inv in Hfound as (Hd & Ht & Hfrom & _ & Hall);
    [|constructor|constructor].
  exists records. split; [reflexivity|]. split; [|split; [|split; [|split]]].
  - apply (StronglySorted_symmetric_perm _ found); [|symmetry; exact Hperm | exact Hd].
    intros x y Hxy. rewrite py_eqb_sym. exact Hxy.
  - rewrite Hperm. exact Ht.
  - intros s Hs. rewrite Hperm in Hs. destruct (Hfrom s Hs) as [Hnil | Hrec]; [inversion Hnil|].
    exact Hrec.
  - intros record name Hrec Hname Htruthy.
    destruct (Hall record name Hrec Hname Htruthy) as [s [Hs Heq]].
    exists s. split; [rewrite Hperm; exact Hs | exact Heq].
  - eapply StronglySorted_mono; [|exact Hsorted].
    intros a b (ka & kb & Ha & Hb & Hlt). injection Ha as <-. injection Hb as <-. exact Hlt.
Qed.

End Found.

(** ** [_natural_sort_key] on ASCII text *)

Lemma split_digits_chunked (s : string) : chunked (Sample.split_digits s) = true.
Proof.
  induction s as [|c s IH]; [reflexivity|]. cbn [Sample.split_digits].
  destruct (Sample.split_digits s) as [|t [|d rest]] eqn:Hs; [discriminate IH| |].
  - cbn [chunked] in IH. destruct (Sample.is_digit c) eqn:Hc.
    + assert (Hr : match t :: [] with
                   | EmptyString :: d :: rest =>
                       if Sample.isdigit d then EmptyString :: String c d :: rest
                       else EmptyString :: String c EmptyString :: [t]
                   | _ => EmptyString :: String c EmptyString :: [t]
                   end = [EmptyString; String c EmptyString; t])
        by (destruct t; reflexivity).
      rewrite Hr. cbn [chunked no_digit andb]. rewrite IH, andb_true_r.
      unfold Sample.isdigit. cbn. rewrite Hc. reflexivity.
    + cbn [chunked no_digit]. rewrite Hc, IH. reflexivity.
  - cbn [chunked] in IH. apply andb_true_iff in IH as [IH Hrest].
    apply andb_true_iff in IH as [Ht Hd].
    destruct (Sample.is_digit c) eqn:Hc.
    + destruct t as [|x t].
      * rewrite Hd. cbn [chunked no_digit]. rewrite Hrest, andb_true_r. cbn [andb].
        unfold Sample.isdigit in *. cbn. rewrite Hc. cbn.
        apply andb_true_iff in Hd as [_ Hd]. exact Hd.
      * cbn [chunked no_digit]. cbn [chunked no_digit] in Ht. rewrite Ht, Hd, Hrest.
        unfold Sample.isdigit. cbn. rewrite Hc. reflexivity.
    + cbn [chunked no_digit]. rewrite Hc, Ht, Hd, Hrest. reflexivity.
Qed.

Lemma no_digit_isdigit (t : string) : no_digit t = true → Sample.isdigit t = false.
Proof.
  destruct t as [|c t]; [reflexivity|]. cbn. intros H.
  apply andb_true_iff in H as [Hc _]. apply negb_true_iff in Hc. rewrite Hc. reflexivity.
Qed.

Lemma natural_key_alternating (text : string) :
  ∃ key, _natural_sort_key (lib := Sample.library) (VStr text) = Ok key ∧
         alternating key = true.
Proof.
  unfold _natural_sort_key. cbn [re_split_digits str_isdigit py_int str_lower Sample.library].
  set (f := λ c : string, _).
  assert (Hft : ∀ t, no_digit t = true → f t = Ok (KStr (Str.ascii_lower t)))
    by (intros t Ht; unfold f; rewrite (no_digit_isdigit _ Ht); reflexivity).
  assert (Hfd : ∀ d, Sample.isdigit d = true → f d = Ok (KInt (Sample.decimal 0 d)))
    by (intros d Hd; unfold f, Sample.int; rewrite Hd; reflexivity).
  pose proof (split_digits_chunked text) as H. revert H.
  generalize (Sample.split_digits text) as chunks.
  induction chunks as [chunks IH] using (induction_ltof1 _ (@length string)).
  unfold ltof in IH. destruct chunks as [|t [|d rest]]; [discriminate| |].
  - cbn [chunked]. intros Ht. cbn [map_res]. rewrite (Hft _ Ht).
    eexists. split; reflexivity.
  - cbn [chunked]. intros H. apply andb_true_iff in H as [H Hrest].
    apply andb_true_iff in H as [Ht Hd].
    destruct (IH rest) as [key [Hkey Halt]]; [simpl; lia | exact Hrest|].
    cbn [map_res]. rewrite (Hft _ Ht), (Hfd _ Hd), Hkey.
    eexists. split; [reflexivity | exact Halt].
Qed.

Lemma key_lt_alternating (a b : list key_part) :
  alternating a = true → alternating b = true → ∃ r, key_lt a b = Ok r.
Proof.
  revert b. induction a as [a IH] using (induction_ltof1 _ (@length key_part)).
  unfold ltof in IH. intros b Ha Hb.
  destruct a as [|[m|s] [|[m'|s'] a]]; try discriminate Ha;
    destruct b as [|[n|t] [|[n'|t'] b]]; try discriminate Hb; cbn.
  - destruct (String.eqb s t); eauto.
  - destruct (String.eqb s t); eauto.
  - destruct (String.eqb s t); eauto.
  - destruct (String.eqb s t); [|eauto]. destruct (m' =? n'); [|eauto].
    apply IH; [simpl; lia | exact Ha | exact Hb].
Qed.

Lemma split_digits_number (s : string) :
  Sample.isdigit s = true → Sample.split_digits s = [""; s; ""].
Proof.
  unfold Sample.isdigit. induction s as [|c s IH]; [discriminate|].
  cbn. intros H. apply andb_true_iff in H as [Hc Hs]. rewrite Hc.
  destruct s as [|d s]; [reflexivity|].
  rewrite IH by exact Hs. cbn [Sample.isdigit Str.is_empty negb andb]. 
  unfold Sample.isdigit. cbn [Str.is_empty negb andb]. rewrite Hs. reflexivity.
Qed.

(** X12. On ASCII text the keys of two labels always compare: the key of a
    label is text and numbers in turn, so a number never meets text.  Two
    labels made of digits only compare as the numbers they write, "2"
    before "10". *)
Theorem natural_order_of_text (a b : string) :
  is_ascii a = true → is_ascii b = true →
  let key := λ text, _natural_sort_key (lib := Sample.library) (VStr text) in
  (∃ ka kb r, key a = Ok ka ∧ key b = Ok kb ∧ key_lt ka kb = Ok r) ∧
  (Sample.isdigit a = true → Sample.isdigit b = true →
     ∃ ka kb, key a = Ok ka ∧ key b = Ok kb ∧
       key_lt ka kb = Ok (Sample.decimal 0 a <? Sample.decimal 0 b)).
Proof.
  intros _ _ key. subst key. split.
  - destruct (natural_key_alternating a) as [ka [Ha Haa]].
    destruct (natural_key_alternating b) as [kb [Hb Hbb]].
    destruct (key_lt_alternating ka kb Haa Hbb) as [r Hr].
    exists ka, kb, r. repeat split; assumption.
  - intros Ha Hb. unfold _natural_sort_key.
    cbn [re_split_digits str_isdigit py_int str_lower Sample.library].
    rewrite (split_digits_number a Ha), (split_digits_number b Hb).
    cbn [map_res]. unfold Sample.int. rewrite Ha, Hb. cbn.
    eexists _, _. split; [reflexivity|]. split; [reflexivity|]. cbn.
    destruct (Z.eqb_spec (Sample.decimal 0 a) (Sample.decimal 0 b)) as [-> | Hne];
      [rewrite Z.ltb_irrefl|]; reflexivity.
Qed.

(** The searches of [test_app.py], on catalog payloads. *)
Lemma line_search_outcome_witness :
  let nw := Sample.scripted [NetJson Sample.lines_response] in
  let run := run_of (LineSearchWorker_run (lib := Sample.library) (nw := nw) "2" "bus" 7) in
  let key := λ line, _natural_sort_key (lib := Sample.library) (LineAtStop.line_name line) in
  let line := λ name, LineAtStop.mk (VStr "C02000") (VStr name) (VStr "") (VStr "FFFFFF")
                        (VStr "000000") "IDFM:C02000" in
  let lines := [line "2"; line "10"; line "T1"] in
  7 = 7 ∧
  events (snd run) = [LineSearchFinished lines 7] ∧
  ∃ records decoded,
    records_of Sample.lines_response = Ok records ∧
    Forall2 (λ record line, line_of_record (lib := Sample.library) record = Ok line)
            records decoded ∧
    lines ≡ₚ decoded ∧
    Forall (λ line, LineAtStop.route_id line
                    = "IDFM:" +:+ py_str (lib := Sample.library) (LineAtStop.line_id line))
           lines ∧
    StronglySorted
      (λ a b, ∃ ka kb, key a = Ok ka ∧ key b = Ok kb ∧ key_lt kb ka = Ok false) lines.
Proof.
  intros nw run key line lines.
  pose proof (line_search_outcome (lib := Sample.library) (nw := nw) "2" "bus" 7) as [_ H].
  cbn [net nw Sample.scripted nth] in H.
  apply (H lines 7). vm_compute. apply elem_of_cons. left. reflexivity.
Defined.

Lemma stops_on_line_outcome_witness :
  let nw := Sample.scripted [NetJson Sample.stops_response] in
  let stops := [StopOnLine.mk (VStr "Chatou") (VStr "IDFM:2");
                StopOnLine.mk (VStr "Nanterre") (VStr "IDFM:1")] in
  ∃ records,
    records_of Sample.stops_response = Ok records ∧
    distinct_names stops ∧
    Forall (λ s, Py.truthy (StopOnLine.stop_name s) = true) stops ∧
    (∀ s, s ∈ stops → ∃ record, record ∈ records ∧ stop_of_record record s) ∧
    (∀ record name, record ∈ records →
       Py.get record "stop_name" (VStr "") = Ok name → Py.truthy name = true →
       ∃ s, s ∈ stops ∧ Py.eqb (StopOnLine.stop_name s) name = true) ∧
    StronglySorted
      (λ a b, value_lt (StopOnLine.stop_name b) (StopOnLine.stop_name a) = Ok false) stops.
Proof.
  intros nw stops.
  pose proof (stops_on_line_outcome (nw := nw) "IDFM:C02000") as [_ H].
  cbn [net nw Sample.scripted nth] in H.
  apply H. vm_compute. apply elem_of_cons. left. reflexivity.
Defined.

Lemma natural_order_of_text_witness :
  let key := λ text, _natural_sort_key (lib := Sample.library) (VStr text) in
  (∃ ka kb r, key "T3a" = Ok ka ∧ key "10" = Ok kb ∧ key_lt ka kb = Ok r) ∧
  ∃ ka kb, key "2" = Ok ka ∧ key "10" = Ok kb ∧ key_lt ka kb = Ok true.
Proof.
  split.
  - apply (natural_order_of_text "T3a" "10"); reflexivity.
  - apply (natural_order_of_text "2" "10"); reflexivity.
Defined.

(** ** The WiFi workers *)

Section WiFiFound.
Context {lib : Library} {sys : System}.

Lemma scan_line_inv (networks out : list WiFi.t) (line : string) :
  scan_line networks line = Ok out →
  out = networks ∨
  ∃ n, out = networks ++ [n] ∧ network_of_line line n ∧
       WiFi.ssid n ≠ "" ∧ WiFi.ssid n ∉ map WiFi.ssid networks.
Proof.
  unfold scan_line.
  destruct (Str.split ":" line) as [|p0 [|p1 [|p2 [|p3 rest]]]] eqn:Hsplit;
    try (intros H; injection H as <-; left; reflexivity).
  cbv zeta. destruct (Str.is_empty (str_strip p1)) eqn:Hempty; cbn [orb];
    [intros H; injection H as <-; left; reflexivity|].
  destruct (existsb _ networks) eqn:Hseen; [intros H; injection H as <-; left; reflexivity|].
  assert (Hnew : str_strip p1 ∉ map WiFi.ssid networks).
  { intros Hin. apply list_elem_of_fmap in Hin as [n [Hn Hin]].
    assert (Hex : existsb (λ n, String.eqb (WiFi.ssid n) (str_strip p1)) networks = true).
    { apply existsb_exists. exists n. split; [apply list_elem_of_In, Hin|].
      apply String.eqb_eq. symmetry. exact Hn. }
    congruence. }
  assert (Hne : str_strip p1 ≠ "") by (intros H; rewrite H in Hempty; discriminate Hempty).
  destruct (str_isdigit p2) eqn:Hdigit.
  - destruct (py_int p2) as [signal|] eqn:Hint; cbn; [|discriminate].
    intros H. injection H as <-. right. eexists. split; [reflexivity|].
    split; [|split; assumption].
    exists p0, p1, p2, p3, rest. rewrite Hdigit. cbn.
    split; [exact Hsplit|]. repeat split. exact Hint.
  - cbn. intros H. injection H as <-. right. eexists. split; [reflexivity|].
    split; [|split; assumption].
    exists p0, p1, p2, p3, rest. rewrite Hdigit. cbn.
    split; [exact Hsplit|]. repeat split.
Qed.

Lemma scan_lines_inv (lines : list string) (networks out : list WiFi.t) :
  scan_lines networks lines = Ok out →
  NoDup (map WiFi.ssid networks) →
  NoDup (map WiFi.ssid out) ∧
  ∀ n, n ∈ out → n ∈ networks ∨
    ∃ line, line ∈ lines ∧ network_of_line line n ∧ WiFi.ssid n ≠ "".
Proof.
  revert networks. induction lines as [|line lines IH]; intros networks; cbn [scan_lines].
  - intros H Hnd. injection H as <-. split; [exact Hnd | intros n Hn; left; exact Hn].
  - destruct (scan_line networks line) as [networks'|e] eqn:Hline; cbn; [|discriminate].
    intros H Hnd. apply scan_line_inv in Hline as [-> | [n [-> [Hn [Hne Hnew]]]]].
    + destruct (IH _ H Hnd) as [Hnd' Hfrom]. split; [exact Hnd'|].
      intros n Hn. destruct (Hfrom n Hn) as [Hin | [l [Hl Hrest]]]; [left; exact Hin|].
      right. exists l. split; [apply elem_of_cons; right; exact Hl | exact Hrest].
    + assert (Hnd1 : NoDup (map WiFi.ssid (networks ++ [n]))).
      { rewrite map_app. apply NoDup_app. split; [exact Hnd|]. split; [|apply NoDup_singleton].
        intros x Hx Hx'. apply list_elem_of_singleton in Hx' as ->. exact (Hnew Hx). }
      destruct (IH _ H Hnd1) as [Hnd' Hfrom]. split; [exact Hnd'|].
      intros m Hm. destruct (Hfrom m Hm) as [Hin | [l [Hl Hrest]]].
      * apply elem_of_app in Hin as [Hin | Hin]; [left; exact Hin|].
        apply list_elem_of_singleton in Hin as ->. right. exists line.
        split; [apply elem_of_cons; left; reflexivity|]. split; assumption.
      * right. exists l. split; [apply elem_of_cons; right; exact Hl | exact Hrest].
Qed.

Lemma pair_leb_total (a b : Z * Z) : pair_leb a b = true ∨ pair_leb b a = true.
Proof.
  unfold pair_leb.
  destruct (Z.ltb_spec (fst a) (fst b)), (Z.ltb_spec (fst b) (fst a)),
    (Z.eqb_spec (fst a) (fst b)), (Z.eqb_spec (fst b) (fst a)),
    (Z.leb_spec (snd a) (snd b)), (Z.leb_spec (snd b) (snd a)); cbn; auto; lia.
Qed.

Lemma pair_leb_trans (a b c : Z * Z) :
  pair_leb a b = true → pair_leb b c = true → pair_leb a c = true.
Proof.
  unfold pair_leb.
  destruct (Z.ltb_spec (fst a) (fst b)), (Z.ltb_spec (fst b) (fst c)),
    (Z.ltb_spec (fst a) (fst c)),
    (Z.eqb_spec (fst a) (fst b)), (Z.eqb_spec (fst b) (fst c)), (Z.eqb_spec (fst a) (fst c)),
    (Z.leb_spec (snd a) (snd b)), (Z.leb_spec (snd b) (snd c)), (Z.leb_spec (snd a) (snd c));
    cbn; auto; lia.
Qed.

Lemma scan_key_listed (a b : WiFi.t) :
  pair_leb (scan_key a) (scan_key b) = true → listed_before a b.
Proof.
  unfold pair_leb, scan_key, listed_before. cbn [fst snd]. intros Hle.
  destruct (WiFi.in_use a), (WiFi.in_use b); cbn in Hle;
    try discriminate Hle; try apply Z.leb_le in Hle;
    split; intros; try congruence; lia.
Qed.

(** X13. [WiFiScanWorker.run] emits one placeholder network when [nmcli] is
    not installed, and the empty list when it times out or cannot be run.
    When the process completes, whatever list the run emits holds no two
    networks of the same name and none without a name; every network of it
    comes from a line of the output with four fields at least; and the
    networks in use come first, the stronger signal first among those in
    use and among the others. *)
Theorem wifi_scan_outcome :
  match subprocess_run scan_command with
  | FileNotFoundError =>
      WiFiScanWorker_run = Ok [WiFi.mk "WiFi non disponible" 0 "" false]
  | TimeoutExpired | OSError _ => WiFiScanWorker_run = Ok []
  | Completed _ stdout _ =>
      ∀ networks, WiFiScanWorker_run = Ok networks →
        NoDup (map WiFi.ssid networks) ∧
        (∀ n, n ∈ networks →
           WiFi.ssid n ≠ "" ∧
           ∃ line, line ∈ str_splitlines (str_strip stdout) ∧ network_of_line line n) ∧
        StronglySorted listed_before networks
  end.
Proof.
  unfold WiFiScanWorker_run.
  destruct (subprocess_run scan_command) as [| |message|returncode stdout stderr];
    try reflexivity.
  intros networks.
  destruct (scan_lines [] _) as [found|e] eqn:Hscan; cbn; [|discriminate].
  intros H. injection H as <-.
  apply scan_lines_inv in Hscan as [Hnd Hfrom]; [|constructor].
  set (le := λ a b, pair_leb (scan_key a) (scan_key b)).
  pose proof (sort_by_perm le found) as Hperm.
  split; [|split].
  - rewrite Hperm. exact Hnd.
  - intros n Hn. rewrite Hperm in Hn.
    destruct (Hfrom n Hn) as [Hnil | [line [Hline [Hnet Hne]]]]; [inversion Hnil|].
    split; [exact Hne|]. exists line. split; assumption.
  - eapply StronglySorted_mono; [|apply (sort_by_sorted le)].
    + intros a b. apply scan_key_listed.
    + intros x y. apply pair_leb_total.
    + intros x y z. apply pair_leb_trans.
Qed.

(** X14. [WiFiConnectWorker.run] reports success exactly when the process
    completes with exit status [0].  The message it emits for a completed
    process is never empty, and after a failure it is what the process
    wrote to its error stream, stripped, whenever that is not empty. *)
Theorem wifi_connect_outcome (ssid password : string) :
  let p := subprocess_run (connect_command ssid password) in
  let run := WiFiConnectWorker_run ssid password in
  (fst run = true ↔ ∃ stdout stderr, p = Completed 0 stdout stderr) ∧
  (∀ returncode stdout stderr, p = Completed returncode stdout stderr →
     snd run ≠ "" ∧
     (returncode ≠ 0 → str_strip stderr ≠ "" → snd run = str_strip stderr)).
Proof.
  cbv zeta. unfold WiFiConnectWorker_run.
  generalize (subprocess_run (connect_command ssid password)) as p. intros p.
  split.
  - destruct p as [| |message|returncode stdout stderr]; cbn;
      try (split; [discriminate | intros [? [? H]]; discriminate H]).
    destruct (Z.eqb_spec returncode 0) as [-> | Hne]; cbn.
    + split; [eauto | reflexivity].
    + split; [discriminate | intros [? [? H]]; injection H as -> _ _; contradiction].
  - intros returncode stdout stderr ->. cbn.
    destruct (Z.eqb_spec returncode 0) as [-> | Hne]; cbn.
    + split; [discriminate | intros H; contradiction].
    + destruct (str_strip stderr) as [|c s] eqn:Herr; cbn.
      * destruct (str_strip stdout) as [|c s]; cbn; split; try discriminate;
          intros _ H; contradiction.
      * split; [discriminate | reflexivity].
Qed.

End WiFiFound.

(** ** [normalize] on ASCII text *)


Lemma lower_char_separator (c : ascii) :
  is_separator (Str.ascii_lower_char c) = is_separator c.
Proof. destruct c as [[] [] [] [] [] [] [] []]; reflexivity. Qed.

Lemma lower_char_isspace (c : ascii) :
  Str.ascii_isspace (Str.ascii_lower_char c) = Str.ascii_isspace c.
Proof. destruct c as [[] [] [] [] [] [] [] []]; reflexivity. Qed.

Lemma lower_char_idem (c : ascii) :
  Str.ascii_lower_char (Str.ascii_lower_char c) = Str.ascii_lower_char c.
Proof. destruct c as [[] [] [] [] [] [] [] []]; reflexivity. Qed.

Lemma isspace_separator (c : ascii) : Str.ascii_isspace c = true → is_separator c = true.
Proof. destruct c as [[] [] [] [] [] [] [] []]; vm_compute; congruence. Qed.

Lemma lower_idem (s : string) : Str.ascii_lower (Str.ascii_lower s) = Str.ascii_lower s.
Proof. induction s as [|c s IH]; simpl; [reflexivity|]. rewrite lower_char_idem, IH. reflexivity. Qed.

Lemma sub_lower (b : bool) (s : string) :
  ascii_sub_separators b (Str.ascii_lower s) = Str.ascii_lower (ascii_sub_separators b s).
Proof.
  revert b. induction s as [|c s IH]; intros b; simpl; [reflexivity|].
  rewrite lower_char_separator. destruct (is_separator c); [destruct b|]; simpl;
    rewrite IH; reflexivity.
Qed.

Lemma lstrip_lower (s : string) : Str.lstrip (Str.ascii_lower s) = Str.ascii_lower (Str.lstrip s).
Proof.
  induction s as [|c s IH]; simpl; [reflexivity|].
  rewrite lower_char_isspace. destruct (Str.ascii_isspace c); [exact IH | reflexivity].
Qed.

Lemma rstrip_lower (s : string) : Str.rstrip (Str.ascii_lower s) = Str.ascii_lower (Str.rstrip s).
Proof.
  induction s as [|c s IH]; simpl; [reflexivity|].
  rewrite IH, lower_char_isspace. destruct (Str.rstrip s); simpl; [|reflexivity].
  destruct (Str.ascii_isspace c); reflexivity.
Qed.

Lemma strip_lower (s : string) :
  Str.ascii_strip (Str.ascii_lower s) = Str.ascii_lower (Str.ascii_strip s).
Proof. unfold Str.ascii_strip. rewrite lstrip_lower, rstrip_lower. reflexivity. Qed.

Lemma rstrip_idem (s : string) : Str.rstrip (Str.rstrip s) = Str.rstrip s.
Proof.
  induction s as [|c s IH]; simpl; [reflexivity|].
  destruct (Str.rstrip s) as [|d r] eqn:Hr.
  - destruct (Str.ascii_isspace c) eqn:Hc; simpl; [reflexivity|]. rewrite Hc. reflexivity.
  - change (match Str.rstrip (String d r) with
            | EmptyString => if Str.ascii_isspace c then EmptyString else String c EmptyString
            | String _ _ as t => String c t
            end = String c (String d r)).
    rewrite IH. reflexivity.
Qed.

Lemma lstrip_head (s : string) : head_kept (Str.lstrip s) = true.
Proof.
  induction s as [|c s IH]; simpl; [reflexivity|].
  destruct (Str.ascii_isspace c) eqn:Hc; [exact IH | simpl; rewrite Hc; reflexivity].
Qed.

Lemma lstrip_kept (s : string) : head_kept s = true → Str.lstrip s = s.
Proof. destruct s as [|c s]; simpl; [reflexivity|]. destruct (Str.ascii_isspace c); [discriminate | reflexivity]. Qed.

Lemma rstrip_head (s : string) : head_kept s = true → head_kept (Str.rstrip s) = true.
Proof.
  destruct s as [|c s]; simpl; [reflexivity|].
  destruct (Str.ascii_isspace c) eqn:Hsp; [discriminate|]. intros _.
  destruct (Str.rstrip s); simpl; rewrite Hsp; reflexivity.
Qed.

Lemma strip_idem (s : string) : Str.ascii_strip (Str.ascii_strip s) = Str.ascii_strip s.
Proof.
  unfold Str.ascii_strip.
  rewrite (lstrip_kept (Str.rstrip (Str.lstrip s))) by apply rstrip_head, lstrip_head.
  apply rstrip_idem.
Qed.

Lemma collapsed_weaken (b : bool) (s : string) : collapsed b s = true → collapsed false s = true.
Proof.
  destruct s as [|c s]; simpl; [reflexivity|].
  destruct (is_separator c); [|intros H; exact H].
  rewrite !andb_true_iff. intros [[Hc _] Hs]. auto.
Qed.

Lemma sub_collapsed (b : bool) (s : string) : collapsed b (ascii_sub_separators b s) = true.
Proof.
  revert b. induction s as [|c s IH]; intros b; simpl; [reflexivity|].
  destruct (is_separator c) eqn:Hc.
  - destruct b; [apply IH|]. simpl. apply IH.
  - simpl. rewrite Hc. apply IH.
Qed.

Lemma collapsed_sub (b : bool) (s : string) :
  collapsed b s = true → ascii_sub_separators b s = s.
Proof.
  revert b. induction s as [|c s IH]; intros b; simpl; [reflexivity|].
  destruct (is_separator c).
  - rewrite !andb_true_iff. intros [[Hc Hb] Hs].
    apply Ascii.eqb_eq in Hc as ->. destruct b; [discriminate Hb|].
    rewrite (IH true Hs). reflexivity.
  - intros Hs. rewrite (IH false Hs). reflexivity.
Qed.

Lemma lstrip_collapsed (s : string) : collapsed false s = true → collapsed false (Str.lstrip s) = true.
Proof.
  induction s as [|c s IH]; [reflexivity|]. intros H. cbn [Str.lstrip].
  destruct (Str.ascii_isspace c) eqn:Hc; [|exact H].
  apply IH. simpl in H. rewrite (isspace_separator c Hc) in H.
  apply andb_true_iff in H as [_ H]. apply (collapsed_weaken true), H.
Qed.

Lemma rstrip_collapsed (b : bool) (s : string) :
  collapsed b s = true → collapsed b (Str.rstrip s) = true.
Proof.
  revert b. induction s as [|c s IH]; intros b; [reflexivity|]. cbn [Str.rstrip collapsed].
  destruct (is_separator c) eqn:Hsep.
  - rewrite !andb_true_iff. intros [[Hc Hb] Hs]. specialize (IH true Hs).
    destruct (Str.rstrip s) as [|d r].
    + destruct (Str.ascii_isspace c); [reflexivity|]. simpl. rewrite Hsep, Hc, Hb. reflexivity.
    + cbn [collapsed]. rewrite Hsep, Hc, Hb. exact IH.
  - intros Hs. specialize (IH false Hs).
    destruct (Str.rstrip s) as [|d r].
    + destruct (Str.ascii_isspace c); [reflexivity|]. simpl. rewrite Hsep. reflexivity.
    + cbn [collapsed]. rewrite Hsep. exact IH.
Qed.

(** X15. On ASCII text [normalize] is idempotent: a normalized name is
    its own normal form. *)
Theorem normalize_idempotent (text : string) :
  is_ascii text = true →
  normalize (lib := Sample.library) (normalize (lib := Sample.library) text) =
  normalize (lib := Sample.library) text.
Proof.
  intros _. unfold normalize. cbn [str_lower str_strip unicodedata_nfd drop_marks
    re_sub_separators Sample.library]. unfold Sample.normalize_sub.
  rewrite sub_lower, strip_lower, lower_idem. f_equal.
  set (t := ascii_sub_separators false text).
  assert (Hc : collapsed false (Str.ascii_strip t) = true).
  { unfold Str.ascii_strip. apply rstrip_collapsed, lstrip_collapsed. apply sub_collapsed. }
  rewrite (collapsed_sub false _ Hc). apply strip_idem.
Qed.


(** ** The persistence of favourites and settings *)

Lemma new_Favourite_raises (item : value) (e : exn) :
  new_Favourite item = Raise e → e = TypeError.
Proof.
  unfold new_Favourite. destruct item as [| | | | | |kw]; try congruence.
  destruct (forallb _ kw); [|congruence].
  destruct (Py.dict_lookup "stop_area_id" kw), (Py.dict_lookup "stop_name" kw),
    (Py.dict_lookup "line_id" kw), (Py.dict_lookup "line_name" kw); congruence.
Qed.

(** X16. [load_favourites] returns the empty list when the file is absent
    or its text is not JSON.  When opening, reading or decoding the file
    raises another exception (a file that is not UTF-8, say), it returns
    the empty list for a [TypeError] or a [KeyError] and raises that
    exception otherwise.  On a document it never raises: it returns the
    empty list, or else one favourite for every item of the document,
    built from that item; one item that is not an object with the four
    required fields and no unknown one costs all the favourites of the
    file. *)
Theorem load_favourites_all_or_nothing (f : file) :
  match f with
  | Absent | NotJson => load_favourites f = Ok []
  | Fails e =>
      load_favourites f = match e with
                          | TypeError | KeyError => Ok []
                          | _ => Raise e
                          end
  | Json data =>
      (∃ favourites, load_favourites f = Ok favourites ∧
         (favourites = [] ∨
          ∃ items, Py.iter data = Ok items ∧
            Forall2 (λ item fav, new_Favourite item = Ok fav) items favourites)) ∧
      (∀ items item,
         Py.iter data = Ok items → item ∈ items →
         (∀ fav, new_Favourite item ≠ Ok fav) →
         load_favourites f = Ok [])
  end.
Proof.
  destruct f as [|e| |data]; [reflexivity | destruct e; reflexivity | reflexivity |].
  unfold load_favourites. split.
  - destruct (Py.iter data) as [items|e] eqn:Hiter; cbn.
    + destruct (map_res new_Favourite items) as [favs|e] eqn:Hmap.
      * exists favs. split; [reflexivity|]. right. exists items.
        split; [reflexivity | apply map_res_Forall2, Hmap].
      * apply map_res_raises in Hmap as [item [_ H]]. apply new_Favourite_raises in H as ->.
        exists []. split; [reflexivity | left; reflexivity].
    + exists []. split; [|left; reflexivity].
      destruct data; try discriminate Hiter; injection Hiter as <-; reflexivity.
  - intros items item Hiter Hin Hbad. rewrite Hiter. cbn.
    destruct (map_res new_Favourite items) as [favs|e] eqn:Hmap.
    + exfalso. apply map_res_Forall2 in Hmap.
      apply list_elem_of_lookup in Hin as [i Hi].
      destruct (Forall2_lookup_l _ _ _ _ _ Hmap Hi) as [fav [_ Hfav]].
      exact (Hbad fav Hfav).
    + apply map_res_raises in Hmap as [x [_ H]]. apply new_Favourite_raises in H as ->.
      reflexivity.
Qed.

(** X17. What [save_favourites] writes, [load_favourites] reads back:
    the same favourites, in the same order, field by field. *)
Theorem favourites_round_trip (favourites : list Favourite.t) :
  load_favourites (save_favourites favourites) = Ok (map loaded favourites).
Proof.
  unfold load_favourites, save_favourites. cbn.
  assert (H : map_res new_Favourite (map asdict favourites) = Ok (map loaded favourites)).
  { induction favourites as [|fav favs IH]; [reflexivity|].
    cbn [map map_res]. rewrite IH. destruct fav. reflexivity. }
  rewrite H. reflexivity.
Qed.

Lemma keyword_filter (kw : list (string * value)) (k : string) (d : value) :
  k ∈ settings_fields →
  keyword (List.filter (λ kv, bool_decide (fst kv ∈ settings_fields)) kw) k d = keyword kw k d.
Proof.
  intros Hk. unfold keyword. f_equal.
  induction kw as [|[k' v] kw IH]; [reflexivity|]. cbn [List.filter fst].
  destruct (String.eqb k k') eqn:Hkk.
  - apply String.eqb_eq in Hkk as <-. rewrite bool_decide_eq_true_2 by exact Hk.
    cbn. rewrite String.eqb_refl. reflexivity.
  - destruct (bool_decide (k' ∈ settings_fields)); cbn; rewrite Hkk; exact IH.
Qed.

(** X18. [load_settings] returns the defaults when the file is absent or
    its text is not JSON.  When opening, reading or decoding the file
    raises another exception (a file that is not UTF-8, say), it returns
    the defaults for a [TypeError] or a [KeyError] and raises that
    exception otherwise.  From an object it takes the theme and the delay,
    each replaced by its default when absent, and ignores every other key;
    on a document that is not an object it raises [AttributeError].  What
    [save_settings] writes, it reads back. *)
Theorem load_settings_cases (f : file) :
  match f with
  | Absent | NotJson => load_settings f = Ok (Object.mkAppSettings (VStr "dark") (VInt 10))
  | Fails e =>
      load_settings f = match e with
                        | TypeError | KeyError =>
                            Ok (Object.mkAppSettings (VStr "dark") (VInt 10))
                        | _ => Raise e
                        end
  | Json (VDict d) =>
      load_settings f =
        Ok (Object.mkAppSettings (keyword d "theme" (VStr "dark"))
                                 (keyword d "sleep_delay_minutes" (VInt 10)))
  | Json _ => load_settings f = Raise AttributeError
  end ∧
  ∀ settings,
    load_settings (save_settings settings) =
      Ok (Object.mkAppSettings (VStr (AppSettings.theme settings))
                               (VInt (AppSettings.sleep_delay_minutes settings))).
Proof.
  split; [|reflexivity].
  destruct f as [|e| |data]; [reflexivity | destruct e; reflexivity | reflexivity |].
  destruct data; try reflexivity.
  unfold load_settings, new_AppSettings. cbn.
  rewrite !keyword_filter; [reflexivity | |]; unfold settings_fields.
  - apply elem_of_cons. right. apply elem_of_cons. left. reflexivity.
  - apply elem_of_cons. left. reflexivity.
Qed.

(** ** The favourites of the window *)


Lemma same_favourite_identity (f fav : Favourite.t) :
  same_favourite f fav = true ↔ favourite_identity f = favourite_identity fav.
Proof.
  unfold same_favourite, favourite_identity. rewrite !andb_true_iff, !String.eqb_eq.
  split; [intros [[-> ->] ->]; reflexivity | intros H; injection H as -> -> ->; auto].
Qed.

Lemma existsb_same_favourite (favs : list Favourite.t) (fav : Favourite.t) :
  existsb (λ existing, same_favourite existing fav) favs = true ↔
  favourite_identity fav ∈ map favourite_identity favs.
Proof.
  rewrite existsb_exists, list_elem_of_fmap. split.
  - intros [f [Hf Hs]]. exists f. apply same_favourite_identity in Hs.
    split; [symmetry; exact Hs | apply list_elem_of_In, Hf].
  - intros [f [Hs Hf]]. exists f. split; [apply list_elem_of_In, Hf|].
    apply same_favourite_identity. symmetry. exact Hs.
Qed.

(** X19. [_on_favourite_added] leaves the window as it is when it already
    has a favourite of the same stop area, line and destination; otherwise
    it puts the favourite last and saves the list.  Either way the
    departures received are kept, the window has a favourite of that
    identity afterwards, and it has no two of one identity if it had none
    before. *)
Theorem favourite_added_once (w : window) (fav : Favourite.t) :
  let w' := _on_favourite_added w fav in
  (if bool_decide (favourite_identity fav ∈ map favourite_identity (favourites w)) then w' = w
   else favourites w' = favourites w ++ [fav] ∧
        favourites_file w' = save_favourites (favourites w')) ∧
  departure_map w' = departure_map w ∧
  favourite_identity fav ∈ map favourite_identity (favourites w') ∧
  (NoDup (map favourite_identity (favourites w)) → NoDup (map favourite_identity (favourites w'))).
Proof.
  cbv zeta. unfold _on_favourite_added.
  destruct (existsb _ (favourites w)) eqn:Hex.
  - apply existsb_same_favourite in Hex.
    rewrite bool_decide_eq_true_2 by exact Hex. repeat split; [exact Hex | tauto].
  - assert (Hnot : favourite_identity fav ∉ map favourite_identity (favourites w)).
    { intros H. apply existsb_same_favourite in H. congruence. }
    rewrite bool_decide_eq_false_2 by exact Hnot. cbn [favourites departure_map favourites_file].
    repeat split.
    + rewrite map_app. apply elem_of_app. right. apply list_elem_of_singleton. reflexivity.
    + intros Hnd. rewrite map_app. apply NoDup_app. split; [exact Hnd|]. split.
      * intros x Hx Hx'. apply list_elem_of_singleton in Hx' as ->. exact (Hnot Hx).
      * apply NoDup_singleton.
Qed.

(** X20. [_delete_favourite] removes every favourite of the same stop
    area, line and destination and no other, keeps the order of the rest,
    saves the list, and drops the entry of the favourite's key from the
    departures received.  Deleting a favourite just added to a window that
    had none of its identity gives the list back. *)
Theorem favourite_deleted (w : window) (fav : Favourite.t) :
  let w' := _delete_favourite w fav in
  (∀ f, f ∈ favourites w' ↔ f ∈ favourites w ∧ favourite_identity f ≠ favourite_identity fav) ∧
  favourites w' `sublist_of` favourites w ∧
  favourites_file w' = save_favourites (favourites w') ∧
  departure_map w' = delete (fav_key fav) (departure_map w) ∧
  (favourite_identity fav ∉ map favourite_identity (favourites w) →
     favourites (_delete_favourite (_on_favourite_added w fav) fav) = favourites w).
Proof.
  cbv zeta. unfold _delete_favourite. cbn [favourites departure_map favourites_file].
  assert (Hkeep : ∀ l, favourite_identity fav ∉ map favourite_identity l →
                    List.filter (λ f, negb (same_favourite f fav)) l = l).
  { induction l as [|f l IH]; [reflexivity|]. cbn [map List.filter]. intros H.
    apply not_elem_of_cons in H as [Hf Hl].
    destruct (same_favourite f fav) eqn:Hs.
    - apply same_favourite_identity in Hs. congruence.
    - cbn. rewrite (IH Hl). reflexivity. }
  split; [|split; [|split; [|split]]]; try reflexivity.
  - intros f. rewrite filter_In_elem, negb_true_iff. split.
    + intros [Hf Hs]. split; [exact Hf|]. intros Hid.
      apply same_favourite_identity in Hid. congruence.
    + intros [Hf Hid]. split; [exact Hf|].
      destruct (same_favourite f fav) eqn:Hs; [|reflexivity].
      apply same_favourite_identity in Hs. contradiction.
  - induction (favourites w) as [|f l IH]; [constructor|]. cbn [List.filter].
    destruct (negb (same_favourite f fav)); [apply sublist_skip | apply sublist_cons]; exact IH.
  - intros Hnot. unfold _on_favourite_added.
    destruct (existsb _ (favourites w)) eqn:Hex.
    + apply existsb_same_favourite in Hex. contradiction.
    + cbn [favourites]. rewrite List.filter_app, (Hkeep _ Hnot). cbn [List.filter].
      assert (Hs : same_favourite fav fav = true) by (apply same_favourite_identity; reflexivity).
      rewrite Hs. cbn. apply app_nil_r.
Qed.

(** X21. The file follows the list: if [favourites.json] reads back as the
    favourites of the window, it still does after a favourite is added,
    after one is deleted, and after departures are received. *)
Theorem favourites_file_in_step (w : window) (fav : Favourite.t)
    (dep_map : gmap string (list Departure.t)) :
  load_favourites (favourites_file w) = Ok (map loaded (favourites w)) →
  ∀ w', w' = _on_favourite_added w fav ∨ w' = _delete_favourite w fav ∨
        w' = _on_departures_received w dep_map →
    load_favourites (favourites_file w') = Ok (map loaded (favourites w')).
Proof.
  intros Hw w' [-> | [-> | ->]].
  - unfold _on_favourite_added. destruct (existsb _ (favourites w)); [exact Hw|].
    apply favourites_round_trip.
  - apply favourites_round_trip.
  - exact Hw.
Qed.

(** X22. Deleting a favourite drops the entry of its key, so a favourite
    that stays and is filed under the same key (same stop area, line and
    direction, another destination) is listed with no departure on the
    home screen that is rebuilt. *)
Theorem delete_favourite_clears_shared_key (w : window) (fav other : Favourite.t) :
  other ∈ favourites w →
  favourite_identity other ≠ favourite_identity fav →
  fav_key other = fav_key fav →
  (other, []) ∈ _rebuild_home (_delete_favourite w fav).
Proof.
  intros Hin Hid Hkey. unfold _rebuild_home, populate, _delete_favourite.
  cbn [favourites departure_map]. apply list_elem_of_fmap. exists other. split.
  - rewrite Hkey, lookup_delete_eq. reflexivity.
  - apply filter_In_elem. split; [exact Hin|]. apply negb_true_iff.
    destruct (same_favourite other fav) eqn:Hs; [|reflexivity].
    apply same_favourite_identity in Hs. contradiction.
Qed.

Section Refreshed.
Context {lib : Library} {nw : Network}.

Lemma finished_event (favs : list Favourite.t) (dep_map : gmap string (list Departure.t)) :
  DepartureFinished dep_map ∈ events (snd (run_of (DepartureWorker_run favs))) →
  Forall (λ wr, ∃ r, select (fst wr) (snd wr) = Ok r) (writers favs) ∧
  dep_map = foldl write ∅ (writers favs).
Proof.
  assert (Herr : ∀ errs, Forall (λ ev, is_error ev = true) errs →
                   DepartureFinished dep_map ∉ errs).
  { intros errs Hall Hin. rewrite Forall_forall in Hall. specialize (Hall _ Hin).
    discriminate Hall. }
  destruct (DepartureWorker_run_cases favs)
    as [[errs [Herrs [Hsel Hrun]]] | [e [j [errs [m [_ [_ [Herrs Hrun]]]]]]]];
    rewrite Hrun; cbn [snd events]; intros Hin.
  - apply elem_of_app in Hin as [Hin | Hin]; [contradiction (Herr _ Herrs Hin)|].
    apply list_elem_of_singleton in Hin. injection Hin as ->. split; [exact Hsel | reflexivity].
  - contradiction (Herr _ Herrs Hin).
Qed.

(** X23. After a refresh: when the window receives the mapping of a run on
    its favourites, the group of a favourite on the home screen lists what
    the run stored last under the key of the favourite, and, if the run
    stored nothing under it, what was listed before the refresh. *)
Theorem refreshed_display (w : window) (dep_map : gmap string (list Departure.t))
    (fav : Favourite.t) :
  DepartureFinished dep_map ∈ events (snd (run_of (DepartureWorker_run (favourites w)))) →
  fav ∈ favourites w →
  ∃ departures,
    (fav, departures) ∈ _rebuild_home (_on_departures_received w dep_map) ∧
    match last_writer (fav_key fav) (writers (favourites w)) with
    | Some (g, all_departures) => select g all_departures = Ok departures
    | None => departures = default [] (departure_map w !! fav_key fav)
    end.
Proof.
  intros Hev Hfav. apply finished_event in Hev as [Hsel ->].
  exists (default [] ((foldl write ∅ (writers (favourites w)) ∪ departure_map w) !! fav_key fav)).
  split.
  - unfold _rebuild_home, populate, _on_departures_received. cbn [favourites departure_map].
    apply list_elem_of_fmap. exists fav. split; [reflexivity | exact Hfav].
  - pose proof (foldl_write_lookup (writers (favourites w)) ∅ (fav_key fav) Hsel) as H.
    destruct (last_writer (fav_key fav) (writers (favourites w))) as [[g all]|].
    + destruct H as [r [Hr Hl]]. rewrite (lookup_union_Some_l _ _ _ _ Hl). exact Hr.
    + rewrite lookup_empty in H. rewrite lookup_union_r by exact H. reflexivity.
Qed.

End Refreshed.

(** ** C5: the list emitted under the key of a favourite *)

Section Emitted.
Context {lib : Library} {nw : Network}.



End Emitted.

(** ** The sleep delay of the settings screen *)

Lemma index_of_bound (x : value) (options : list Z) (i : Z) :
  index_of x options = Some i → 0 ≤ i < Z.of_nat (length options).
Proof.
  revert i. induction options as [|o options IH]; intros i; cbn [index_of length];
    [discriminate|].
  destruct (Py.eqb (VInt o) x).
  - intros H. injection H as <-. lia.
  - destruct (index_of x options) as [j|]; [|discriminate].
    intros H. injection H as <-. specialize (IH j eq_refl). lia.
Qed.

(** X24. [_cycle_sleep] always moves to one of the four delays on offer;
    from a delay that is not on offer it moves to 5; from one on offer it
    moves to another, and four steps lead back to it. *)
Theorem cycle_sleep_orbit (current : value) :
  _cycle_sleep current ∈ SLEEP_OPTIONS ∧
  (index_of current SLEEP_OPTIONS = None → _cycle_sleep current = 5) ∧
  (∀ n, n ∈ SLEEP_OPTIONS →
     _cycle_sleep (VInt n) ≠ n ∧
     _cycle_sleep (VInt (_cycle_sleep (VInt (_cycle_sleep (VInt (_cycle_sleep (VInt n))))))) = n).
Proof.
  split; [|split].
  - unfold _cycle_sleep. destruct (index_of current SLEEP_OPTIONS) as [idx|] eqn:Hidx.
    + apply index_of_bound in Hidx. cbn in Hidx.
      assert (Hcases : idx = 0 ∨ idx = 1 ∨ idx = 2 ∨ idx = 3) by lia.
      destruct Hcases as [-> | [-> | [-> | ->]]]; cbn; set_solver.
    + cbn. set_solver.
  - intros H. unfold _cycle_sleep. rewrite H. reflexivity.
  - intros n Hn. unfold SLEEP_OPTIONS in Hn.
    repeat (apply elem_of_cons in Hn as [-> | Hn]); [| | | |inversion Hn];
      (split; [discriminate | reflexivity]).
Qed.

(** ** These properties at concrete inputs *)

(** An output with a network seen twice, one in use and one without a
    signal: three networks, the one in use first. *)
Lemma wifi_scan_outcome_witness :
  let sys := Sample.system (Completed 0 Sample.nmcli_output "") in
  let networks := [WiFi.mk "Maison" 78 "WPA2" true;
                   WiFi.mk "Livebox-1234" 62 "WPA2" false;
                   WiFi.mk "Cafe" 0 "" false] in
  NoDup (map WiFi.ssid networks) ∧
  (∀ n, n ∈ networks →
     WiFi.ssid n ≠ "" ∧
     ∃ line, line ∈ str_splitlines (System := sys)
                      (str_strip (Library := Sample.library) Sample.nmcli_output) ∧
             network_of_line (lib := Sample.library) line n) ∧
  StronglySorted listed_before networks.
Proof.
  intros sys networks.
  assert (Hrun : WiFiScanWorker_run (lib := Sample.library) (sys := sys) = Ok networks)
    by (vm_compute; reflexivity).
  pose proof (wifi_scan_outcome (lib := Sample.library) (sys := sys)) as H.
  change (subprocess_run scan_command) with (Completed 0 Sample.nmcli_output "") in H.
  cbv beta iota in H.
  exact (H networks Hrun).
Defined.

Lemma wifi_connect_outcome_witness :
  let sys := Sample.system (Completed 4 "" "Error: No network with SSID 'Maison' found.") in
  let run := WiFiConnectWorker_run (lib := Sample.library) (sys := sys) "Maison" "secret" in
  snd run ≠ "" ∧
  (4 ≠ 0 → Str.ascii_strip "Error: No network with SSID 'Maison' found." ≠ "" →
     snd run = Str.ascii_strip "Error: No network with SSID 'Maison' found.").
Proof.
  intros sys run.
  apply (proj2 (wifi_connect_outcome (lib := Sample.library) (sys := sys) "Maison" "secret")
           4 "" "Error: No network with SSID 'Maison' found.").
  reflexivity.
Defined.

Lemma normalize_idempotent_witness :
  normalize (lib := Sample.library)
    (normalize (lib := Sample.library) "Saint-Germain-En-Laye <RER>") =
  normalize (lib := Sample.library) "Saint-Germain-En-Laye <RER>".
Proof. apply (normalize_idempotent "Saint-Germain-En-Laye <RER>"). reflexivity. Defined.

(** A file with an entry that lacks a required field reads as no
    favourite at all. *)
Lemma load_favourites_all_or_nothing_witness :
  load_favourites (Json Sample.broken_favourites) = Ok [].
Proof.
  apply (proj2 (load_favourites_all_or_nothing (Json Sample.broken_favourites))
           [asdict Sample.fav_halevy_1;
            VDict [("stop_area_id", VStr "43114"); ("stop_name", VStr "Chatou");
                   ("line_id", VStr "C01742")]]
           (VDict [("stop_area_id", VStr "43114"); ("stop_name", VStr "Chatou");
                   ("line_id", VStr "C01742")])).
  - reflexivity.
  - apply elem_of_cons. right. apply elem_of_cons. left. reflexivity.
  - intros fav. discriminate.
Defined.

(** A file that is not UTF-8: both loaders raise. *)
Example undecodable_files :
  load_favourites (Fails ValueError) = Raise ValueError ∧
  load_settings (Fails ValueError) = Raise ValueError.
Proof. split; reflexivity. Qed.

(** [test_duplicate_favourite_ignored], and a favourite that is new. *)
Lemma favourite_added_once_witness :
  _on_favourite_added Sample.home Sample.fav_halevy_1 = Sample.home ∧
  let w' := _on_favourite_added Sample.home Sample.fav_other_stop in
  favourites w' = favourites Sample.home ++ [Sample.fav_other_stop] ∧
  NoDup (map favourite_identity (favourites w')).
Proof.
  split.
  - apply (favourite_added_once Sample.home Sample.fav_halevy_1).
  - split.
    + apply (favourite_added_once Sample.home Sample.fav_other_stop).
    + apply (favourite_added_once Sample.home Sample.fav_other_stop).
      vm_compute. repeat constructor; set_solver.
Defined.

Lemma favourite_deleted_witness :
  let w' := _delete_favourite Sample.home Sample.fav_halevy_1 in
  (Sample.fav_halevy_nanterre_1 ∈ favourites w' ↔
     Sample.fav_halevy_nanterre_1 ∈ favourites Sample.home ∧
     favourite_identity Sample.fav_halevy_nanterre_1 ≠ favourite_identity Sample.fav_halevy_1) ∧
  favourites (_delete_favourite (_on_favourite_added Sample.home Sample.fav_other_stop)
                Sample.fav_other_stop)
  = favourites Sample.home.
Proof.
  split.
  - apply (favourite_deleted Sample.home Sample.fav_halevy_1).
  - apply (favourite_deleted Sample.home Sample.fav_other_stop).
    vm_compute. set_solver.
Defined.

Lemma favourites_file_in_step_witness :
  let w' := _delete_favourite Sample.home Sample.fav_halevy_1 in
  load_favourites (favourites_file w') = Ok (map loaded (favourites w')).
Proof.
  apply (favourites_file_in_step Sample.home Sample.fav_halevy_1 ∅).
  - reflexivity.
  - right. left. reflexivity.
Defined.

Lemma delete_favourite_clears_shared_key_witness :
  (Sample.fav_halevy_nanterre_1, [])
  ∈ _rebuild_home (_delete_favourite Sample.home Sample.fav_halevy_1).
Proof.
  apply (delete_favourite_clears_shared_key Sample.home Sample.fav_halevy_1
           Sample.fav_halevy_nanterre_1).
  - apply elem_of_cons. right. apply elem_of_cons. left. reflexivity.
  - discriminate.
  - reflexivity.
Defined.

Lemma cycle_sleep_orbit_witness :
  _cycle_sleep (VInt 7) = 5 ∧
  _cycle_sleep (VInt 30) ≠ 30 ∧
  _cycle_sleep (VInt (_cycle_sleep (VInt (_cycle_sleep (VInt (_cycle_sleep (VInt 30))))))) = 30.
Proof.
  split.
  - apply (cycle_sleep_orbit (VInt 7)). reflexivity.
  - apply (cycle_sleep_orbit (VInt 30)).
    apply elem_of_cons. right. apply elem_of_cons. right. apply elem_of_cons. left.
    reflexivity.
Defined.

Lemma returned_run_finished {lib : Library} {nw : Network} (favs : list Favourite.t) :
  let run := run_of (DepartureWorker_run favs) in
  fst run = Ok () → DepartureFinished (results (snd run)) ∈ events (snd run).
Proof.
  intros run. subst run. rewrite DepartureWorker_run_eq.
  destruct (for_each fetch_group (group_favourites favs) world0) as [[[]|e] w];
    [|discriminate].
  intros _. cbn [snd events results]. apply elem_of_app. right.
  apply list_elem_of_singleton. reflexivity.
Qed.

(** A refresh of the window with two favourites under one key: both are
    listed with what the run stored last under it. *)
Lemma refreshed_display_witness :
  let nw := Sample.scripted [NetJson Sample.one_direction_response] in
  let run := run_of (DepartureWorker_run (lib := Sample.library) (nw := nw)
                       (favourites Sample.home)) in
  ∃ departures,
    (Sample.fav_halevy_1, departures)
    ∈ _rebuild_home (_on_departures_received Sample.home (results (snd run))) ∧
    match last_writer (lib := Sample.library) (fav_key Sample.fav_halevy_1)
            (writers (lib := Sample.library) (nw := nw) (favourites Sample.home)) with
    | Some (g, all_departures) =>
        select (lib := Sample.library) g all_departures = Ok departures
    | None =>
        departures = default [] (departure_map Sample.home !! fav_key Sample.fav_halevy_1)
    end.
Proof.
  intros nw run.
  apply (refreshed_display (lib := Sample.library) (nw := nw) Sample.home
           (results (snd run)) Sample.fav_halevy_1).
  - apply (returned_run_finished (lib := Sample.library) (nw := nw)). vm_compute. reflexivity.
  - apply elem_of_cons. left. reflexivity.
Defined.


